(** * AliMPay helper scripts: request signing, payment URLs, deep-link harness

    A shallow embedding of the four Python scripts of the repository

      - [generate_payment_url.py]      (module [GeneratePaymentUrl])
      - [generate_payment_url_v2.py]   (module [GeneratePaymentUrlV2])
      - [test_payment.py]              (module [TestPayment])
      - [test_alipay_deeplink.py]      (module [TestAlipayDeeplink])

    together with the parts of the Python runtime they call: [str] values as
    sequences of Unicode code points, [str.encode] (UTF-8), [hashlib.md5]
    (RFC 1321), [str()] / f-string formatting of the built-in scalar types,
    insertion-ordered dictionaries, [sorted] and [urllib.parse.urlencode].

    In these four modules the console output ([print]) of the signing
    functions is left out: it does not influence any returned value.

    The interactive entry points, [main] of the two generators, run against
    a terminal (module [Console]): the lines that standard input holds, and
    a trace of what is printed, prompted for and handed to the browser.
    They are in the modules [GeneratePaymentUrlCli] and
    [GeneratePaymentUrlV2Cli]; the latter has the v2 signer and builder once
    more, with what they print. *)

From Stdlib Require Import String Ascii.
From Stdlib Require Import ZArith List Lia Bool DecimalPos Permutation Sorted.
Import ListNotations.
Open Scope Z_scope.

(* ================================================================== *)
(** * Python exceptions and fallible computations *)

Inductive pyexc : Type :=
| UnicodeEncodeError
| TypeError
| KeyError
| ConnectionError
| OtherException.

Inductive result (A : Type) : Type :=
| Ok (a : A)
| Raise (e : pyexc).
Arguments Ok {A} a.
Arguments Raise {A} e.

Definition bind {A B} (m : result A) (k : A -> result B) : result B :=
  match m with
  | Ok a => k a
  | Raise e => Raise e
  end.

Notation "x <- m ;; k" := (bind m (fun x => k))
  (at level 61, m at next level, right associativity).

(* ================================================================== *)
(** * Text: [str] as a list of code points, [bytes] as a list of octets *)

Definition pystr := list Z.
Definition pybytes := list Z.

Definition is_surrogate (c : Z) : bool := (0xD800 <=? c) && (c <=? 0xDFFF).

(** One code point to UTF-8, as CPython's strict encoder does: lone
    surrogates are rejected. *)
Definition encode_cp (c : Z) : option pybytes :=
  if c <? 0 then None
  else if c <? 0x80 then Some [c]
  else if c <? 0x800 then Some [0xC0 + c / 64; 0x80 + c mod 64]
  else if c <? 0x10000 then
    if is_surrogate c then None
    else Some [0xE0 + c / 4096; 0x80 + (c / 64) mod 64; 0x80 + c mod 64]
  else if c <? 0x110000 then
    Some [0xF0 + c / 262144; 0x80 + (c / 4096) mod 64;
          0x80 + (c / 64) mod 64; 0x80 + c mod 64]
  else None.

(** [text.encode('utf-8')] *)
Fixpoint encode (s : pystr) : result pybytes :=
  match s with
  | [] => Ok []
  | c :: s' =>
      match encode_cp c with
      | None => Raise UnicodeEncodeError
      | Some bs => rest <- encode s' ;; Ok (bs ++ rest)
      end
  end.

Definition is_cont (b : Z) : bool := (0x80 <=? b) && (b <? 0xC0).

(** Strict UTF-8 decoding (shortest form only, no surrogates). *)
Fixpoint decode (bs : pybytes) : option pystr :=
  match bs with
  | [] => Some []
  | b0 :: r0 =>
      if (0 <=? b0) && (b0 <? 0x80) then option_map (cons b0) (decode r0)
      else if (0xC2 <=? b0) && (b0 <? 0xE0) then
        match r0 with
        | b1 :: r1 =>
            if is_cont b1
            then option_map (cons ((b0 - 0xC0) * 64 + (b1 - 0x80))) (decode r1)
            else None
        | _ => None
        end
      else if (0xE0 <=? b0) && (b0 <? 0xF0) then
        match r0 with
        | b1 :: b2 :: r2 =>
            let c := (b0 - 0xE0) * 4096 + (b1 - 0x80) * 64 + (b2 - 0x80) in
            if is_cont b1 && is_cont b2 && (0x800 <=? c) && negb (is_surrogate c)
            then option_map (cons c) (decode r2)
            else None
        | _ => None
        end
      else if (0xF0 <=? b0) && (b0 <? 0xF5) then
        match r0 with
        | b1 :: b2 :: b3 :: r3 =>
            let c := (b0 - 0xF0) * 262144 + (b1 - 0x80) * 4096
                     + (b2 - 0x80) * 64 + (b3 - 0x80) in
            if is_cont b1 && is_cont b2 && is_cont b3
               && (0x10000 <=? c) && (c <? 0x110000)
            then option_map (cons c) (decode r3)
            else None
        | _ => None
        end
      else None
  end.

(** Source literals: the octets of a Rocq string read as UTF-8. *)
Fixpoint octets (s : string) : pybytes :=
  match s with
  | EmptyString => []
  | String a s' => Z.of_N (N_of_ascii a) :: octets s'
  end.

Definition lit (s : string) : pystr :=
  match decode (octets s) with
  | Some t => t
  | None => []
  end.

Fixpoint str_eqb (a b : pystr) : bool :=
  match a, b with
  | [], [] => true
  | x :: a', y :: b' => (x =? y) && str_eqb a' b'
  | _, _ => false
  end.

(** [a < b] on [str]: lexicographic on code points. *)
Fixpoint str_ltb (a b : pystr) : bool :=
  match a, b with
  | _, [] => false
  | [], _ :: _ => true
  | x :: a', y :: b' => (x <? y) || ((x =? y) && str_ltb a' b')
  end.

(** [sep.join(parts)] *)
Fixpoint join (sep : pystr) (parts : list pystr) : pystr :=
  match parts with
  | [] => []
  | [p] => p
  | p :: ps => p ++ sep ++ join sep ps
  end.

(* ================================================================== *)
(** * [hashlib.md5]: the MD5 message digest of RFC 1321 *)

Module MD5.

Definition w32 (x : Z) : Z := x mod 2 ^ 32.
Definition add32 (x y : Z) : Z := w32 (x + y).
Definition not32 (x : Z) : Z := Z.lxor x 0xFFFFFFFF.
Definition rotl32 (x n : Z) : Z :=
  w32 (Z.lor (Z.shiftl x n) (Z.shiftr x (32 - n))).

Definition F (x y z : Z) := Z.lor (Z.land x y) (Z.land (not32 x) z).
Definition G (x y z : Z) := Z.lor (Z.land x z) (Z.land y (not32 z)).
Definition H (x y z : Z) := Z.lxor (Z.lxor x y) z.
Definition I (x y z : Z) := Z.lxor y (Z.lor x (not32 z)).

(** T[i] = floor(2^32 * |sin(i + 1)|) *)
Definition T : list Z :=
  [ 0xd76aa478; 0xe8c7b756; 0x242070db; 0xc1bdceee;
    0xf57c0faf; 0x4787c62a; 0xa8304613; 0xfd469501;
    0x698098d8; 0x8b44f7af; 0xffff5bb1; 0x895cd7be;
    0x6b901122; 0xfd987193; 0xa679438e; 0x49b40821;
    0xf61e2562; 0xc040b340; 0x265e5a51; 0xe9b6c7aa;
    0xd62f105d; 0x02441453; 0xd8a1e681; 0xe7d3fbc8;
    0x21e1cde6; 0xc33707d6; 0xf4d50d87; 0x455a14ed;
    0xa9e3e905; 0xfcefa3f8; 0x676f02d9; 0x8d2a4c8a;
    0xfffa3942; 0x8771f681; 0x6d9d6122; 0xfde5380c;
    0xa4beea44; 0x4bdecfa9; 0xf6bb4b60; 0xbebfbc70;
    0x289b7ec6; 0xeaa127fa; 0xd4ef3085; 0x04881d05;
    0xd9d4d039; 0xe6db99e5; 0x1fa27cf8; 0xc4ac5665;
    0xf4292244; 0x432aff97; 0xab9423a7; 0xfc93a039;
    0x655b59c3; 0x8f0ccc92; 0xffeff47d; 0x85845dd1;
    0x6fa87e4f; 0xfe2ce6e0; 0xa3014314; 0x4e0811a1;
    0xf7537e82; 0xbd3af235; 0x2ad7d2bb; 0xeb86d391 ].

(** Per-round left-rotation amounts. *)
Definition S : list Z :=
  [ 7; 12; 17; 22; 7; 12; 17; 22; 7; 12; 17; 22; 7; 12; 17; 22;
    5;  9; 14; 20; 5;  9; 14; 20; 5;  9; 14; 20; 5;  9; 14; 20;
    4; 11; 16; 23; 4; 11; 16; 23; 4; 11; 16; 23; 4; 11; 16; 23;
    6; 10; 15; 21; 6; 10; 15; 21; 6; 10; 15; 21; 6; 10; 15; 21 ].

Definition state : Type := (Z * Z * Z * Z)%type.

Definition init : state := (0x67452301, 0xefcdab89, 0x98badcfe, 0x10325476).

Definition zth (l : list Z) (i : Z) : Z := nth (Z.to_nat i) l 0.

(** Step [i] (0 <= i < 64) of the compression of one 16-word block [M]. *)
Definition step (M : list Z) (st : state) (i : Z) : state :=
  let '(a, b, c, d) := st in
  let '(f, g) :=
    if i <? 16 then (F b c d, i)
    else if i <? 32 then (G b c d, (5 * i + 1) mod 16)
    else if i <? 48 then (H b c d, (3 * i + 5) mod 16)
    else (I b c d, (7 * i) mod 16) in
  let f' := add32 (add32 (add32 f a) (zth T i)) (zth M g) in
  (d, add32 b (rotl32 f' (zth S i)), b, c).

Definition rounds : list Z := map Z.of_nat (seq 0 64).

Definition compress (st : state) (M : list Z) : state :=
  let '(a0, b0, c0, d0) := st in
  let '(a, b, c, d) := fold_left (step M) rounds st in
  (add32 a0 a, add32 b0 b, add32 c0 c, add32 d0 d).

(** Little-endian octets of a value, [n] of them. *)
Fixpoint le_bytes (n : nat) (x : Z) : pybytes :=
  match n with
  | O => []
  | Datatypes.S n' => x mod 256 :: le_bytes n' (x / 256)
  end.

Fixpoint le_word (bs : pybytes) : Z :=
  match bs with
  | [] => 0
  | b :: bs' => b + 256 * le_word bs'
  end.

(** Padding: one 0x80 octet, zeros up to 56 modulo 64, then the bit length
    as 64 bits, low-order octet first. *)
Definition pad (msg : pybytes) : pybytes :=
  let len := Z.of_nat (length msg) in
  let zeros := Z.to_nat ((55 - len) mod 64) in
  msg ++ [0x80] ++ repeat 0 zeros ++ le_bytes 8 ((8 * len) mod 2 ^ 64).

(** Split into groups of [n] octets; [fuel] bounds the number of groups. *)
Fixpoint chunks (fuel n : nat) (bs : pybytes) : list pybytes :=
  match fuel with
  | O => []
  | Datatypes.S fuel' =>
      match bs with
      | [] => []
      | _ => firstn n bs :: chunks fuel' n (skipn n bs)
      end
  end.

Definition words (block : pybytes) : list Z :=
  map le_word (chunks 16 4 block).

Definition blocks (msg : pybytes) : list (list Z) :=
  let p := pad msg in
  map words (chunks (length p) 64 p).

Definition digest (msg : pybytes) : pybytes :=
  let '(a, b, c, d) := fold_left compress (blocks msg) init in
  le_bytes 4 a ++ le_bytes 4 b ++ le_bytes 4 c ++ le_bytes 4 d.

Definition hexdigit (d : Z) : Z := if d <? 10 then 48 + d else 87 + d.

Definition hex_of_byte (b : Z) : pystr := [hexdigit (b / 16); hexdigit (b mod 16)].

(** [hashlib.md5(data).hexdigest()] *)
Definition hexdigest (msg : pybytes) : pystr :=
  concat (map hex_of_byte (digest msg)).

End MD5.

(* ================================================================== *)
(** * Python scalar values *)

(** A [float] is an IEEE 754 binary64 datum.  A finite one is kept exactly,
    as sign, integer significand [m] (0 <= m < 2^53) and binary exponent [e]
    (-1074 <= e <= 971): its value is (-1)^neg * m * 2^e, with m >= 2^52
    whenever e > -1074. *)
Inductive pyfloat : Type :=
| FFinite (neg : bool) (m e : Z)
| FInf (neg : bool)
| FNan.

Inductive pyval : Type :=
| VNone
| VBool (b : bool)
| VInt (n : Z)
| VFloat (f : pyfloat)
| VStr (s : pystr).

(** Truth value testing, as used by [if v]. *)
Definition truthy (v : pyval) : bool :=
  match v with
  | VNone => false
  | VBool b => b
  | VInt n => negb (n =? 0)
  | VFloat (FFinite _ m _) => negb (m =? 0)
  | VFloat _ => true
  | VStr s => match s with [] => false | _ => true end
  end.

(** ** Decimal rendering of integers *)

Fixpoint uint_digits (d : Decimal.uint) : pystr :=
  match d with
  | Decimal.Nil => []
  | Decimal.D0 d' => 48 :: uint_digits d'
  | Decimal.D1 d' => 49 :: uint_digits d'
  | Decimal.D2 d' => 50 :: uint_digits d'
  | Decimal.D3 d' => 51 :: uint_digits d'
  | Decimal.D4 d' => 52 :: uint_digits d'
  | Decimal.D5 d' => 53 :: uint_digits d'
  | Decimal.D6 d' => 54 :: uint_digits d'
  | Decimal.D7 d' => 55 :: uint_digits d'
  | Decimal.D8 d' => 56 :: uint_digits d'
  | Decimal.D9 d' => 57 :: uint_digits d'
  end.

(** Digits of a non-negative integer, most significant first. *)
Definition nat_digits (n : Z) : pystr := uint_digits (N.to_uint (Z.to_N n)).

(** [str(n)] for an [int]. *)
Definition int_str (n : Z) : pystr :=
  if n <? 0 then 45 :: nat_digits (- n) else nat_digits n.

(** ** [repr] of a float (which [str] and [format(x, '')] return)

    CPython prints the shortest digit string that reads back as the same
    binary64 value, the closest to it among the shortest, in fixed notation
    when the decimal point position is in (-4, 16] and in exponent notation
    otherwise. *)
Module FloatRepr.

Section Shortest.
(** The float is m * 2^e; with sc/den = 2^(e-2) its value is 4m * sc/den,
    and the values that read back as it lie between lo * sc/den and
    hi * sc/den, the ends included when m is even (ties go to even). *)
Variables m e : Z.

Let sc : Z := if 2 <=? e then 2 ^ (e - 2) else 1.
Let den : Z := if 2 <=? e then 1 else 2 ^ (2 - e).
Let below : Z := if (m =? 2 ^ 52) && (-1074 <? e) then 1 else 2.
Let x : Z := 4 * m * sc.
Let lo : Z := (4 * m - below) * sc.
Let hi : Z := (4 * m + 2) * sc.

(** Candidates D * 10^p, for the two D next to the value. *)
Definition candidate (p : Z) : option Z :=
  let tn := if 0 <=? p then 10 ^ p else 1 in
  let td := if 0 <=? p then 1 else 10 ^ (- p) in
  let g := tn * den in
  let d0 := (x * td) / g in
  let d1 := d0 + 1 in
  let inside (d : Z) :=
    ((lo * td <? d * g) || (Z.even m && (lo * td =? d * g)))
    && ((d * g <? hi * td) || (Z.even m && (d * g =? hi * td))) in
  let ok0 := inside d0 && (0 <? d0) in
  let ok1 := inside d1 in
  let dist0 := x * td - d0 * g in
  let dist1 := d1 * g - x * td in
  if ok0 && ok1 then
    if dist0 <? dist1 then Some d0
    else if dist1 <? dist0 then Some d1
    else Some (if Z.even d0 then d0 else d1)
  else if ok0 then Some d0
  else if ok1 then Some d1
  else None.

(** Coarsest power of ten first. *)
Fixpoint search (fuel : nat) (p : Z) : Z * Z :=
  match fuel with
  | O => (0, 0)
  | S fuel' =>
      match candidate p with
      | Some d => (d, p)
      | None => search fuel' (p - 1)
      end
  end.

Definition shortest : Z * Z := search 700 309.
End Shortest.

Definition zeros (n : Z) : pystr := repeat 48 (Z.to_nat n).

Definition exponent_str (x : Z) : pystr :=
  let ds := nat_digits (Z.abs x) in
  (if x <? 0 then 45 else 43)
    :: (if Z.abs x <? 10 then 48 :: ds else ds).

(** Layout of the digits [ds] with the decimal point after [decpt] of them. *)
Definition layout (ds : pystr) (decpt : Z) : pystr :=
  let n := Z.of_nat (length ds) in
  if (-4 <? decpt) && (decpt <=? 16) then
    if decpt <=? 0 then [48; 46] ++ zeros (- decpt) ++ ds
    else if n <=? decpt then ds ++ zeros (decpt - n) ++ [46; 48]
    else firstn (Z.to_nat decpt) ds ++ [46] ++ skipn (Z.to_nat decpt) ds
  else
    firstn 1 ds
      ++ (match skipn 1 ds with [] => [] | frac => 46 :: frac end)
      ++ [101] ++ exponent_str (decpt - 1).

Definition float_repr (f : pyfloat) : pystr :=
  match f with
  | FNan => [110; 97; 110]
  | FInf neg => (if neg then [45] else []) ++ [105; 110; 102]
  | FFinite neg m e =>
      (if neg then [45] else [])
        ++ (if m =? 0 then [48; 46; 48]
            else let '(d, p) := shortest m e in
                 let ds := nat_digits d in
                 layout ds (Z.of_nat (length ds) + p))
  end.

End FloatRepr.

(** [str(v)]; for these types [format(v, '')], which an f-string
    replacement field [{v}] calls, returns the same text. *)
Definition py_str (v : pyval) : pystr :=
  match v with
  | VNone => [78; 111; 110; 101]
  | VBool true => [84; 114; 117; 101]
  | VBool false => [70; 97; 108; 115; 101]
  | VInt n => int_str n
  | VFloat f => FloatRepr.float_repr f
  | VStr s => s
  end.

(* ================================================================== *)
(** * Dictionaries, [sorted], and [urllib.parse.urlencode] *)

(** A [dict] with [str] keys, in insertion order.  Python keeps keys unique:
    a lookup finds the one entry of a key, and storing under a key that is
    there replaces its value in place. *)
Definition dict := list (pystr * pyval).

Fixpoint dict_get (d : dict) (k : pystr) : option pyval :=
  match d with
  | [] => None
  | (k', v) :: d' => if str_eqb k k' then Some v else dict_get d' k
  end.

(** [d.get(k, dflt)] *)
Definition dict_get_default (d : dict) (k : pystr) (dflt : pyval) : pyval :=
  match dict_get d k with
  | Some v => v
  | None => dflt
  end.

(** [d[k]] *)
Definition dict_item (d : dict) (k : pystr) : result pyval :=
  match dict_get d k with
  | Some v => Ok v
  | None => Raise KeyError
  end.

(** [d[k] = v]: an existing key keeps its position, a new one goes last. *)
Fixpoint dict_set (d : dict) (k : pystr) (v : pyval) : dict :=
  match d with
  | [] => [(k, v)]
  | (k', v') :: d' =>
      if str_eqb k k' then (k', v) :: d' else (k', v') :: dict_set d' k v
  end.

(** [d.pop(k, None)]: the entry of [k], if there is one, is removed. *)
Fixpoint dict_del (d : dict) (k : pystr) : dict :=
  match d with
  | [] => []
  | (k', v') :: d' =>
      if str_eqb k k' then d' else (k', v') :: dict_del d' k
  end.

(** [sorted]: a stable insertion sort for the order [ltb]. *)
Section Sorted.
Context {A : Type} (ltb : A -> A -> bool).

Fixpoint insert (x : A) (l : list A) : list A :=
  match l with
  | [] => [x]
  | h :: t => if ltb h x then h :: insert x t else x :: l
  end.

Definition sorted (l : list A) : list A := fold_right insert [] l.
End Sorted.

(** Items are compared as tuples; the keys of a dict are distinct, so the
    comparison of two items is the comparison of their keys. *)
Definition item_ltb (a b : pystr * pyval) : bool := str_ltb (fst a) (fst b).

Fixpoint mapM {A B} (f : A -> result B) (l : list A) : result (list B) :=
  match l with
  | [] => Ok []
  | x :: l' => y <- f x ;; ys <- mapM f l' ;; Ok (y :: ys)
  end.

Module UrlLib.

(** [_ALWAYS_SAFE]: ASCII letters, digits and [_.-~]. *)
Definition always_safe (b : Z) : bool :=
  ((65 <=? b) && (b <=? 90)) || ((97 <=? b) && (b <=? 122))
  || ((48 <=? b) && (b <=? 57))
  || (b =? 95) || (b =? 46) || (b =? 45) || (b =? 126).

Definition hexdigit_upper (d : Z) : Z := if d <? 10 then 48 + d else 55 + d.

(** One octet of [quote_from_bytes]: kept when safe, else [%XX]. *)
Definition quote_byte (safe : list Z) (b : Z) : pystr :=
  if always_safe b || existsb (Z.eqb b) safe then [b]
  else [37; hexdigit_upper (b / 16); hexdigit_upper (b mod 16)].

(** [quote(string, safe)] on a [str]: UTF-8, strict. *)
Definition quote (safe : list Z) (s : pystr) : result pystr :=
  bs <- encode s ;; Ok (concat (map (quote_byte safe) bs)).

(** [quote_plus(string)]: spaces are kept by [quote] and then turned
    into [+]. *)
Definition quote_plus (s : pystr) : result pystr :=
  if existsb (Z.eqb 32) s then
    q <- quote [32] s ;; Ok (map (fun c => if c =? 32 then 43 else c) q)
  else quote [] s.

(** [urlencode(query)] for a dict. *)
Definition urlencode (query : dict) : result pystr :=
  l <- mapM (fun kv => k <- quote_plus (fst kv) ;;
                       v <- quote_plus (py_str (snd kv)) ;;
                       Ok (k ++ [61] ++ v)) query ;;
  Ok (join [38] l).

End UrlLib.

(* ================================================================== *)
(** * generate_payment_url.py *)

Module GeneratePaymentUrl.

Definition PID : pystr := lit "1001003549245339".
Definition KEY : pystr := lit "cd5dcdcbef4da67b9f3a01b1e391ab86".
Definition BASE_URL : pystr := lit "http://localhost:8080/submit".

(** Every item as [k=v], in sorted order, joined by [&]. *)
Definition canonical (params : dict) : pystr :=
  let sorted_params := sorted item_ltb params in
  join [38] (map (fun kv => fst kv ++ [61] ++ py_str (snd kv)) sorted_params).

(** The string that is hashed. *)
Definition sign_str (params : dict) (key : pystr) : pystr :=
  canonical params ++ key.

Definition generate_sign (params : dict) (key : pystr) : result pystr :=
  bs <- encode (sign_str params key) ;; Ok (MD5.hexdigest bs).

Definition order_params (now : Z) (amount product_name : pyval) : dict :=
  [ (lit "pid", VStr PID);
    (lit "type", VStr (lit "alipay"));
    (lit "out_trade_no", VStr (lit "TEST" ++ int_str now));
    (lit "notify_url", VStr (lit "http://example.com/notify"));
    (lit "return_url", VStr (lit "http://example.com/return"));
    (lit "name", product_name);
    (lit "money", amount) ].

(** [now] is [int(time.time())]; an argument left out ([None]) takes the
    default of the signature. *)
Definition generate_payment_url (now : Z) (amount product_name : option pyval)
  : result (pystr * dict) :=
  let amount := match amount with Some a => a | None => VStr (lit "0.01") end in
  let product_name :=
    match product_name with Some n => n | None => VStr (lit "测试商品") end in
  let params := order_params now amount product_name in
  sign <- generate_sign params KEY ;;
  let params := dict_set params (lit "sign") (VStr sign) in
  let params := dict_set params (lit "sign_type") (VStr (lit "MD5")) in
  q <- UrlLib.urlencode params ;;
  Ok (BASE_URL ++ lit "?" ++ q, params).

End GeneratePaymentUrl.

(* ================================================================== *)
(** * generate_payment_url_v2.py *)

Module GeneratePaymentUrlV2.

Definition md5 (text : pystr) : result pystr :=
  bs <- encode text ;; Ok (MD5.hexdigest bs).

(** [k in ['sign', 'sign_type']] *)
Definition reserved (k : pystr) : bool :=
  existsb (str_eqb k) [lit "sign"; lit "sign_type"].

Definition filtered (params : dict) : dict :=
  filter (fun kv => truthy (snd kv) && negb (reserved (fst kv))) params.

Definition sign_str (params : dict) : result pystr :=
  let filtered := filtered params in
  let sorted_keys := sorted str_ltb (map fst filtered) in
  parts <- mapM (fun k => v <- dict_item filtered k ;;
                          Ok (k ++ [61] ++ py_str v)) sorted_keys ;;
  Ok (join [38] parts).

Definition generate_sign (params : dict) (key : pystr) : result pystr :=
  sign_str <- sign_str params ;;
  let sign_str_with_key := sign_str ++ key in
  md5 sign_str_with_key.

Definition default_params (now : Z) (pid : pyval) (kwargs : dict) : dict :=
  [ (lit "pid", pid);
    (lit "type", dict_get_default kwargs (lit "type") (VStr (lit "alipay")));
    (lit "out_trade_no",
      dict_get_default kwargs (lit "out_trade_no")
        (VStr (lit "TEST" ++ int_str now)));
    (lit "notify_url",
      dict_get_default kwargs (lit "notify_url")
        (VStr (lit "http://example.com/notify")));
    (lit "return_url",
      dict_get_default kwargs (lit "return_url")
        (VStr (lit "http://example.com/return")));
    (lit "name", dict_get_default kwargs (lit "name") (VStr (lit "测试商品")));
    (lit "money",
      VStr (py_str (dict_get_default kwargs (lit "money") (VStr (lit "0.01")))));
    (lit "sign_type", VStr (lit "MD5")) ].

(** [now] is [int(time.time())], read when the defaults are built. *)
Definition generate_payment_url
  (now : Z) (base_url : pystr) (pid : pyval) (merchant_key : pystr)
  (kwargs : dict) : result (pystr * dict) :=
  let params := default_params now pid kwargs in
  let params :=
    match dict_get kwargs (lit "sitename") with
    | Some v => if truthy v then dict_set params (lit "sitename") v else params
    | None => params
    end in
  sign <- generate_sign params merchant_key ;;
  let params := dict_set params (lit "sign") (VStr sign) in
  query_string <- UrlLib.urlencode params ;;
  let full_url := base_url ++ lit "/submit?" ++ query_string in
  Ok (full_url, params).

End GeneratePaymentUrlV2.

(* ================================================================== *)
(** * test_payment.py *)

Module TestPayment.

Definition md5 (text : pystr) : result pystr :=
  bs <- encode text ;; Ok (MD5.hexdigest bs).

Definition reserved (k : pystr) : bool :=
  existsb (str_eqb k) [lit "sign"; lit "sign_type"].

Definition filtered (params : dict) : dict :=
  filter (fun kv => truthy (snd kv) && negb (reserved (fst kv))) params.

Definition sign_str (params : dict) : result pystr :=
  let filtered := filtered params in
  let sorted_keys := sorted str_ltb (map fst filtered) in
  parts <- mapM (fun k => v <- dict_item filtered k ;;
                          Ok (k ++ [61] ++ py_str v)) sorted_keys ;;
  Ok (join [38] parts).

Definition generate_sign (params : dict) (key : pystr) : result pystr :=
  sign_str <- sign_str params ;;
  let sign_str_with_key := sign_str ++ key in
  md5 sign_str_with_key.

Definition PID : pystr := lit "1001001276912812".
Definition KEY : pystr := lit "f872e1c662d41cf218b5dfa8328ae455".
Definition BASE_URL : pystr := lit "http://localhost:8080".

Definition params (now : Z) : dict :=
  [ (lit "pid", VStr PID);
    (lit "type", VStr (lit "alipay"));
    (lit "out_trade_no", VStr (lit "TEST" ++ int_str now));
    (lit "notify_url", VStr (lit "http://example.com/notify"));
    (lit "return_url", VStr (lit "http://example.com/return"));
    (lit "name", VStr (lit "测试商品"));
    (lit "money", VStr (lit "0.01"));
    (lit "sign_type", VStr (lit "MD5")) ].

(** The module body: the URL it prints. *)
Definition full_url (now : Z) : result pystr :=
  sign <- generate_sign (params now) KEY ;;
  let params := dict_set (params now) (lit "sign") (VStr sign) in
  query_string <- UrlLib.urlencode params ;;
  Ok (BASE_URL ++ lit "/submit?" ++ query_string).

End TestPayment.

(* ================================================================== *)
(** * test_alipay_deeplink.py *)

Module TestAlipayDeeplink.

Definition BASE_URL : pystr := lit "http://localhost:8080".
Definition QR_CODE_ID : pystr := lit "fkx12345678901234".
(** The float literal [1.23]: 0x1.3ae147ae147aep+0. *)
Definition AMOUNT : pyval := VFloat (FFinite false 5539427541665710 (-52)).
Definition REMARK : pystr := lit "测试订单".

(** A call [requests.get(url, allow_redirects=...)]. *)
Record request : Type := { url : pystr; allow_redirects : bool }.

(** What the script reads of a [requests.Response]: the status code, the
    [Location] header when there is one, the body text, and the text
    [json.dumps(response.json(), indent=2, ensure_ascii=False)] when the body
    is JSON. *)
Record response : Type :=
  { status_code : Z;
    location : option pystr;
    text : pystr;
    json_dumps : option pystr }.

(** What a run does to the outside: requests sent and lines printed. *)
Inductive event : Type :=
| Get (r : request)
| Out (line : pystr).

Definition requests_of (tr : list event) : list request :=
  flat_map (fun ev => match ev with Get r => [r] | Out _ => [] end) tr.

(** A computation reads the trace so far, extends it, and returns or
    raises. *)
Definition io (A : Type) : Type := list event -> result A * list event.

Definition io_ret {A} (a : A) : io A := fun tr => (Ok a, tr).

Definition io_bind {A B} (m : io A) (k : A -> io B) : io B :=
  fun tr =>
    match m tr with
    | (Ok a, tr') => k a tr'
    | (Raise e, tr') => (Raise e, tr')
    end.

Definition io_seq {A B} (m : io A) (k : io B) : io B := io_bind m (fun _ => k).

Definition lift {A} (r : result A) : io A := fun tr => (r, tr).

Definition print (line : pystr) : io unit := fun tr => (Ok tt, tr ++ [Out line]).

(** [try: body except Exception as e: handler(e)] *)
Definition try_except {A} (body : io A) (handler : pyexc -> io A) : io A :=
  fun tr =>
    match body tr with
    | (Ok a, tr') => (Ok a, tr')
    | (Raise e, tr') => handler e tr'
    end.

Notation "x <-- m ;;; k" := (io_bind m (fun x => k))
  (at level 61, m at next level, right associativity).
Notation "m ;;; k" := (io_seq m k) (at level 61, right associativity).

Section Harness.
(** The network and the server behind it: the outcome of a request, given
    the requests sent before it. *)
Variable server : list request -> request -> result response.
(** [str(e)] of an exception. *)
Variable exc_str : pyexc -> pystr.

Definition requests_get (u : pystr) (redirects : bool) : io response :=
  fun tr =>
    let r := {| url := u; allow_redirects := redirects |} in
    (server (requests_of tr) r, tr ++ [Get r]).

Definition print_header (title : pystr) : io unit :=
  print (10 :: repeat 61 60%nat) ;;;
  print (lit "  " ++ title) ;;;
  print (repeat 61 60%nat).

Definition print_test (test_name u : pystr) (resp : response) : io unit :=
  print (10 :: test_name) ;;;
  print (repeat 45 60%nat) ;;;
  print (lit "请求: " ++ u) ;;;
  print (lit "状态码: " ++ int_str (status_code resp)) ;;;
  print (lit "响应:") ;;;
  match json_dumps resp with
  | Some j => print j
  | None => print (text resp)
  end.

(** The body shared by tests 1 to 5. *)
Definition link_test (test_name : pystr) (params : dict) : io response :=
  q <-- lift (UrlLib.urlencode params) ;;;
  let u := BASE_URL ++ lit "/alipay/link?" ++ q in
  resp <-- requests_get u true ;;;
  print_test test_name u resp ;;;
  io_ret resp.

Definition test_default_qr_code_id : io response :=
  link_test (lit "测试1: 使用默认二维码ID生成深链接")
    [ (lit "amount", AMOUNT); (lit "remark", VStr REMARK) ].

Definition test_custom_qr_code_id : io response :=
  link_test (lit "测试2: 使用自定义二维码ID生成深链接")
    [ (lit "qr_code_id", VStr QR_CODE_ID); (lit "amount", AMOUNT);
      (lit "remark", VStr REMARK) ].

Definition test_no_amount : io response :=
  link_test (lit "测试3: 仅生成二维码链接（不带金额）")
    [ (lit "qr_code_id", VStr QR_CODE_ID) ].

Definition test_missing_qr_code_id : io response :=
  link_test (lit "测试4: 错误场景 - 缺少二维码ID")
    [ (lit "amount", AMOUNT) ].

Definition test_invalid_amount : io response :=
  link_test (lit "测试5: 错误场景 - 无效金额格式")
    [ (lit "qr_code_id", VStr QR_CODE_ID);
      (lit "amount", VStr (lit "invalid")) ].

Definition test_redirect_to_alipay : io response :=
  q <-- lift (UrlLib.urlencode
                [ (lit "qr_code_id", VStr QR_CODE_ID); (lit "amount", AMOUNT);
                  (lit "remark", VStr REMARK) ]) ;;;
  let u := BASE_URL ++ lit "/alipay/pay?" ++ q in
  resp <-- requests_get u false ;;;
  print (10 :: lit "测试6: 直接重定向到支付宝") ;;;
  print (repeat 45 60%nat) ;;;
  print (lit "请求: " ++ u) ;;;
  print (lit "状态码: " ++ int_str (status_code resp)) ;;;
  match location resp with
  | Some l => print (lit "重定向URL: " ++ l)
  | None => print (lit "未发现重定向")
  end ;;;
  io_ret resp.

Definition run_all_tests : io unit :=
  test_default_qr_code_id ;;;
  test_custom_qr_code_id ;;;
  test_no_amount ;;;
  test_missing_qr_code_id ;;;
  test_invalid_amount ;;;
  test_redirect_to_alipay ;;;
  print_header (lit "测试完成") ;;;
  print (10 :: lit "提示：") ;;;
  print (lit "1. 请确保服务已启动: make run") ;;;
  print (lit "2. 深链接仅在移动设备上有效") ;;;
  print (lit "3. 需要在配置文件中设置正确的 qr_code_id") ;;;
  print [].

Definition on_exception (e : pyexc) : io unit :=
  match e with
  | ConnectionError =>
      print (10 :: lit "❌ 错误: 无法连接到服务器") ;;;
      print (lit "   请确保服务已在 " ++ BASE_URL ++ lit " 启动") ;;;
      print (lit "   运行命令: make run") ;;;
      print []
  | _ =>
      print (10 :: lit "❌ 错误: " ++ exc_str e) ;;;
      print []
  end.

Definition main : io unit :=
  print_header (lit "支付宝深链接功能测试脚本") ;;;
  print (10 :: lit "配置信息:") ;;;
  print (lit "  服务地址: " ++ BASE_URL) ;;;
  print (lit "  二维码ID: " ++ QR_CODE_ID) ;;;
  print (lit "  支付金额: ¥" ++ py_str AMOUNT) ;;;
  print (lit "  备注信息: " ++ REMARK) ;;;
  try_except run_all_tests on_exception.

(** A run from the empty trace. *)
Definition run : result unit * list event := main [].
End Harness.

End TestAlipayDeeplink.

(* ================================================================== *)
(** * The gateway's side of a signed URL *)

(** The gateway server is not among the sources.  Section 8 (round trip)
    describes what it does with a request: the query string is re-parsed
    into key/value pairs, each URL-decoded, the reserved keys and the empty
    values are stripped, and the signature is recomputed over the rest. *)
Module Gateway.

Definition hexval (c : Z) : option Z :=
  if (48 <=? c) && (c <=? 57) then Some (c - 48)
  else if (65 <=? c) && (c <=? 70) then Some (c - 55)
  else if (97 <=? c) && (c <=? 102) then Some (c - 87)
  else None.

(** Modelled from the spec: URL-decoding, to octets.  [%XX] is one octet,
    [+] is a space; a query is ASCII on the wire, and anything else is
    refused. *)
Fixpoint unquote_to_bytes (s : pystr) : option pybytes :=
  match s with
  | [] => Some []
  | c :: tl =>
      if c =? 37 then
        match tl with
        | h1 :: h2 :: r =>
            match hexval h1, hexval h2 with
            | Some a, Some b => option_map (cons (16 * a + b)) (unquote_to_bytes r)
            | _, _ => None
            end
        | _ => None
        end
      else if c =? 43 then option_map (cons 32) (unquote_to_bytes tl)
      else if (0 <=? c) && (c <? 128) then option_map (cons c) (unquote_to_bytes tl)
      else None
  end.

(** Modelled from the spec: URL-decoding of one key or value; the octets
    are read as UTF-8. *)
Definition unquote_plus (s : pystr) : option pystr :=
  match unquote_to_bytes s with
  | Some bs => decode bs
  | None => None
  end.

(** [s.split(sep)] *)
Fixpoint split (sep : Z) (s : pystr) : list pystr :=
  match s with
  | [] => [[]]
  | c :: s' =>
      if c =? sep then [] :: split sep s'
      else match split sep s' with
           | h :: t => (c :: h) :: t
           | [] => [[c]]
           end
  end.

(** Cut at the first [sep]: what is before it, and what is after it. *)
Fixpoint cut (sep : Z) (s : pystr) : pystr * pystr :=
  match s with
  | [] => ([], [])
  | c :: s' =>
      if c =? sep then ([], s')
      else let '(a, b) := cut sep s' in (c :: a, b)
  end.

Definition parse_field (field : pystr) : option (pystr * pystr) :=
  let '(k, v) := cut 61 field in
  match unquote_plus k, unquote_plus v with
  | Some k', Some v' => Some (k', v')
  | _, _ => None
  end.

Fixpoint parse_fields (fields : list pystr) : option (list (pystr * pystr)) :=
  match fields with
  | [] => Some []
  | [] :: fs => parse_fields fs
  | f :: fs =>
      match parse_field f, parse_fields fs with
      | Some kv, Some kvs => Some (kv :: kvs)
      | _, _ => None
      end
  end.

(** Modelled from the spec: the query string of a URL is what follows the
    first [?]. *)
Definition query_of (u : pystr) : pystr := snd (cut 63 u).

(** Modelled from the spec: the query string re-parsed into key/value
    pairs: fields between [&], key and value around the first [=]. *)
Definition parse_query (u : pystr) : option (list (pystr * pystr)) :=
  parse_fields (split 38 (query_of u)).

Fixpoint lookup (pairs : list (pystr * pystr)) (k : pystr) : option pystr :=
  match pairs with
  | [] => None
  | (k', v) :: rest => if str_eqb k k' then Some v else lookup rest k
  end.

(** Modelled from the spec: reserved keys and empty values stripped. *)
Definition strip (pairs : list (pystr * pystr)) : list (pystr * pystr) :=
  filter (fun kv => negb (GeneratePaymentUrlV2.reserved (fst kv))
                    && match snd kv with [] => false | _ => true end) pairs.

Definition as_dict (pairs : list (pystr * pystr)) : dict :=
  map (fun kv => (fst kv, VStr (snd kv))) pairs.

(** Modelled from the spec: the signature recomputed from the pairs of a
    query, by the v2 signer. *)
Definition recompute (pairs : list (pystr * pystr)) (key : pystr)
  : result pystr :=
  GeneratePaymentUrlV2.generate_sign (as_dict (strip pairs)) key.

End Gateway.

(* ================================================================== *)
(** * Predicates and inputs used in the statements *)

(** A code point that UTF-8 can carry: in range and not a surrogate. *)
Definition valid_cp (c : Z) : bool :=
  (0 <=? c) && (c <? 0x110000) && negb (is_surrogate c).

(** Text that [encode] accepts. *)
Definition encodable (s : pystr) : bool := forallb valid_cp s.

Definition is_lower_hex (c : Z) : bool :=
  ((48 <=? c) && (c <=? 57)) || ((97 <=? c) && (c <=? 102)).

Definition is_digit (c : Z) : bool := (48 <=? c) && (c <=? 57).

(** An integer written in plain decimal: digits, after an optional minus
    sign; no fraction part, no exponent. *)
Definition is_plain_int (s : pystr) : bool :=
  match s with
  | 45 :: d :: ds => forallb is_digit (d :: ds)
  | d :: ds => forallb is_digit (d :: ds)
  | [] => false
  end.

(** A dict as the signer and [urlencode] see it: keys and [str(value)]. *)
Definition view (d : dict) : list (pystr * pystr) :=
  map (fun kv => (fst kv, py_str (snd kv))) d.

(** A value whose truth value is that of its text: a [str], or any other
    truthy value. *)
Definition text_like (v : pyval) : bool :=
  match v with
  | VStr _ => true
  | _ => truthy v
  end.

Module Scenario.

(** The parameters and the secret of the concrete scenario of section 8. *)
Definition P : dict :=
  [ (lit "pid", VStr (lit "1001003549245339"));
    (lit "type", VStr (lit "alipay"));
    (lit "out_trade_no", VStr (lit "TEST1700000000"));
    (lit "notify_url", VStr (lit "http://example.com/notify"));
    (lit "return_url", VStr (lit "http://example.com/return"));
    (lit "name", VStr (lit "测试商品"));
    (lit "money", VStr (lit "0.01")) ].

Definition K : pystr := lit "cd5dcdcbef4da67b9f3a01b1e391ab86".

Definition base_string : pystr :=
  lit "money=0.01&name=测试商品&notify_url=http://example.com/notify&out_trade_no=TEST1700000000&pid=1001003549245339&return_url=http://example.com/return&type=alipay".

Definition signature : pystr := lit "6faf6a4eba5ce68e8aca701a94d12690".

(** A call of the v2 builder at time 1700000000 with only [money] given. *)
Definition base_url : pystr := lit "http://localhost:8080".
Definition pid : pyval := VStr (lit "1001003549245339").

Definition call (money : pyval) : result (pystr * dict) :=
  GeneratePaymentUrlV2.generate_payment_url 1700000000 base_url pid K
    [(lit "money", money)].

(** The params such a call returns, for the text [money] and the
    signature [sig]. *)
Definition returned (money sig : pystr) : dict :=
  [ (lit "pid", pid);
    (lit "type", VStr (lit "alipay"));
    (lit "out_trade_no", VStr (lit "TEST1700000000"));
    (lit "notify_url", VStr (lit "http://example.com/notify"));
    (lit "return_url", VStr (lit "http://example.com/return"));
    (lit "name", VStr (lit "测试商品"));
    (lit "money", VStr money);
    (lit "sign_type", VStr (lit "MD5"));
    (lit "sign", VStr sig) ].

Definition url_5 : pystr :=
  lit "http://localhost:8080/submit?pid=1001003549245339&type=alipay&out_trade_no=TEST1700000000&notify_url=http%3A%2F%2Fexample.com%2Fnotify&return_url=http%3A%2F%2Fexample.com%2Freturn&name=%E6%B5%8B%E8%AF%95%E5%95%86%E5%93%81&money=5&sign_type=MD5&sign=ca0dcd47e9bb0b03177c9d4e7f15c928".

Definition url_1e_05 : pystr :=
  lit "http://localhost:8080/submit?pid=1001003549245339&type=alipay&out_trade_no=TEST1700000000&notify_url=http%3A%2F%2Fexample.com%2Fnotify&return_url=http%3A%2F%2Fexample.com%2Freturn&name=%E6%B5%8B%E8%AF%95%E5%95%86%E5%93%81&money=1e-05&sign_type=MD5&sign=37c121cf71fc06891ae4d062beafb17d".

Definition url_pid_0 : pystr :=
  lit "http://localhost:8080/submit?pid=0&type=alipay&out_trade_no=TEST1700000000&notify_url=http%3A%2F%2Fexample.com%2Fnotify&return_url=http%3A%2F%2Fexample.com%2Freturn&name=%E6%B5%8B%E8%AF%95%E5%95%86%E5%93%81&money=0.01&sign_type=MD5&sign=d080d4bd05883e6a7a7326395170947c".

(** The float literals [1e-05], [1.23] and [0.5]. *)
Definition float_1e_05 : pyfloat := FFinite false 5902958103587057 (-69).
Definition float_1_23 : pyfloat := FFinite false 5539427541665710 (-52).
Definition float_0_5 : pyfloat := FFinite false 4503599627370496 (-53).

End Scenario.

(** What a run of the deep-link harness is expected to send. *)
Module Expected.
Import TestAlipayDeeplink.

(** Endpoint, query and [allow_redirects] of the six scenarios. *)
Definition scenarios : list (pystr * dict * bool) :=
  [ (lit "/alipay/link",
      [ (lit "amount", AMOUNT); (lit "remark", VStr REMARK) ], true);
    (lit "/alipay/link",
      [ (lit "qr_code_id", VStr QR_CODE_ID); (lit "amount", AMOUNT);
        (lit "remark", VStr REMARK) ], true);
    (lit "/alipay/link", [ (lit "qr_code_id", VStr QR_CODE_ID) ], true);
    (lit "/alipay/link", [ (lit "amount", AMOUNT) ], true);
    (lit "/alipay/link",
      [ (lit "qr_code_id", VStr QR_CODE_ID);
        (lit "amount", VStr (lit "invalid")) ], true);
    (lit "/alipay/pay",
      [ (lit "qr_code_id", VStr QR_CODE_ID); (lit "amount", AMOUNT);
        (lit "remark", VStr REMARK) ], false) ].

Definition request_of (sc : pystr * dict * bool) : result request :=
  let '(path, query, redirects) := sc in
  q <- UrlLib.urlencode query ;;
  Ok {| url := BASE_URL ++ path ++ lit "?" ++ q;
        allow_redirects := redirects |}.

Definition link (q : pystr) : request :=
  {| url := BASE_URL ++ lit "/alipay/link?" ++ q; allow_redirects := true |}.

Definition pay (q : pystr) : request :=
  {| url := BASE_URL ++ lit "/alipay/pay?" ++ q; allow_redirects := false |}.

Definition requests : list request :=
  [ link (lit "amount=1.23&remark=%E6%B5%8B%E8%AF%95%E8%AE%A2%E5%8D%95");
    link (lit "qr_code_id=fkx12345678901234&amount=1.23&remark=%E6%B5%8B%E8%AF%95%E8%AE%A2%E5%8D%95");
    link (lit "qr_code_id=fkx12345678901234");
    link (lit "amount=1.23");
    link (lit "qr_code_id=fkx12345678901234&amount=invalid");
    pay (lit "qr_code_id=fkx12345678901234&amount=1.23&remark=%E6%B5%8B%E8%AF%95%E8%AE%A2%E5%8D%95") ].

Definition urls : list pystr :=
  [ lit "http://localhost:8080/alipay/link?amount=1.23&remark=%E6%B5%8B%E8%AF%95%E8%AE%A2%E5%8D%95";
    lit "http://localhost:8080/alipay/link?qr_code_id=fkx12345678901234&amount=1.23&remark=%E6%B5%8B%E8%AF%95%E8%AE%A2%E5%8D%95";
    lit "http://localhost:8080/alipay/link?qr_code_id=fkx12345678901234";
    lit "http://localhost:8080/alipay/link?amount=1.23";
    lit "http://localhost:8080/alipay/link?qr_code_id=fkx12345678901234&amount=invalid";
    lit "http://localhost:8080/alipay/pay?qr_code_id=fkx12345678901234&amount=1.23&remark=%E6%B5%8B%E8%AF%95%E8%AE%A2%E5%8D%95" ].

(** The lines of the [except requests.exceptions.ConnectionError] branch. *)
Definition connection_notice : list event :=
  [ Out (10 :: lit "❌ 错误: 无法连接到服务器");
    Out (lit "   请确保服务已在 " ++ BASE_URL ++ lit " 启动");
    Out (lit "   运行命令: make run");
    Out [] ].

(** A server that cannot be reached. *)
Definition unreachable : list request -> request -> result response :=
  fun _ _ => Raise ConnectionError.

(** A server that answers 200 with an empty JSON object. *)
Definition ok200 : list request -> request -> result response :=
  fun _ _ => Ok {| status_code := 200; location := None;
                   text := lit "{}"; json_dumps := Some (lit "{}") |}.

(** A server that answers the first two requests and then goes away. *)
Definition two_then_gone : list request -> request -> result response :=
  fun hist r => if (length hist <? 2)%nat then ok200 hist r
                else Raise ConnectionError.

End Expected.

(* ================================================================== *)
(** * Vocabulary of the proofs *)

(** An octet. *)
Definition is_octet (b : Z) : Prop := 0 <= b < 256.

(** An entry whose key and text UTF-8 can carry. *)
Definition entry_ok (kv : pystr * pyval) : Prop :=
  encodable (fst kv) = true /\ encodable (py_str (snd kv)) = true.

(** A dict whose values have texts that UTF-8 can carry. *)
Definition values_ok (d : dict) : Prop :=
  Forall (fun kv => encodable (py_str (snd kv)) = true) d.

(** The params of the v2 builder before the signature is stored. *)
Definition v2_unsigned (now : Z) (pid : pyval) (kwargs : dict) : dict :=
  match dict_get kwargs (lit "sitename") with
  | Some v =>
      if truthy v
      then dict_set (GeneratePaymentUrlV2.default_params now pid kwargs)
             (lit "sitename") v
      else GeneratePaymentUrlV2.default_params now pid kwargs
  | None => GeneratePaymentUrlV2.default_params now pid kwargs
  end.

(** What [quote_plus] writes for one octet. *)
Definition qp_byte (b : Z) : pystr :=
  if b =? 32 then [43] else UrlLib.quote_byte [] b.

(** A quoted text has no [&], [=] or [?] in it. *)
Definition url_char (c : Z) : Prop := c <> 38 /\ c <> 61 /\ c <> 63.

(** One [key=value] field of [urlencode]. *)
Definition field_of (kv : pystr * pyval) (f : pystr) : Prop :=
  exists k v, UrlLib.quote_plus (fst kv) = Ok k
              /\ UrlLib.quote_plus (py_str (snd kv)) = Ok v
              /\ f = k ++ 61 :: v.

(** The v2 canonical string, from the signed entries as texts. *)
Definition sign_str_of_view (w : list (pystr * pystr)) : result pystr :=
  parts <- mapM (fun k => match Gateway.lookup w k with
                          | Some t => Ok (k ++ [61] ++ t)
                          | None => Raise KeyError
                          end) (sorted str_ltb (map fst w)) ;;
  Ok (join [38] parts).

(** Every value is text-like. *)
Definition values_text (d : dict) : bool :=
  forallb (fun kv => text_like (snd kv)) d.

Section HarnessVocabulary.
Import TestAlipayDeeplink.
Variable server : list request -> request -> result response.

(** [t] sends the one request [r]; it returns what the server answers and
    raises what the request raises, printing only after an answer. *)
Definition one_request (t : io response) (r : request) : Prop :=
  forall tr,
    (forall resp, server (requests_of tr) r = Ok resp ->
       exists outs, t tr = (Ok resp, tr ++ Get r :: outs)
                    /\ requests_of outs = [])
    /\ (forall e, server (requests_of tr) r = Raise e ->
          t tr = (Raise e, tr ++ [Get r])).

(** The tests in sequence, then [k]. *)
Definition then_all {A} (ts : list (io response)) (k : io A) : io A :=
  fold_right (fun t acc => io_seq t acc) k ts.

Definition tests : list (io response) :=
  [ test_default_qr_code_id server; test_custom_qr_code_id server;
    test_no_amount server; test_missing_qr_code_id server;
    test_invalid_amount server; test_redirect_to_alipay server ].

(** What [run_all_tests] prints once the six tests are through. *)
Definition footer : io unit :=
  print_header (lit "测试完成") ;;;
  print (10 :: lit "提示：") ;;;
  print (lit "1. 请确保服务已启动: make run") ;;;
  print (lit "2. 深链接仅在移动设备上有效") ;;;
  print (lit "3. 需要在配置文件中设置正确的 qr_code_id") ;;;
  print [].

End HarnessVocabulary.

(* ================================================================== *)
(** * Vocabulary of the further properties *)

(** The keys of a dict are pairwise distinct. *)
Fixpoint distinct_keys (d : dict) : bool :=
  match d with
  | [] => true
  | (k, _) :: d' => negb (existsb (str_eqb k) (map fst d')) && distinct_keys d'
  end.

(** The entry of [k] takes the value [v]; the other entries stay. *)
Definition with_value (k : pystr) (v : pyval) (kv : pystr * pyval)
  : pystr * pyval :=
  if str_eqb k (fst kv) then (fst kv, v) else kv.

(** The keyword arguments that the v2 [generate_payment_url] reads. *)
Definition read_kwargs : list pystr :=
  [ lit "type"; lit "out_trade_no"; lit "notify_url"; lit "return_url";
    lit "name"; lit "money"; lit "sitename" ].

(** A character that needs no quoting in a query string, or one of [%],
    [+], [&] and [=], which give a query string its structure. *)
Definition is_query_char (c : Z) : bool :=
  UrlLib.always_safe c || existsb (Z.eqb c) [37; 43; 38; 61].

(** Servers for the deep-link harness. *)
Module Servers.
Import TestAlipayDeeplink.

(** A server that answers four requests; the fifth runs into a timeout,
    which is not a connection error. *)
Definition four_then_timeout : list request -> request -> result response :=
  fun hist r => if (length hist <? 4)%nat then Expected.ok200 hist r
                else Raise OtherException.

Definition exc_text : pyexc -> pystr := fun _ => lit "Read timed out.".

End Servers.

(* ================================================================== *)
(** * The terminal: [print], [input] and the browser *)

(** [c.isspace()] for one code point: the white space of the Unicode
    character database. *)
Definition isspace (c : Z) : bool :=
  ((0x09 <=? c) && (c <=? 0x0D)) || ((0x1C <=? c) && (c <=? 0x20))
  || (c =? 0x85) || (c =? 0xA0) || (c =? 0x1680)
  || ((0x2000 <=? c) && (c <=? 0x200A))
  || (c =? 0x2028) || (c =? 0x2029) || (c =? 0x202F) || (c =? 0x205F)
  || (c =? 0x3000).

(** [s.lstrip()] *)
Fixpoint lstrip (s : pystr) : pystr :=
  match s with
  | c :: s' => if isspace c then lstrip s' else s
  | [] => []
  end.

(** [s.strip()]: white space removed at both ends. *)
Definition strip (s : pystr) : pystr := rev (lstrip (rev (lstrip s))).

(** [s or dflt], and [s if s else dflt], for a [str]. *)
Definition or_default (s dflt : pystr) : pystr :=
  match s with
  | [] => dflt
  | _ => s
  end.

Module Console.

(** What a script does at the terminal. *)
Inductive event : Type :=
| Print (line : pystr)
| Prompt (text : pystr)
| Browse (url : pystr).

(** The lines that standard input still holds, and what happened so far. *)
Definition state : Type := (list pystr * list event)%type.

Definition io (A : Type) : Type := state -> result A * state.

Definition io_ret {A} (a : A) : io A := fun st => (Ok a, st).

Definition io_bind {A B} (m : io A) (k : A -> io B) : io B :=
  fun st =>
    match m st with
    | (Ok a, st') => k a st'
    | (Raise e, st') => (Raise e, st')
    end.

Definition io_seq {A B} (m : io A) (k : io B) : io B := io_bind m (fun _ => k).

Definition lift {A} (r : result A) : io A := fun st => (r, st).

(** [print(line)].  Standard output encodes as UTF-8 with strict error
    handling, the default in a UTF-8 locale: a text that cannot be encoded
    raises, and nothing of it is written. *)
Definition print (line : pystr) : io unit :=
  fun st =>
    if encodable line then (Ok tt, (fst st, snd st ++ [Print line]))
    else (Raise UnicodeEncodeError, st).

(** [input(text)]: the prompt is written and one line is read, without its
    newline.  At the end of the input [EOFError] is raised, which is
    [OtherException] here. *)
Definition input (text : pystr) : io pystr :=
  fun st =>
    match fst st with
    | l :: ls => (Ok l, (ls, snd st ++ [Prompt text]))
    | [] => (Raise OtherException, (fst st, snd st ++ [Prompt text]))
    end.

(** [try: body except Exception as e: handler(e)] *)
Definition try_except {A} (body : io A) (handler : pyexc -> io A) : io A :=
  fun st =>
    match body st with
    | (Ok a, st') => (Ok a, st')
    | (Raise e, st') => handler e st'
    end.

(** The lines printed, and the URLs handed to the browser. *)
Definition printed (tr : list event) : list pystr :=
  flat_map (fun ev => match ev with Print l => [l] | _ => [] end) tr.

Definition browsed (tr : list event) : list pystr :=
  flat_map (fun ev => match ev with Browse u => [u] | _ => [] end) tr.

Notation "x <-- m ;;; k" := (io_bind m (fun x => k))
  (at level 61, m at next level, right associativity).
Notation "m ;;; k" := (io_seq m k) (at level 61, right associativity).

End Console.

(* ================================================================== *)
(** * generate_payment_url.py: [main] *)

Module GeneratePaymentUrlCli.
Import Console.

Section Main.
(** [str.lower] *)
Variable lower : pystr -> pystr.
(** [webbrowser.open]: what it returns or raises for a URL. *)
Variable webbrowser_open : pystr -> result bool.
(** [str(e)] of an exception. *)
Variable exc_str : pyexc -> pystr.

Definition browse (u : pystr) : io bool :=
  fun st => (webbrowser_open u, (fst st, snd st ++ [Browse u])).

(** [now] is [int(time.time())], read by [generate_payment_url]. *)
Definition main (now : Z) : io unit :=
  print (10 :: repeat 61 70%nat) ;;;
  print (lit " 💳 支付页面URL生成器") ;;;
  print (repeat 61 70%nat) ;;;
  print (10 :: lit "请输入支付信息（直接回车使用默认值）：") ;;;
  a <-- input (lit "支付金额 [0.01]: ") ;;;
  let amount := or_default (strip a) (lit "0.01") in
  n <-- input (lit "商品名称 [测试商品]: ") ;;;
  let product_name := or_default (strip n) (lit "测试商品") in
  r <-- lift (GeneratePaymentUrl.generate_payment_url now
                (Some (VStr amount)) (Some (VStr product_name))) ;;;
  let url := fst r in
  let params := snd r in
  print (10 :: repeat 45 70%nat) ;;;
  print (lit "📦 订单信息:") ;;;
  print (repeat 45 70%nat) ;;;
  pid <-- lift (dict_item params (lit "pid")) ;;;
  print (lit "  商户ID:     " ++ py_str pid) ;;;
  out_trade_no <-- lift (dict_item params (lit "out_trade_no")) ;;;
  print (lit "  订单号:     " ++ py_str out_trade_no) ;;;
  name <-- lift (dict_item params (lit "name")) ;;;
  print (lit "  商品名称:   " ++ py_str name) ;;;
  money <-- lift (dict_item params (lit "money")) ;;;
  print (lit "  支付金额:   ¥" ++ py_str money) ;;;
  sign <-- lift (dict_item params (lit "sign")) ;;;
  print (lit "  签名:       " ++ py_str sign) ;;;
  print (10 :: repeat 45 70%nat) ;;;
  print (lit "🔗 支付页面URL:") ;;;
  print (repeat 45 70%nat) ;;;
  print url ;;;
  print (10 :: repeat 45 70%nat) ;;;
  print (lit "📱 使用方法:") ;;;
  print (repeat 45 70%nat) ;;;
  print (lit "  1. 确保服务已启动: make run") ;;;
  print (lit "  2. 复制上面的URL到浏览器打开") ;;;
  print (lit "  3. 或者使用命令自动打开:") ;;;
  print (lit "     xdg-open '" ++ url ++ lit "'") ;;;
  print (repeat 45 70%nat) ;;;
  t <-- input (10 :: lit "是否自动在浏览器中打开？(y/n) [y]: ") ;;;
  let try_open := lower (strip t) in
  (if existsb (str_eqb try_open) [ []; lit "y"; lit "yes" ] then
     try_except
       (browse url ;;;
        print (lit "✅ 已在浏览器中打开支付页面！"))
       (fun e =>
          print (lit "❌ 自动打开失败: " ++ exc_str e) ;;;
          print (lit "请手动复制URL到浏览器打开"))
   else io_ret tt) ;;;
  print (10 :: lit "✨ 完成！" ++ [10]).

End Main.

End GeneratePaymentUrlCli.

(* ================================================================== *)
(** * generate_payment_url_v2.py: what the functions print, and [main] *)

Module GeneratePaymentUrlV2Cli.
Import Console.

Section Main.
(** [repr] of a [str]. *)
Variable repr_str : pystr -> pystr.

(** [repr(v)]; for the other scalar types it is [str(v)]. *)
Definition py_repr (v : pyval) : pystr :=
  match v with
  | VStr s => repr_str s
  | _ => py_str v
  end.

(** [repr] of a dict and of a list of [str], as [{d}] and [{l}] format
    them. *)
Definition dict_repr (d : dict) : pystr :=
  lit "{"
  ++ join (lit ", ")
       (map (fun kv => repr_str (fst kv) ++ lit ": " ++ py_repr (snd kv)) d)
  ++ lit "}".

Definition list_repr (l : list pystr) : pystr :=
  lit "[" ++ join (lit ", ") (map repr_str l) ++ lit "]".

(** [generate_sign], with what it prints. *)
Definition generate_sign (params : dict) (key : pystr) : io pystr :=
  let filtered := GeneratePaymentUrlV2.filtered params in
  let sorted_keys := sorted str_ltb (map fst filtered) in
  sign_str <-- lift (GeneratePaymentUrlV2.sign_str params) ;;;
  let sign_str_with_key := sign_str ++ key in
  print (10 :: lit "[签名计算过程]") ;;;
  print (lit "1. 参与签名的参数: " ++ dict_repr filtered) ;;;
  print (lit "2. 排序后的键: " ++ list_repr sorted_keys) ;;;
  print (lit "3. 签名字符串: " ++ sign_str) ;;;
  print (lit "4. 加上密钥: " ++ sign_str_with_key) ;;;
  signature <-- lift (GeneratePaymentUrlV2.md5 sign_str_with_key) ;;;
  print (lit "5. 最终签名: " ++ signature) ;;;
  io_ret signature.

(** [generate_payment_url], with what its signer prints. *)
Definition generate_payment_url
  (now : Z) (base_url : pystr) (pid : pyval) (merchant_key : pystr)
  (kwargs : dict) : io (pystr * dict) :=
  let params := GeneratePaymentUrlV2.default_params now pid kwargs in
  let params :=
    match dict_get kwargs (lit "sitename") with
    | Some v => if truthy v then dict_set params (lit "sitename") v else params
    | None => params
    end in
  sign <-- generate_sign params merchant_key ;;;
  let params := dict_set params (lit "sign") (VStr sign) in
  query_string <-- lift (UrlLib.urlencode params) ;;;
  let full_url := base_url ++ lit "/submit?" ++ query_string in
  io_ret (full_url, params).

(** The loop [for k, v in sorted(params.items()): print(...)]. *)
Fixpoint print_items (items : dict) : io unit :=
  match items with
  | [] => io_ret tt
  | (k, v) :: rest =>
      print (lit "  " ++ k ++ lit ": " ++ py_str v) ;;; print_items rest
  end.

(** [now] is [int(time.time())] as [main] reads it when no order number is
    typed, [now'] as [generate_payment_url] reads it for its default. *)
Definition main (now now' : Z) : io unit :=
  print (repeat 61 70%nat) ;;;
  print (lit "支付URL生成工具 - AliMPay") ;;;
  print (repeat 61 70%nat) ;;;
  let BASE_URL := lit "http://localhost:8080" in
  print (10 :: lit "请输入商户信息（留空使用默认值）:") ;;;
  pid_input <-- input (lit "商户ID [1001001276912812]: ") ;;;
  let PID := or_default (strip pid_input) (lit "1001001276912812") in
  key_input <-- input (lit "商户密钥 [f872e1c662d41cf218b5dfa8328ae455]: ") ;;;
  let MERCHANT_KEY :=
    or_default (strip key_input) (lit "f872e1c662d41cf218b5dfa8328ae455") in
  print (10 :: lit "请输入支付参数（留空使用默认值）:") ;;;
  money_input <-- input (lit "支付金额 [0.01]: ") ;;;
  let money := or_default (strip money_input) (lit "0.01") in
  name_input <-- input (lit "商品名称 [测试商品]: ") ;;;
  let name := or_default (strip name_input) (lit "测试商品") in
  out_trade_no_input <-- input (lit "商户订单号 [自动生成]: ") ;;;
  let out_trade_no :=
    or_default (strip out_trade_no_input) (lit "TEST" ++ int_str now) in
  r <-- generate_payment_url now' BASE_URL (VStr PID) MERCHANT_KEY
          [ (lit "money", VStr money); (lit "name", VStr name);
            (lit "out_trade_no", VStr out_trade_no) ] ;;;
  let url := fst r in
  let params := snd r in
  print (10 :: repeat 61 70%nat) ;;;
  print (lit "生成结果") ;;;
  print (repeat 61 70%nat) ;;;
  print (10 :: lit "完整URL:") ;;;
  print url ;;;
  print (10 :: lit "所有参数:") ;;;
  print_items (sorted item_ltb params) ;;;
  print (10 :: repeat 61 70%nat) ;;;
  print (lit "提示:") ;;;
  print (lit "1. 请确保商户ID和密钥与configs/config.yaml中的一致") ;;;
  print (lit "2. 可以直接在浏览器中访问上面的URL进行测试") ;;;
  print (lit "3. 如果签名验证失败，请检查商户密钥是否正确") ;;;
  print (repeat 61 70%nat) ;;;
  print (10 :: lit "使用curl测试:") ;;;
  print (lit "curl " ++ [34] ++ url ++ [34]).

End Main.

End GeneratePaymentUrlV2Cli.

(** Instances of what the scripts are run against. *)
Module Oracles.

(** [str.lower] on ASCII text. *)
Definition ascii_lower (s : pystr) : pystr :=
  map (fun c => if (65 <=? c) && (c <=? 90) then c + 32 else c) s.

(** A machine without a browser: [webbrowser.open] raises. *)
Definition no_browser : pystr -> result bool := fun _ => Raise OtherException.

Definition exc_text : pyexc -> pystr := fun _ => lit "could not locate runnable browser".

(** A [repr] for texts that need no escape: the text between quotes. *)
Definition quoted (s : pystr) : pystr := [39] ++ s ++ [39].

End Oracles.

(** A text with no white space at either end. *)
Definition trimmed (s : pystr) : bool :=
  match s with
  | [] => true
  | c :: _ => negb (isspace c) && negb (isspace (last s c))
  end.

(* ================================================================== *)
(** * test_payment.py: what the script prints *)

Module TestPaymentCli.
Import Console.

Section Script.
(** [repr] of a [str]. *)
Variable repr_str : pystr -> pystr.

(** [generate_sign], with what it prints. *)
Definition generate_sign (params : dict) (key : pystr) : io pystr :=
  let filtered := TestPayment.filtered params in
  sign_str <-- lift (TestPayment.sign_str params) ;;;
  let sign_str_with_key := sign_str ++ key in
  print (10 :: lit "签名计算过程:") ;;;
  print (lit "参数: " ++ GeneratePaymentUrlV2Cli.dict_repr repr_str filtered) ;;;
  print (lit "签名串: " ++ sign_str) ;;;
  print (lit "加密钥: " ++ sign_str_with_key) ;;;
  signature <-- lift (TestPayment.md5 sign_str_with_key) ;;;
  print (lit "签  名: " ++ signature ++ [10]) ;;;
  io_ret signature.

(** The module body; [now] is [int(time.time())]. *)
Definition script (now : Z) : io unit :=
  let params := TestPayment.params now in
  sign <-- generate_sign params TestPayment.KEY ;;;
  let params := dict_set params (lit "sign") (VStr sign) in
  query_string <-- lift (UrlLib.urlencode params) ;;;
  let full_url := TestPayment.BASE_URL ++ lit "/submit?" ++ query_string in
  print (repeat 61 70%nat) ;;;
  print (lit "支付URL:") ;;;
  print full_url ;;;
  print (repeat 61 70%nat) ;;;
  print (10 :: lit "复制此URL到浏览器测试" ++ [10]).

End Script.

End TestPaymentCli.

(* ================================================================== *)
(** * Text and dictionary lemmas *)

(** Case analysis on the integer comparisons of a goal. *)
Ltac zcases :=
  repeat match goal with
    | |- context [?a <? ?b] => destruct (Z.ltb_spec a b)
    | |- context [?a <=? ?b] => destruct (Z.leb_spec a b)
    | |- context [?a =? ?b] => destruct (Z.eqb_spec a b)
    end;
  simpl; try lia; try discriminate; try reflexivity.

Ltac zbool :=
  repeat match goal with
    | |- context [?a <? ?b] =>
        destruct (Z.ltb_spec a b);
        try (exfalso; Z.div_mod_to_equations; lia)
    | |- context [?a <=? ?b] =>
        destruct (Z.leb_spec a b);
        try (exfalso; Z.div_mod_to_equations; lia)
    | |- context [?a =? ?b] =>
        destruct (Z.eqb_spec a b);
        try (exfalso; Z.div_mod_to_equations; lia)
    end;
  cbn [andb orb negb].

(** From [Some l = Some bs] in the goal, [bs] replaced by [l], with no
    reduction of [l]. *)
Ltac some_eq bs :=
  let E := fresh "E" in
  let E' := fresh "E" in
  intros E;
  assert (E' := f_equal (fun o => match o with Some x => x | None => bs end) E);
  cbv beta iota in E'; subst bs; clear E.

(** Comparisons of key literals, evaluated. *)
Ltac eval_keys :=
  repeat match goal with
    | |- context [str_eqb (lit ?a) (lit ?b)] =>
        let r := eval vm_compute in (str_eqb (lit a) (lit b)) in
        change (str_eqb (lit a) (lit b)) with r
    end.

Lemma str_eqb_eq (a b : pystr) : str_eqb a b = true <-> a = b.
Proof.
  revert b; induction a as [|x a IH]; intros [|y b]; simpl;
    try (split; [discriminate | discriminate]); try tauto.
  rewrite andb_true_iff, Z.eqb_eq, IH.
  split; [intros [-> ->]; reflexivity | intros E; inversion E; auto].
Qed.

Lemma str_eqb_refl (a : pystr) : str_eqb a a = true.
Proof. apply str_eqb_eq; reflexivity. Qed.

Lemma str_eqb_neq (a b : pystr) : str_eqb a b = false <-> a <> b.
Proof.
  rewrite <- str_eqb_eq. destruct (str_eqb a b); split; congruence.
Qed.

Section FilterSetDel.
(** An entry that a filter rejects: storing it and removing it leave the
    same selection. *)
Variable keep : pystr * pyval -> bool.

Lemma filter_set_rejected (d : dict) (k : pystr) (v : pyval) :
  keep (k, v) = false ->
  filter keep (dict_set d k v) = filter keep (dict_del d k).
Proof.
  intros Hk. induction d as [|[k' v'] d IH]; simpl.
  - rewrite Hk; reflexivity.
  - destruct (str_eqb k k') eqn:E.
    + apply str_eqb_eq in E; subst k'. simpl. rewrite Hk. reflexivity.
    + simpl. rewrite IH. reflexivity.
Qed.

Lemma dict_del_absent (d : dict) (k : pystr) :
  dict_get d k = None -> dict_del d k = d.
Proof.
  induction d as [|[k' v'] d IH]; simpl; [reflexivity|].
  destruct (str_eqb k k'); [discriminate|].
  intros H; rewrite IH by assumption; reflexivity.
Qed.
End FilterSetDel.

(* ================================================================== *)
(** * The signature of the concrete scenario *)

(** C1. With the parameters P and the secret K of the scenario, every
    [generate_sign] of the repository hashes the base string
    [money=0.01&name=...&type=alipay] directly followed by K, and returns
    its MD5 hex digest, the 32 lowercase hex characters
    [6faf6a4eba5ce68e8aca701a94d12690]; being a function of P and K only,
    the value is the same at every call. *)
Theorem scenario_signature :
  GeneratePaymentUrl.sign_str Scenario.P Scenario.K
    = Scenario.base_string ++ Scenario.K
  /\ GeneratePaymentUrlV2.sign_str Scenario.P = Ok Scenario.base_string
  /\ TestPayment.sign_str Scenario.P = Ok Scenario.base_string
  /\ (exists bs,
        encode (Scenario.base_string ++ Scenario.K) = Ok bs
        /\ MD5.hexdigest bs = Scenario.signature)
  /\ GeneratePaymentUrl.generate_sign Scenario.P Scenario.K
       = Ok Scenario.signature
  /\ GeneratePaymentUrlV2.generate_sign Scenario.P Scenario.K
       = Ok Scenario.signature
  /\ TestPayment.generate_sign Scenario.P Scenario.K = Ok Scenario.signature
  /\ length Scenario.signature = 32%nat
  /\ forallb is_lower_hex Scenario.signature = true.
Proof.
  split; [vm_compute; reflexivity|].
  split; [vm_compute; reflexivity|].
  split; [vm_compute; reflexivity|].
  split.
  { exists (match encode (Scenario.base_string ++ Scenario.K) with
            | Ok bs => bs
            | Raise _ => []
            end).
    split; vm_compute; reflexivity. }
  repeat (split; [vm_compute; reflexivity|]).
  vm_compute; reflexivity.
Qed.

(* ================================================================== *)
(** * What the filter of the v2 signer leaves out *)

Lemma v2_sign_str_filtered (p q : dict) :
  GeneratePaymentUrlV2.filtered p = GeneratePaymentUrlV2.filtered q ->
  GeneratePaymentUrlV2.sign_str p = GeneratePaymentUrlV2.sign_str q.
Proof. unfold GeneratePaymentUrlV2.sign_str. intros ->. reflexivity. Qed.

Lemma test_payment_sign_str_filtered (p q : dict) :
  TestPayment.filtered p = TestPayment.filtered q ->
  TestPayment.sign_str p = TestPayment.sign_str q.
Proof. unfold TestPayment.sign_str. intros ->. reflexivity. Qed.

(** The script [test_payment.py] carries a copy of the v2 signer. *)
Lemma test_payment_generate_sign_v2 (p : dict) (key : pystr) :
  TestPayment.generate_sign p key = GeneratePaymentUrlV2.generate_sign p key.
Proof. reflexivity. Qed.

(** An entry that the v2 filter rejects does not reach the signature. *)
Lemma v2_rejected_entry (P : dict) (k : pystr) (v : pyval) (key : pystr) :
  truthy v && negb (GeneratePaymentUrlV2.reserved k) = false ->
  GeneratePaymentUrlV2.sign_str (dict_set P k v)
    = GeneratePaymentUrlV2.sign_str (dict_del P k)
  /\ GeneratePaymentUrlV2.generate_sign (dict_set P k v) key
     = GeneratePaymentUrlV2.generate_sign (dict_del P k) key.
Proof.
  intros Hrej.
  assert (E : GeneratePaymentUrlV2.sign_str (dict_set P k v)
              = GeneratePaymentUrlV2.sign_str (dict_del P k)).
  { apply v2_sign_str_filtered.
    apply filter_set_rejected. exact Hrej. }
  split; [exact E|].
  unfold GeneratePaymentUrlV2.generate_sign. rewrite E. reflexivity.
Qed.

(** Exclusion invariance of the v2 signer: an entry under [sign] or
    [sign_type] does not change the signature. *)
Lemma v2_reserved_key_ignored (P : dict) (k : pystr) (v : pyval) (key : pystr) :
  k = lit "sign" \/ k = lit "sign_type" ->
  GeneratePaymentUrlV2.generate_sign (dict_set P k v) key
    = GeneratePaymentUrlV2.generate_sign (dict_del P k) key.
Proof.
  intros Hk. apply v2_rejected_entry.
  destruct Hk as [-> | ->];
    [ change (GeneratePaymentUrlV2.reserved (lit "sign")) with true
    | change (GeneratePaymentUrlV2.reserved (lit "sign_type")) with true ];
    apply andb_false_r.
Qed.

(** Empty-value invariance of the v2 signer. *)
Lemma v2_empty_value_ignored (P : dict) (k : pystr) (key : pystr) :
  GeneratePaymentUrlV2.generate_sign (dict_set P k (VStr [])) key
    = GeneratePaymentUrlV2.generate_sign (dict_del P k) key.
Proof. apply v2_rejected_entry. reflexivity. Qed.

Lemma falsy_values :
  truthy VNone = false /\ truthy (VBool false) = false
  /\ truthy (VInt 0) = false /\ truthy (VStr []) = false
  /\ truthy (VFloat (FFinite false 0 0)) = false.
Proof. repeat split. Qed.

(** C10. In the v2 signer (and its copy in test_payment.py) the filter
    drops every entry whose value is falsy, not only the empty string: for
    every P, key k and falsy value v (0, False, None, ...), signing P with
    k set to v gives the canonical string and the signature of P with k
    removed. *)
Theorem falsy_value_is_absent (P : dict) (k : pystr) (v : pyval) (key : pystr) :
  truthy v = false ->
  GeneratePaymentUrlV2.sign_str (dict_set P k v)
    = GeneratePaymentUrlV2.sign_str (dict_del P k)
  /\ GeneratePaymentUrlV2.generate_sign (dict_set P k v) key
     = GeneratePaymentUrlV2.generate_sign (dict_del P k) key
  /\ TestPayment.sign_str (dict_set P k v) = TestPayment.sign_str (dict_del P k)
  /\ TestPayment.generate_sign (dict_set P k v) key
     = TestPayment.generate_sign (dict_del P k) key.
Proof.
  intros Hv.
  assert (Hrej : truthy v && negb (GeneratePaymentUrlV2.reserved k) = false)
    by (rewrite Hv; reflexivity).
  destruct (v2_rejected_entry P k v key Hrej) as [E1 E2].
  repeat split; assumption.
Qed.

(** Signing the scenario with [money = 0] is signing it without [money]. *)
Lemma falsy_value_is_absent_witness :
  truthy (VInt 0) = false
  /\ GeneratePaymentUrlV2.generate_sign
       (dict_set Scenario.P (lit "money") (VInt 0)) Scenario.K
     = GeneratePaymentUrlV2.generate_sign
         (dict_del Scenario.P (lit "money")) Scenario.K.
Proof.
  split; [reflexivity|].
  exact (proj1 (proj2 (falsy_value_is_absent Scenario.P (lit "money") (VInt 0)
                         Scenario.K eq_refl))).
Defined.

(* ================================================================== *)
(** * The first signer signs every entry *)

(** C2. The signer of generate_payment_url.py has no filter: with the
    scenario's P and K, adding [sign = "x"] puts [sign=x] into the hashed
    string and changes the signature, while the v2 signer returns the
    signature of P. *)
Theorem v1_sign_entry_is_signed :
  let P' := dict_set Scenario.P (lit "sign") (VStr (lit "x")) in
  GeneratePaymentUrl.canonical P'
    = lit "money=0.01&name=测试商品&notify_url=http://example.com/notify&out_trade_no=TEST1700000000&pid=1001003549245339&return_url=http://example.com/return&sign=x&type=alipay"
  /\ GeneratePaymentUrl.generate_sign Scenario.P Scenario.K
     = Ok (lit "6faf6a4eba5ce68e8aca701a94d12690")
  /\ GeneratePaymentUrl.generate_sign P' Scenario.K
     = Ok (lit "dbbfa8a75f41812727086b525b7147c1")
  /\ GeneratePaymentUrl.generate_sign P' Scenario.K
     <> GeneratePaymentUrl.generate_sign Scenario.P Scenario.K
  /\ GeneratePaymentUrlV2.generate_sign P' Scenario.K
     = GeneratePaymentUrlV2.generate_sign Scenario.P Scenario.K.
Proof.
  cbv zeta.
  split; [vm_compute; reflexivity|].
  split; [vm_compute; reflexivity|].
  split; [vm_compute; reflexivity|].
  split; [|vm_compute; reflexivity].
  intros E. vm_compute in E. discriminate E.
Qed.

(** C3. The signer of generate_payment_url.py keeps empty values: with the
    scenario's P and K, adding [sitename = ""] puts [sitename=] into the
    hashed string and changes the signature, while the v2 signer returns
    the signature of P. *)
Theorem v1_empty_value_is_signed :
  let P' := dict_set Scenario.P (lit "sitename") (VStr []) in
  GeneratePaymentUrl.canonical P'
    = lit "money=0.01&name=测试商品&notify_url=http://example.com/notify&out_trade_no=TEST1700000000&pid=1001003549245339&return_url=http://example.com/return&sitename=&type=alipay"
  /\ GeneratePaymentUrl.generate_sign Scenario.P Scenario.K
     = Ok (lit "6faf6a4eba5ce68e8aca701a94d12690")
  /\ GeneratePaymentUrl.generate_sign P' Scenario.K
     = Ok (lit "57fb6fbd8a96ed7756d7669a35a6aec1")
  /\ GeneratePaymentUrl.generate_sign P' Scenario.K
     <> GeneratePaymentUrl.generate_sign Scenario.P Scenario.K
  /\ GeneratePaymentUrlV2.generate_sign P' Scenario.K
     = GeneratePaymentUrlV2.generate_sign Scenario.P Scenario.K.
Proof.
  cbv zeta.
  split; [vm_compute; reflexivity|].
  split; [vm_compute; reflexivity|].
  split; [vm_compute; reflexivity|].
  split; [|vm_compute; reflexivity].
  intros E. vm_compute in E. discriminate E.
Qed.

(* ================================================================== *)
(** * Encoding never fails on valid text; the digest is 32 hex digits *)

Lemma encode_cp_valid (c : Z) :
  valid_cp c = true -> exists bs, encode_cp c = Some bs.
Proof.
  unfold valid_cp, encode_cp, is_surrogate. intros Hc.
  revert Hc. zcases; intros; eauto; discriminate.
Qed.

Lemma encode_total (s : pystr) :
  encodable s = true -> exists bs, encode s = Ok bs.
Proof.
  induction s as [|c s IH]; simpl; intros Hs.
  - eauto.
  - apply andb_true_iff in Hs as [Hc Hs].
    destruct (encode_cp_valid c Hc) as [bs ->].
    destruct (IH Hs) as [rest ->]. simpl. eauto.
Qed.

Lemma encodable_app (a b : pystr) :
  encodable (a ++ b) = encodable a && encodable b.
Proof. apply forallb_app. Qed.

Lemma le_bytes_octets (n : nat) (x : Z) : Forall is_octet (MD5.le_bytes n x).
Proof.
  revert x; induction n as [|n IH]; intros x; simpl; constructor.
  - unfold is_octet. apply Z.mod_pos_bound. lia.
  - apply IH.
Qed.

Lemma le_bytes_length (n : nat) (x : Z) : length (MD5.le_bytes n x) = n.
Proof. revert x; induction n as [|n IH]; intros x; simpl; auto. Qed.

Lemma digest_shape (msg : pybytes) :
  length (MD5.digest msg) = 16%nat /\ Forall is_octet (MD5.digest msg).
Proof.
  unfold MD5.digest.
  destruct (fold_left MD5.compress (MD5.blocks msg) MD5.init) as [[[a b] c] d].
  split.
  - rewrite !length_app, !le_bytes_length. reflexivity.
  - repeat (apply Forall_app; split); apply le_bytes_octets.
Qed.

Lemma hexdigit_lower (d : Z) :
  0 <= d < 16 -> is_lower_hex (MD5.hexdigit d) = true.
Proof. unfold is_lower_hex, MD5.hexdigit. intros Hd. zcases. Qed.

Lemma hex_of_bytes_shape (bs : pybytes) :
  Forall is_octet bs ->
  length (concat (map MD5.hex_of_byte bs)) = (2 * length bs)%nat
  /\ forallb is_lower_hex (concat (map MD5.hex_of_byte bs)) = true.
Proof.
  induction 1 as [|b bs Hb Hbs [IHl IHf]]; [split; reflexivity|].
  unfold is_octet in Hb. split.
  - simpl. simpl in IHl. rewrite IHl. lia.
  - change (is_lower_hex (MD5.hexdigit (b / 16))
            && (is_lower_hex (MD5.hexdigit (b mod 16))
                && forallb is_lower_hex (concat (map MD5.hex_of_byte bs)))
            = true).
    rewrite IHf, !hexdigit_lower; [reflexivity| |].
    + apply Z.mod_pos_bound; lia.
    + split; [apply Z.div_pos; lia | apply Z.div_lt_upper_bound; lia].
Qed.

Lemma hexdigest_shape (msg : pybytes) :
  length (MD5.hexdigest msg) = 32%nat
  /\ forallb is_lower_hex (MD5.hexdigest msg) = true.
Proof.
  destruct (digest_shape msg) as [Hl Ho].
  destruct (hex_of_bytes_shape _ Ho) as [Hl' Hf].
  unfold MD5.hexdigest. rewrite Hl', Hl. split; [reflexivity | exact Hf].
Qed.

(** Every signer hashes the octets of the canonical string followed by the
    key. *)
Lemma signers_hash (s K : pystr) (bs : pybytes) :
  encode (s ++ K) = Ok bs ->
  GeneratePaymentUrlV2.md5 (s ++ K) = Ok (MD5.hexdigest bs)
  /\ (forall params, GeneratePaymentUrlV2.sign_str params = Ok s ->
        GeneratePaymentUrlV2.generate_sign params K = Ok (MD5.hexdigest bs))
  /\ (forall params, TestPayment.sign_str params = Ok s ->
        TestPayment.generate_sign params K = Ok (MD5.hexdigest bs))
  /\ (forall params, GeneratePaymentUrl.canonical params = s ->
        GeneratePaymentUrl.generate_sign params K = Ok (MD5.hexdigest bs)).
Proof.
  intros Hbs.
  split; [unfold GeneratePaymentUrlV2.md5; rewrite Hbs; reflexivity|].
  split; [|split].
  - intros params Hp. unfold GeneratePaymentUrlV2.generate_sign.
    rewrite Hp. simpl. unfold GeneratePaymentUrlV2.md5. rewrite Hbs. reflexivity.
  - intros params Hp. unfold TestPayment.generate_sign.
    rewrite Hp. simpl. unfold TestPayment.md5. rewrite Hbs. reflexivity.
  - intros params Hp. unfold GeneratePaymentUrl.generate_sign,
      GeneratePaymentUrl.sign_str. rewrite Hp, Hbs. reflexivity.
Qed.

(** C4. For every canonical string s and secret K that are valid text, the
    signature is the MD5 digest of the UTF-8 octets of s directly followed
    by K, as 32 lowercase hex digits; no signer raises. *)
Theorem signature_is_md5_hex (s K : pystr) :
  encodable (s ++ K) = true ->
  exists bs,
    encode (s ++ K) = Ok bs
    /\ GeneratePaymentUrlV2.md5 (s ++ K) = Ok (MD5.hexdigest bs)
    /\ length (MD5.hexdigest bs) = 32%nat
    /\ forallb is_lower_hex (MD5.hexdigest bs) = true
    /\ (forall params, GeneratePaymentUrlV2.sign_str params = Ok s ->
          GeneratePaymentUrlV2.generate_sign params K = Ok (MD5.hexdigest bs))
    /\ (forall params, TestPayment.sign_str params = Ok s ->
          TestPayment.generate_sign params K = Ok (MD5.hexdigest bs))
    /\ (forall params, GeneratePaymentUrl.canonical params = s ->
          GeneratePaymentUrl.generate_sign params K = Ok (MD5.hexdigest bs)).
Proof.
  intros Hs. destruct (encode_total _ Hs) as [bs Hbs].
  destruct (hexdigest_shape bs) as [Hl Hf].
  destruct (signers_hash s K bs Hbs) as [Hmd5 Hsigners].
  exists bs. repeat (split; [assumption|]). exact Hsigners.
Qed.

(** The scenario's canonical string and secret are valid text. *)
Lemma signature_is_md5_hex_witness :
  encodable (Scenario.base_string ++ Scenario.K) = true
  /\ exists bs,
       encode (Scenario.base_string ++ Scenario.K) = Ok bs
       /\ GeneratePaymentUrlV2.md5 (Scenario.base_string ++ Scenario.K)
          = Ok (MD5.hexdigest bs).
Proof.
  split; [vm_compute; reflexivity|].
  destruct (signature_is_md5_hex Scenario.base_string Scenario.K)
    as [bs [H1 [H2 _]]]; [vm_compute; reflexivity|].
  exists bs. split; assumption.
Defined.

(* ================================================================== *)
(** * The deep-link harness: which requests a run sends *)

Section HarnessFacts.
Import TestAlipayDeeplink.
Variable server : list request -> request -> result response.
Variable exc_str : pyexc -> pystr.

Lemma requests_of_app (a b : list event) :
  requests_of (a ++ b) = requests_of a ++ requests_of b.
Proof. apply flat_map_app. Qed.

Lemma link_test_one_request (name : pystr) (params : dict) (q : pystr) :
  UrlLib.urlencode params = Ok q ->
  one_request server (link_test server name params) (Expected.link q).
Proof.
  intros Hq tr.
  unfold link_test, print_test, io_bind, io_seq, io_bind, lift, requests_get,
    print, io_ret, Expected.link.
  rewrite Hq. split.
  - intros resp ->.
    destruct (json_dumps resp); eexists;
      (split; [repeat rewrite <- app_assoc; reflexivity | reflexivity]).
  - intros e ->. reflexivity.
Qed.

Lemma redirect_test_one_request (q : pystr) :
  UrlLib.urlencode
    [ (lit "qr_code_id", VStr QR_CODE_ID); (lit "amount", AMOUNT);
      (lit "remark", VStr REMARK) ] = Ok q ->
  one_request server (test_redirect_to_alipay server) (Expected.pay q).
Proof.
  intros Hq tr.
  unfold test_redirect_to_alipay, io_bind, io_seq, io_bind, lift,
    requests_get, print, io_ret, Expected.pay.
  rewrite Hq. split.
  - intros resp ->.
    destruct (location resp); eexists;
      (split; [repeat rewrite <- app_assoc; reflexivity | reflexivity]).
  - intros e ->. reflexivity.
Qed.

Lemma then_all_answered {A} (ts : list (io response)) (rs : list request)
      (k : io A) :
  Forall2 (one_request server) ts rs ->
  forall tr,
    (forall i r, nth_error rs i = Some r ->
       exists resp, server (requests_of tr ++ firstn i rs) r = Ok resp) ->
    exists tr', then_all ts k tr = k tr'
                /\ requests_of tr' = requests_of tr ++ rs.
Proof.
  induction 1 as [|t r ts rs Ht Hts IH]; intros tr Hans.
  - exists tr. rewrite app_nil_r. split; reflexivity.
  - destruct (Hans 0%nat r eq_refl) as [resp Hresp].
    simpl in Hresp. rewrite app_nil_r in Hresp.
    destruct (proj1 (Ht tr) resp Hresp) as [outs [Hrun Houts]].
    destruct (IH (tr ++ Get r :: outs)) as [tr' [Hk Hreq]].
    + intros i r' Hi. rewrite requests_of_app. simpl. rewrite Houts.
      rewrite <- app_assoc. simpl. apply (Hans (S i) r' Hi).
    + exists tr'. split.
      * simpl. unfold io_seq, io_bind. rewrite Hrun. exact Hk.
      * rewrite Hreq, requests_of_app. simpl. rewrite Houts.
        rewrite <- app_assoc. reflexivity.
Qed.

Lemma then_all_refused {A} (ts : list (io response)) (rs : list request)
      (k : io A) :
  Forall2 (one_request server) ts rs ->
  forall (n : nat) (tr : list event) (r : request) (e : pyexc),
    nth_error rs n = Some r ->
    (forall i r', (i < n)%nat -> nth_error rs i = Some r' ->
       exists resp, server (requests_of tr ++ firstn i rs) r' = Ok resp) ->
    server (requests_of tr ++ firstn n rs) r = Raise e ->
    exists tr', then_all ts k tr = (Raise e, tr' ++ [Get r])
                /\ requests_of tr' = requests_of tr ++ firstn n rs.
Proof.
  induction 1 as [|t r0 ts rs Ht Hts IH]; intros n tr r e Hn Hans Hfail.
  - destruct n; discriminate.
  - destruct n as [|n].
    + simpl in Hn. injection Hn as <-.
      simpl in Hfail. rewrite app_nil_r in Hfail.
      exists tr. split.
      * simpl. unfold io_seq, io_bind. rewrite (proj2 (Ht tr) e Hfail).
        reflexivity.
      * simpl. rewrite app_nil_r. reflexivity.
    + destruct (Hans 0%nat r0 (Nat.lt_0_succ n) eq_refl) as [resp Hresp].
      simpl in Hresp. rewrite app_nil_r in Hresp.
      destruct (proj1 (Ht tr) resp Hresp) as [outs [Hrun Houts]].
      destruct (IH n (tr ++ Get r0 :: outs) r e Hn) as [tr' [Hk Hreq]].
      * intros i r' Hi Hi'. rewrite requests_of_app. simpl. rewrite Houts.
        rewrite <- app_assoc. simpl.
        apply (Hans (S i) r'); [lia | exact Hi'].
      * rewrite requests_of_app. simpl. rewrite Houts.
        rewrite <- app_assoc. exact Hfail.
      * exists tr'. split.
        -- simpl. unfold io_seq, io_bind. rewrite Hrun. exact Hk.
        -- rewrite Hreq, requests_of_app. simpl. rewrite Houts.
           rewrite <- app_assoc. reflexivity.
Qed.

End HarnessFacts.

Section HarnessRun.
Import TestAlipayDeeplink.
Variable server : list request -> request -> result response.
Variable exc_str : pyexc -> pystr.

Lemma run_all_tests_then_all :
  run_all_tests server = then_all (tests server) footer.
Proof. reflexivity. Qed.

Lemma tests_one_request :
  Forall2 (one_request server) (tests server) Expected.requests.
Proof.
  unfold tests, Expected.requests.
  unfold test_default_qr_code_id, test_custom_qr_code_id, test_no_amount,
    test_missing_qr_code_id, test_invalid_amount.
  do 5 (apply Forall2_cons;
        [apply link_test_one_request; vm_compute; reflexivity|]).
  apply Forall2_cons; [|apply Forall2_nil].
  apply redirect_test_one_request; vm_compute; reflexivity.
Qed.

Lemma footer_prints (tr : list event) :
  exists outs, footer tr = (Ok tt, tr ++ outs) /\ requests_of outs = [].
Proof.
  unfold footer, print_header, io_seq, io_bind, print.
  eexists. split; [repeat rewrite <- app_assoc; reflexivity | reflexivity].
Qed.

Lemma run_header :
  exists hdr,
    requests_of hdr = []
    /\ run server exc_str
       = try_except (run_all_tests server) (on_exception exc_str) hdr.
Proof.
  unfold run, main, print_header, io_seq, io_bind, print.
  eexists. split; [|reflexivity]. reflexivity.
Qed.

Lemma on_connection_error (tr : list event) :
  on_exception exc_str ConnectionError tr
  = (Ok tt, tr ++ Expected.connection_notice).
Proof.
  unfold on_exception, Expected.connection_notice, io_seq, io_bind, print.
  repeat rewrite <- app_assoc. reflexivity.
Qed.

Lemma firstn_succ_nth_error {A} (l : list A) (n : nat) (x : A) :
  nth_error l n = Some x -> firstn (S n) l = firstn n l ++ [x].
Proof.
  revert n; induction l as [|y l IH]; intros [|n] Hn; try discriminate.
  - injection Hn as ->. reflexivity.
  - simpl in Hn. change (y :: firstn (S n) l = y :: firstn n l ++ [x]).
    rewrite (IH n Hn). reflexivity.
Qed.

(** C9. When every request is answered, a run sends exactly the six GET
    requests of the scenarios, in order: five to [/alipay/link] with the
    queries (amount, remark), (qr_code_id, amount, remark), (qr_code_id),
    (amount), (qr_code_id, amount = "invalid"), then one to [/alipay/pay]
    with (qr_code_id, amount, remark) and redirects not followed. *)
Theorem full_run_sends_six_requests :
  (forall hist r, exists resp, server hist r = Ok resp) ->
  fst (run server exc_str) = Ok tt
  /\ requests_of (snd (run server exc_str)) = Expected.requests
  /\ mapM Expected.request_of Expected.scenarios = Ok Expected.requests
  /\ map url Expected.requests = Expected.urls
  /\ map allow_redirects Expected.requests
     = [true; true; true; true; true; false].
Proof.
  intros Hans.
  destruct run_header as [hdr [Hhdr ->]].
  destruct (then_all_answered server (tests server) Expected.requests footer
              tests_one_request hdr) as [tr' [Hrun Hreq]].
  { intros i r _. apply Hans. }
  destruct (footer_prints tr') as [outs [Hfoot Houts]].
  unfold try_except. rewrite run_all_tests_then_all, Hrun, Hfoot.
  split; [reflexivity|]. split.
  - cbn [snd]. rewrite requests_of_app, Houts, Hreq, Hhdr, app_nil_r.
    reflexivity.
  - split; [vm_compute; reflexivity|].
    split; [vm_compute; reflexivity | reflexivity].
Qed.

(** C8, as the code has it. When the request of scenario n + 1 raises a
    connection error after the earlier ones were answered, [main] catches
    it: the run ends normally, the failed request is the last one sent (the
    scenarios after it are not executed), and what follows it in the output
    is the general connection notice, with no line for the scenario. *)
Theorem connection_error_ends_run (n : nat) (r : request) :
  nth_error Expected.requests n = Some r ->
  (forall i r', (i < n)%nat -> nth_error Expected.requests i = Some r' ->
     exists resp, server (firstn i Expected.requests) r' = Ok resp) ->
  server (firstn n Expected.requests) r = Raise ConnectionError ->
  fst (run server exc_str) = Ok tt
  /\ requests_of (snd (run server exc_str)) = firstn (S n) Expected.requests
  /\ exists tr,
       snd (run server exc_str) = tr ++ Get r :: Expected.connection_notice.
Proof.
  intros Hn Hans Hfail.
  destruct run_header as [hdr [Hhdr ->]].
  destruct (then_all_refused server (tests server) Expected.requests footer
              tests_one_request n hdr r ConnectionError Hn)
    as [tr' [Hrun Hreq]].
  { rewrite Hhdr. exact Hans. }
  { rewrite Hhdr. exact Hfail. }
  unfold try_except.
  rewrite run_all_tests_then_all, Hrun, on_connection_error.
  split; [reflexivity|]. split.
  - cbn [snd]. rewrite (firstn_succ_nth_error _ _ _ Hn).
    rewrite !requests_of_app, Hreq, Hhdr.
    change (requests_of [Get r]) with [r].
    change (requests_of Expected.connection_notice) with (@nil request).
    rewrite app_nil_r. reflexivity.
  - exists tr'. cbn [snd]. rewrite <- app_assoc. reflexivity.
Qed.

End HarnessRun.

(** A server that always answers 200: the six requests are sent. *)
Lemma full_run_sends_six_requests_witness :
  (forall hist r, exists resp, Expected.ok200 hist r = Ok resp)
  /\ TestAlipayDeeplink.requests_of
       (snd (TestAlipayDeeplink.run Expected.ok200 (fun _ => [])))
     = Expected.requests.
Proof.
  assert (H : forall hist r, exists resp, Expected.ok200 hist r = Ok resp)
    by (intros hist r; eexists; reflexivity).
  split; [exact H|].
  exact (proj1 (proj2 (full_run_sends_six_requests Expected.ok200
                         (fun _ => []) H))).
Defined.

(** A server that is gone after two answers: the third request is the
    last. *)
Lemma connection_error_ends_run_witness :
  Expected.two_then_gone (firstn 2 Expected.requests)
    (Expected.link (lit "qr_code_id=fkx12345678901234"))
  = Raise ConnectionError
  /\ TestAlipayDeeplink.requests_of
       (snd (TestAlipayDeeplink.run Expected.two_then_gone (fun _ => [])))
     = firstn 3 Expected.requests.
Proof.
  split; [reflexivity|].
  refine (proj1 (proj2 (connection_error_ends_run Expected.two_then_gone
                          (fun _ => []) 2
                          (Expected.link (lit "qr_code_id=fkx12345678901234"))
                          eq_refl _ eq_refl))).
  intros [|[|i]] r' Hi _; [eexists; reflexivity | eexists; reflexivity | lia].
Defined.

(** C8, as stated, fails: when the server cannot be reached, the request of
    the first scenario is the only one sent, and the five scenarios after
    it are not executed. *)
Lemma connection_error_skips_remaining :
  Expected.unreachable [] (Expected.link (lit "amount=1.23&remark=%E6%B5%8B%E8%AF%95%E8%AE%A2%E5%8D%95"))
  = Raise ConnectionError
  /\ TestAlipayDeeplink.requests_of
       (snd (TestAlipayDeeplink.run Expected.unreachable (fun _ => [])))
     = [ Expected.link (lit "amount=1.23&remark=%E6%B5%8B%E8%AF%95%E8%AE%A2%E5%8D%95") ]
  /\ length (TestAlipayDeeplink.requests_of
               (snd (TestAlipayDeeplink.run Expected.unreachable (fun _ => []))))
     <> 6%nat.
Proof.
  split; [reflexivity|].
  split; [vm_compute; reflexivity|].
  vm_compute. discriminate.
Qed.

(* ================================================================== *)
(** * How the amount is serialized *)

Lemma dict_get_set_same (d : dict) (k : pystr) (v : pyval) :
  dict_get (dict_set d k v) k = Some v.
Proof.
  induction d as [|[k' v'] d IH]; simpl.
  - rewrite str_eqb_refl. reflexivity.
  - destruct (str_eqb k k') eqn:E; simpl; rewrite E; auto.
Qed.

Lemma dict_get_set_other (d : dict) (k k' : pystr) (v : pyval) :
  str_eqb k' k = false ->
  dict_get (dict_set d k v) k' = dict_get d k'.
Proof.
  intros Hk. induction d as [|[k0 v0] d IH]; simpl.
  - rewrite Hk. reflexivity.
  - destruct (str_eqb k k0) eqn:E; simpl.
    + apply str_eqb_eq in E. subst k0. rewrite Hk. reflexivity.
    + rewrite IH. reflexivity.
Qed.

Lemma in_dict_set_other (d : dict) (k k' : pystr) (v v' : pyval) :
  str_eqb k k' = false -> In (k', v') d -> In (k', v') (dict_set d k v).
Proof.
  intros Hk. induction d as [|[k0 v0] d IH]; simpl; [tauto|].
  intros [E | Hin].
  - injection E as -> ->. rewrite Hk. left. reflexivity.
  - destruct (str_eqb k k0); [right; exact Hin | right; apply IH; exact Hin].
Qed.

Lemma uint_digits_digits (d : Decimal.uint) :
  forallb is_digit (uint_digits d) = true.
Proof. induction d; simpl; auto. Qed.

Lemma nat_digits_plain (n : Z) : is_plain_int (nat_digits n) = true.
Proof.
  unfold nat_digits.
  pose proof (uint_digits_digits (N.to_uint (Z.to_N n))) as Hd.
  destruct (Z.to_N n) as [|p]; [reflexivity|].
  simpl in *. pose proof (Unsigned.to_uint_nonnil p) as Hp.
  destruct (Pos.to_uint p); try congruence; exact Hd.
Qed.

Lemma int_str_plain (n : Z) : is_plain_int (int_str n) = true.
Proof.
  unfold int_str. destruct (Z.ltb_spec n 0); [|apply nat_digits_plain].
  pose proof (nat_digits_plain (- n)) as Hp.
  pose proof (uint_digits_digits (N.to_uint (Z.to_N (- n)))) as Hd.
  unfold nat_digits in *.
  destruct (uint_digits (N.to_uint (Z.to_N (- n)))) as [|d ds];
    [discriminate Hp | exact Hd].
Qed.

(** The params before the signature is stored. *)
Lemma v2_generate_payment_url_inv
      (now : Z) (base : pystr) (pid : pyval) (key : pystr) (kwargs : dict)
      (u : pystr) (params : dict) :
  GeneratePaymentUrlV2.generate_payment_url now base pid key kwargs
    = Ok (u, params) ->
  exists unsigned sig q,
    (unsigned = GeneratePaymentUrlV2.default_params now pid kwargs
     \/ exists v, dict_get kwargs (lit "sitename") = Some v /\ truthy v = true
                  /\ unsigned
                     = dict_set (GeneratePaymentUrlV2.default_params now pid kwargs)
                         (lit "sitename") v)
    /\ GeneratePaymentUrlV2.generate_sign unsigned key = Ok sig
    /\ params = dict_set unsigned (lit "sign") (VStr sig)
    /\ UrlLib.urlencode params = Ok q
    /\ u = base ++ lit "/submit?" ++ q.
Proof.
  unfold GeneratePaymentUrlV2.generate_payment_url.
  set (unsigned := match dict_get kwargs (lit "sitename") with
                   | Some v => if truthy v then _ else _
                   | None => _
                   end).
  intros H.
  destruct (GeneratePaymentUrlV2.generate_sign unsigned key) as [sig|e] eqn:Hs;
    [|discriminate H].
  simpl in H.
  destruct (UrlLib.urlencode (dict_set unsigned (lit "sign") (VStr sig)))
    as [q|e] eqn:Hq; [|discriminate H].
  simpl in H. injection H as <- <-.
  exists unsigned, sig, q. split; [|auto].
  subst unsigned.
  destruct (dict_get kwargs (lit "sitename")) as [v|]; [|left; reflexivity].
  destruct (truthy v) eqn:Hv; [right; exists v; auto | left; reflexivity].
Qed.

Lemma default_params_money (now : Z) (pid : pyval) (kwargs : dict) :
  In (lit "money",
      VStr (py_str (dict_get_default kwargs (lit "money") (VStr (lit "0.01")))))
     (GeneratePaymentUrlV2.default_params now pid kwargs)
  /\ dict_get (GeneratePaymentUrlV2.default_params now pid kwargs) (lit "money")
     = Some (VStr (py_str (dict_get_default kwargs (lit "money")
                             (VStr (lit "0.01"))))).
Proof.
  unfold GeneratePaymentUrlV2.default_params. split.
  - simpl. tauto.
  - cbn [dict_get]. eval_keys. reflexivity.
Qed.

(** A float whose decimal point position is outside (-4, 16] is written
    with an exponent. *)
Lemma float_repr_exponent (neg : bool) (m e d p : Z) :
  m <> 0 ->
  FloatRepr.shortest m e = (d, p) ->
  Z.of_nat (length (nat_digits d)) + p <= -4
  \/ 16 < Z.of_nat (length (nat_digits d)) + p ->
  In 101 (FloatRepr.float_repr (FFinite neg m e)).
Proof.
  intros Hm Hs Hout. cbn [FloatRepr.float_repr].
  rewrite (proj2 (Z.eqb_neq m 0) Hm), Hs.
  apply in_or_app. right. unfold FloatRepr.layout.
  replace ((-4 <? Z.of_nat (length (nat_digits d)) + p)
           && (Z.of_nat (length (nat_digits d)) + p <=? 16)) with false
    by (symmetry; apply andb_false_iff;
        rewrite Z.ltb_ge, Z.leb_gt; lia).
  apply in_or_app. right. apply in_or_app. right. left. reflexivity.
Qed.

(** C7, as the code has it. The amount goes through [str()]: the [money]
    entry of the returned params is the text [str(amount)], and that entry
    (when not empty) is one the signer signs; an [int] comes out in plain
    decimal digits, a [str] comes out unchanged, and a float comes out as
    its [repr], with an exponent when its decimal point position is outside
    (-4, 16]. *)
Theorem money_is_str_of_amount
        (now : Z) (base : pystr) (pid : pyval) (key : pystr) (kwargs : dict)
        (u : pystr) (params : dict) :
  GeneratePaymentUrlV2.generate_payment_url now base pid key kwargs
    = Ok (u, params) ->
  let amount := dict_get_default kwargs (lit "money") (VStr (lit "0.01")) in
  dict_get params (lit "money") = Some (VStr (py_str amount))
  /\ (py_str amount <> [] ->
      In (lit "money", VStr (py_str amount))
         (GeneratePaymentUrlV2.filtered params))
  /\ (forall n, amount = VInt n ->
        py_str amount = int_str n /\ is_plain_int (int_str n) = true)
  /\ (forall s, amount = VStr s -> py_str amount = s)
  /\ (forall neg m e d p,
        amount = VFloat (FFinite neg m e) -> m <> 0 ->
        FloatRepr.shortest m e = (d, p) ->
        Z.of_nat (length (nat_digits d)) + p <= -4
        \/ 16 < Z.of_nat (length (nat_digits d)) + p ->
        In 101 (py_str amount)).
Proof.
  intros H amount.
  destruct (v2_generate_payment_url_inv _ _ _ _ _ _ _ H)
    as [unsigned [sig [q [Hu [_ [-> _]]]]]].
  destruct (default_params_money now pid kwargs) as [Hin Hget].
  fold amount in Hin, Hget.
  assert (Hin' : In (lit "money", VStr (py_str amount)) unsigned
                 /\ dict_get unsigned (lit "money") = Some (VStr (py_str amount))).
  { destruct Hu as [-> | [v [_ [_ ->]]]]; [auto|]. split.
    - apply in_dict_set_other; [vm_compute; reflexivity | exact Hin].
    - rewrite dict_get_set_other by (vm_compute; reflexivity). exact Hget. }
  destruct Hin' as [Hin' Hget'].
  split; [|split; [|split; [|split]]].
  - rewrite dict_get_set_other by (vm_compute; reflexivity). exact Hget'.
  - intros Hne. apply filter_In. split.
    + apply in_dict_set_other; [vm_compute; reflexivity | exact Hin'].
    + simpl. destruct (py_str amount); [congruence|].
      change (GeneratePaymentUrlV2.reserved (lit "money")) with false.
      reflexivity.
  - intros n ->. split; [reflexivity | apply int_str_plain].
  - intros s ->. reflexivity.
  - intros neg m e d p -> Hm Hs Hout.
    apply (float_repr_exponent neg m e d p Hm Hs Hout).
Qed.

(** An [int] amount: [money=5] is serialized as the text [5]. *)
Lemma money_is_str_of_amount_witness :
  GeneratePaymentUrlV2.generate_payment_url 1700000000 Scenario.base_url
    Scenario.pid Scenario.K [(lit "money", VInt 5)]
  = Ok (Scenario.url_5,
        Scenario.returned (lit "5") (lit "ca0dcd47e9bb0b03177c9d4e7f15c928"))
  /\ dict_get
       (Scenario.returned (lit "5") (lit "ca0dcd47e9bb0b03177c9d4e7f15c928"))
       (lit "money")
     = Some (VStr (py_str (dict_get_default [(lit "money", VInt 5)]
                             (lit "money") (VStr (lit "0.01"))))).
Proof.
  assert (H : GeneratePaymentUrlV2.generate_payment_url 1700000000
                Scenario.base_url Scenario.pid Scenario.K
                [(lit "money", VInt 5)]
              = Ok (Scenario.url_5,
                    Scenario.returned (lit "5")
                      (lit "ca0dcd47e9bb0b03177c9d4e7f15c928")))
    by (vm_compute; reflexivity).
  split; [exact H|].
  exact (proj1 (money_is_str_of_amount 1700000000 Scenario.base_url
                  Scenario.pid Scenario.K [(lit "money", VInt 5)]
                  Scenario.url_5
                  (Scenario.returned (lit "5")
                     (lit "ca0dcd47e9bb0b03177c9d4e7f15c928")) H)).
Defined.

(** C7, as stated, fails: the float [1e-05] (the binary64 value nearest to
    1/10^5) is serialized as [1e-05], in exponent notation; and the floats
    [1.23] and [0.5] come out with two and one fraction digits. *)
Lemma float_amount_in_exponent_notation :
  2 * Z.abs (5902958103587057 * 10 ^ 5 - 2 ^ 69) <= 10 ^ 5
  /\ Scenario.call (VFloat Scenario.float_1e_05)
     = Ok (Scenario.url_1e_05,
           Scenario.returned (lit "1e-05")
             (lit "37c121cf71fc06891ae4d062beafb17d"))
  /\ py_str (VFloat Scenario.float_1e_05) = lit "1e-05"
  /\ py_str (VFloat Scenario.float_1_23) = lit "1.23"
  /\ py_str (VFloat Scenario.float_0_5) = lit "0.5".
Proof.
  split; [vm_compute; discriminate|].
  repeat split; vm_compute; reflexivity.
Qed.

(* ================================================================== *)
(** * The builders return on valid text *)

Lemma join_encodable (sep : pystr) (parts : list pystr) :
  encodable sep = true ->
  Forall (fun p => encodable p = true) parts ->
  encodable (join sep parts) = true.
Proof.
  intros Hsep. induction 1 as [|p ps Hp Hps IH]; [reflexivity|].
  destruct ps as [|p' ps]; [exact Hp|].
  change (encodable (p ++ sep ++ join sep (p' :: ps)) = true).
  rewrite !encodable_app, Hp, Hsep, IH. reflexivity.
Qed.

Section SortedFacts.
Context {A : Type} (ltb : A -> A -> bool).

Lemma in_insert (x y : A) (l : list A) :
  In y (insert ltb x l) <-> y = x \/ In y l.
Proof.
  induction l as [|h t IH]; simpl.
  - intuition.
  - destruct (ltb h x); simpl; rewrite ?IH; intuition.
Qed.

Lemma in_sorted (y : A) (l : list A) : In y (sorted ltb l) <-> In y l.
Proof.
  induction l as [|h t IH]; simpl; [tauto|].
  rewrite in_insert, IH. intuition.
Qed.

Lemma sorted_Forall (P : A -> Prop) (l : list A) :
  Forall P l -> Forall P (sorted ltb l).
Proof.
  rewrite !Forall_forall. intros H y Hy. apply H, in_sorted, Hy.
Qed.
End SortedFacts.

Lemma mapM_ok {A B} (f : A -> result B) (Q : B -> Prop) (l : list A) :
  (forall x, In x l -> exists y, f x = Ok y /\ Q y) ->
  exists ys, mapM f l = Ok ys /\ Forall Q ys /\ length ys = length l.
Proof.
  induction l as [|x l IH]; intros H; simpl.
  - exists []. auto.
  - destruct (H x (or_introl eq_refl)) as [y [-> Hy]].
    destruct IH as [ys [-> [Hys Hl]]]; [intros z Hz; apply H; right; exact Hz|].
    simpl. exists (y :: ys). simpl. auto.
Qed.

Lemma dict_get_in (d : dict) (k : pystr) (v : pyval) :
  dict_get d k = Some v -> In (k, v) d.
Proof.
  induction d as [|[k' v'] d IH]; simpl; [discriminate|].
  destruct (str_eqb k k') eqn:E.
  - apply str_eqb_eq in E. subst k'. intros [= ->]. left. reflexivity.
  - intros H. right. apply IH, H.
Qed.

Lemma dict_get_key (d : dict) (k : pystr) :
  In k (map fst d) -> exists v, dict_get d k = Some v.
Proof.
  induction d as [|[k' v'] d IH]; simpl; [tauto|].
  destruct (str_eqb k k') eqn:E; [eauto|].
  intros [Hk | Hin]; [|apply IH, Hin].
  subst k'. rewrite str_eqb_refl in E. discriminate.
Qed.

Lemma filtered_entries_ok (params : dict) :
  Forall entry_ok params ->
  Forall entry_ok (GeneratePaymentUrlV2.filtered params).
Proof.
  rewrite !Forall_forall. intros H kv Hkv.
  apply filter_In in Hkv. apply H, Hkv.
Qed.

Lemma v2_sign_str_total (params : dict) :
  Forall entry_ok params ->
  exists s, GeneratePaymentUrlV2.sign_str params = Ok s
            /\ encodable s = true.
Proof.
  intros Hok. apply filtered_entries_ok in Hok.
  unfold GeneratePaymentUrlV2.sign_str.
  set (f := GeneratePaymentUrlV2.filtered params) in *.
  destruct (mapM_ok
              (fun k => v <- dict_item f k ;; Ok (k ++ [61] ++ py_str v))
              (fun p => encodable p = true)
              (sorted str_ltb (map fst f))) as [parts [-> [Hparts _]]].
  - intros k Hk. apply in_sorted in Hk.
    destruct (dict_get_key f k Hk) as [v Hv].
    unfold dict_item. rewrite Hv. cbn [bind]. eexists. split; [reflexivity|].
    apply dict_get_in in Hv.
    rewrite Forall_forall in Hok. destruct (Hok _ Hv) as [Hk' Hv'].
    cbn [fst snd] in Hk', Hv'. rewrite !encodable_app, Hk', Hv'. reflexivity.
  - simpl. eexists. split; [reflexivity|].
    apply join_encodable; [reflexivity | exact Hparts].
Qed.

Lemma lower_hex_encodable (s : pystr) :
  forallb is_lower_hex s = true -> encodable s = true.
Proof.
  unfold encodable. induction s as [|c s IH]; simpl; [reflexivity|].
  intros H. apply andb_true_iff in H as [Hc Hs]. rewrite (IH Hs).
  rewrite andb_true_r. revert Hc.
  unfold is_lower_hex, valid_cp, is_surrogate. zcases.
Qed.

Lemma v2_generate_sign_total (params : dict) (key : pystr) :
  Forall entry_ok params -> encodable key = true ->
  exists sig, GeneratePaymentUrlV2.generate_sign params key = Ok sig
              /\ length sig = 32%nat
              /\ forallb is_lower_hex sig = true.
Proof.
  intros Hok Hkey. destruct (v2_sign_str_total params Hok) as [s [Hs Hes]].
  destruct (encode_total (s ++ key)) as [bs Hbs];
    [rewrite encodable_app, Hes, Hkey; reflexivity|].
  destruct (hexdigest_shape bs) as [Hl Hf].
  destruct (signers_hash s key bs Hbs) as [_ [Hg _]].
  exists (MD5.hexdigest bs). auto.
Qed.

Lemma v1_canonical_encodable (params : dict) :
  Forall entry_ok params ->
  encodable (GeneratePaymentUrl.canonical params) = true.
Proof.
  intros Hok. unfold GeneratePaymentUrl.canonical.
  apply join_encodable; [reflexivity|].
  apply Forall_map. apply (sorted_Forall item_ltb) in Hok.
  revert Hok. apply Forall_impl. intros [k v] [Hk Hv]. cbn [fst snd] in *.
  rewrite !encodable_app, Hk, Hv. reflexivity.
Qed.

Lemma v1_generate_sign_total (params : dict) (key : pystr) :
  Forall entry_ok params -> encodable key = true ->
  exists sig, GeneratePaymentUrl.generate_sign params key = Ok sig
              /\ length sig = 32%nat
              /\ forallb is_lower_hex sig = true.
Proof.
  intros Hok Hkey.
  destruct (encode_total (GeneratePaymentUrl.canonical params ++ key))
    as [bs Hbs];
    [rewrite encodable_app, (v1_canonical_encodable _ Hok), Hkey; reflexivity|].
  destruct (hexdigest_shape bs) as [Hl Hf].
  destruct (signers_hash _ key bs Hbs) as [_ [_ [_ Hg]]].
  exists (MD5.hexdigest bs). auto.
Qed.

Lemma quote_total (safe : list Z) (s : pystr) :
  encodable s = true -> exists q, UrlLib.quote safe s = Ok q.
Proof.
  intros Hs. unfold UrlLib.quote.
  destruct (encode_total s Hs) as [bs ->]. simpl. eauto.
Qed.

Lemma quote_plus_total (s : pystr) :
  encodable s = true -> exists q, UrlLib.quote_plus s = Ok q.
Proof.
  intros Hs. unfold UrlLib.quote_plus.
  destruct (existsb (Z.eqb 32) s).
  - destruct (quote_total [32] s Hs) as [q ->]. simpl. eauto.
  - apply quote_total, Hs.
Qed.

Lemma urlencode_total (d : dict) :
  Forall entry_ok d -> exists q, UrlLib.urlencode d = Ok q.
Proof.
  intros Hok. unfold UrlLib.urlencode.
  destruct (mapM_ok
              (fun kv => k <- UrlLib.quote_plus (fst kv) ;;
                         v <- UrlLib.quote_plus (py_str (snd kv)) ;;
                         Ok (k ++ [61] ++ v))
              (fun _ => True) d) as [l [-> _]].
  - intros kv Hkv. rewrite Forall_forall in Hok.
    destruct (Hok kv Hkv) as [Hk Hv].
    destruct (quote_plus_total _ Hk) as [k' ->].
    destruct (quote_plus_total _ Hv) as [v' ->]. simpl. eauto.
  - simpl. eauto.
Qed.

Lemma dict_set_entries_ok (d : dict) (k : pystr) (v : pyval) :
  Forall entry_ok d -> entry_ok (k, v) -> Forall entry_ok (dict_set d k v).
Proof.
  intros Hd Hkv. induction Hd as [|[k' v'] d Hx Hd IH]; simpl.
  - constructor; [exact Hkv | constructor].
  - destruct (str_eqb k k') eqn:E.
    + constructor; [|exact Hd]. destruct Hx as [Hk' _], Hkv as [_ Hv].
      split; assumption.
    + constructor; assumption.
Qed.

Lemma digits_encodable (s : pystr) :
  forallb is_digit s = true -> encodable s = true.
Proof.
  unfold encodable. induction s as [|c s IH]; simpl; [reflexivity|].
  intros H. apply andb_true_iff in H as [Hc Hs]. rewrite (IH Hs).
  rewrite andb_true_r. revert Hc.
  unfold is_digit, valid_cp, is_surrogate. zcases.
Qed.

Lemma int_str_encodable (n : Z) : encodable (int_str n) = true.
Proof.
  unfold int_str, nat_digits.
  destruct (n <? 0); [change (45 :: ?s) with ([45] ++ s);
                      rewrite encodable_app; simpl|];
    apply digits_encodable, uint_digits_digits.
Qed.

Lemma dict_get_value_ok (d : dict) (k : pystr) (v : pyval) :
  values_ok d -> dict_get d k = Some v -> encodable (py_str v) = true.
Proof.
  intros Hd Hv. apply dict_get_in in Hv.
  unfold values_ok in Hd. rewrite Forall_forall in Hd. apply (Hd _ Hv).
Qed.

Lemma dict_get_default_ok (d : dict) (k : pystr) (dflt : pyval) :
  values_ok d -> encodable (py_str dflt) = true ->
  encodable (py_str (dict_get_default d k dflt)) = true.
Proof.
  intros Hd Hdflt. unfold dict_get_default.
  destruct (dict_get d k) as [v|] eqn:E; [|exact Hdflt].
  apply (dict_get_value_ok d k v Hd E).
Qed.

Lemma v2_generate_payment_url_eq
      (now : Z) (base : pystr) (pid : pyval) (key : pystr) (kwargs : dict) :
  GeneratePaymentUrlV2.generate_payment_url now base pid key kwargs
  = (sign <- GeneratePaymentUrlV2.generate_sign (v2_unsigned now pid kwargs) key ;;
     q <- UrlLib.urlencode
            (dict_set (v2_unsigned now pid kwargs) (lit "sign") (VStr sign)) ;;
     Ok (base ++ lit "/submit?" ++ q,
         dict_set (v2_unsigned now pid kwargs) (lit "sign") (VStr sign))).
Proof. reflexivity. Qed.

Lemma default_params_ok (now : Z) (pid : pyval) (kwargs : dict) :
  encodable (py_str pid) = true -> values_ok kwargs ->
  Forall entry_ok (GeneratePaymentUrlV2.default_params now pid kwargs).
Proof.
  intros Hpid Hkw. unfold GeneratePaymentUrlV2.default_params.
  repeat (apply Forall_cons; [split; [vm_compute; reflexivity | cbn [snd]]|]);
    try apply Forall_nil;
    try (apply dict_get_default_ok; [exact Hkw|]);
    try exact Hpid;
    lazymatch goal with
    | |- context [int_str now] =>
        change (encodable (lit "TEST" ++ int_str now) = true);
        rewrite encodable_app, int_str_encodable; reflexivity
    | |- _ => vm_compute; reflexivity
    end.
Qed.

Lemma v2_unsigned_ok (now : Z) (pid : pyval) (kwargs : dict) :
  encodable (py_str pid) = true -> values_ok kwargs ->
  Forall entry_ok (v2_unsigned now pid kwargs).
Proof.
  intros Hpid Hkw. pose proof (default_params_ok now pid kwargs Hpid Hkw) as Hd.
  unfold v2_unsigned.
  destruct (dict_get kwargs (lit "sitename")) as [v|] eqn:E; [|exact Hd].
  destruct (truthy v); [|exact Hd].
  apply dict_set_entries_ok; [exact Hd|].
  split; [vm_compute; reflexivity|].
  apply (dict_get_value_ok kwargs _ v Hkw E).
Qed.

Lemma v2_unsigned_get (now : Z) (pid : pyval) (kwargs : dict) (k : pystr) :
  str_eqb k (lit "sitename") = false ->
  dict_get (v2_unsigned now pid kwargs) k
  = dict_get (GeneratePaymentUrlV2.default_params now pid kwargs) k.
Proof.
  intros Hk. unfold v2_unsigned.
  destruct (dict_get kwargs (lit "sitename")) as [v|]; [|reflexivity].
  destruct (truthy v); [|reflexivity].
  apply dict_get_set_other, Hk.
Qed.

Lemma default_params_get (now : Z) (pid : pyval) (kwargs : dict) :
  let dp := GeneratePaymentUrlV2.default_params now pid kwargs in
  dict_get dp (lit "type")
    = Some (dict_get_default kwargs (lit "type") (VStr (lit "alipay")))
  /\ dict_get dp (lit "out_trade_no")
     = Some (dict_get_default kwargs (lit "out_trade_no")
               (VStr (lit "TEST" ++ int_str now)))
  /\ dict_get dp (lit "sign_type") = Some (VStr (lit "MD5"))
  /\ dict_get dp (lit "sign") = None.
Proof.
  unfold GeneratePaymentUrlV2.default_params. cbv zeta.
  repeat split; cbn [dict_get]; eval_keys; reflexivity.
Qed.

Lemma dict_del_set_absent (d : dict) (k : pystr) (v : pyval) :
  dict_get d k = None -> dict_del (dict_set d k v) k = d.
Proof.
  induction d as [|[k' v'] d IH]; simpl.
  - rewrite str_eqb_refl. reflexivity.
  - destruct (str_eqb k k') eqn:E; [discriminate|].
    intros H. simpl. rewrite E, (IH H). reflexivity.
Qed.

Lemma v1_order_params_ok (now : Z) (amount product_name : pyval) :
  encodable (py_str amount) = true ->
  encodable (py_str product_name) = true ->
  Forall entry_ok (GeneratePaymentUrl.order_params now amount product_name).
Proof.
  intros Ha Hn. unfold GeneratePaymentUrl.order_params.
  repeat (apply Forall_cons; [split; [vm_compute; reflexivity | cbn [snd]]|]);
    try apply Forall_nil;
    try assumption;
    lazymatch goal with
    | |- context [int_str now] =>
        change (encodable (lit "TEST" ++ int_str now) = true);
        rewrite encodable_app, int_str_encodable; reflexivity
    | |- _ => vm_compute; reflexivity
    end.
Qed.

Lemma v1_order_params_get (now : Z) (amount product_name : pyval) :
  let op := GeneratePaymentUrl.order_params now amount product_name in
  dict_get op (lit "type") = Some (VStr (lit "alipay"))
  /\ dict_get op (lit "out_trade_no") = Some (VStr (lit "TEST" ++ int_str now))
  /\ dict_get op (lit "sign") = None
  /\ dict_get op (lit "sign_type") = None.
Proof.
  unfold GeneratePaymentUrl.order_params. cbv zeta.
  repeat split; cbn [dict_get]; eval_keys; reflexivity.
Qed.

Lemma v1_base_url :
  GeneratePaymentUrl.BASE_URL ++ lit "?"
  = lit "http://localhost:8080" ++ lit "/submit?".
Proof. vm_compute. reflexivity. Qed.

(** On valid text the v2 builder returns: the URL and the signed params. *)
Lemma v2_builder_returns
      (now : Z) (base_url : pystr) (pid : pyval) (merchant_key : pystr)
      (kwargs : dict) :
  encodable (py_str pid) = true ->
  encodable merchant_key = true ->
  values_ok kwargs ->
  exists sig q,
    GeneratePaymentUrlV2.generate_sign (v2_unsigned now pid kwargs)
      merchant_key = Ok sig
    /\ UrlLib.urlencode
         (dict_set (v2_unsigned now pid kwargs) (lit "sign") (VStr sig)) = Ok q
    /\ GeneratePaymentUrlV2.generate_payment_url now base_url pid merchant_key
         kwargs
       = Ok (base_url ++ lit "/submit?" ++ q,
             dict_set (v2_unsigned now pid kwargs) (lit "sign") (VStr sig))
    /\ dict_get (v2_unsigned now pid kwargs) (lit "sign") = None.
Proof.
  intros Hpid Hkey Hkw.
  pose proof (v2_unsigned_ok now pid kwargs Hpid Hkw) as Hok.
  destruct (v2_generate_sign_total _ merchant_key Hok Hkey)
    as [sig [Hsig [_ Hhex]]].
  assert (Hok' : Forall entry_ok
                   (dict_set (v2_unsigned now pid kwargs) (lit "sign")
                      (VStr sig))).
  { apply dict_set_entries_ok; [exact Hok|].
    split; [vm_compute; reflexivity | apply lower_hex_encodable, Hhex]. }
  destruct (urlencode_total _ Hok') as [q Hq].
  exists sig, q. split; [exact Hsig|]. split; [exact Hq|]. split.
  - rewrite v2_generate_payment_url_eq, Hsig. cbn [bind].
    rewrite Hq. reflexivity.
  - rewrite v2_unsigned_get by (vm_compute; reflexivity).
    apply default_params_get.
Qed.

(** C6. On inputs whose texts are valid, each builder returns
    [(url, params)] where [url] is the base URL, then [/submit?], then
    [urlencode] of the whole of [params]; [params] holds the computed
    signature under [sign] next to [sign_type = MD5]; a [type] left out is
    [alipay] and an [out_trade_no] left out is [TEST] followed by the time
    in seconds. *)
Theorem payment_url_is_submit_query
        (now : Z) (base_url : pystr) (pid : pyval) (merchant_key : pystr)
        (kwargs : dict) (amount product_name : option pyval) :
  encodable (py_str pid) = true ->
  encodable merchant_key = true ->
  values_ok kwargs ->
  (forall a, amount = Some a -> encodable (py_str a) = true) ->
  (forall n, product_name = Some n -> encodable (py_str n) = true) ->
  (exists u params sig q,
     GeneratePaymentUrlV2.generate_payment_url now base_url pid merchant_key
       kwargs = Ok (u, params)
     /\ UrlLib.urlencode params = Ok q
     /\ u = base_url ++ lit "/submit?" ++ q
     /\ dict_get params (lit "sign") = Some (VStr sig)
     /\ GeneratePaymentUrlV2.generate_sign (dict_del params (lit "sign"))
          merchant_key = Ok sig
     /\ GeneratePaymentUrlV2.generate_sign params merchant_key = Ok sig
     /\ dict_get params (lit "sign_type") = Some (VStr (lit "MD5"))
     /\ (dict_get kwargs (lit "type") = None ->
         dict_get params (lit "type") = Some (VStr (lit "alipay")))
     /\ (dict_get kwargs (lit "out_trade_no") = None ->
         dict_get params (lit "out_trade_no")
         = Some (VStr (lit "TEST" ++ int_str now))))
  /\ (exists u params sig q,
        GeneratePaymentUrl.generate_payment_url now amount product_name
        = Ok (u, params)
        /\ UrlLib.urlencode params = Ok q
        /\ u = lit "http://localhost:8080" ++ lit "/submit?" ++ q
        /\ dict_get params (lit "sign") = Some (VStr sig)
        /\ GeneratePaymentUrl.generate_sign
             (dict_del (dict_del params (lit "sign_type")) (lit "sign"))
             GeneratePaymentUrl.KEY = Ok sig
        /\ dict_get params (lit "sign_type") = Some (VStr (lit "MD5"))
        /\ dict_get params (lit "type") = Some (VStr (lit "alipay"))
        /\ dict_get params (lit "out_trade_no")
           = Some (VStr (lit "TEST" ++ int_str now))).
Proof.
  intros Hpid Hkey Hkw Ha Hn. split.
  - destruct (v2_builder_returns now base_url pid merchant_key kwargs
                Hpid Hkey Hkw) as [sig [q [Hsig [Hq [Hgen Hnone]]]]].
    destruct (default_params_get now pid kwargs) as [Ht [Ho [Hst Hs]]].
    exists (base_url ++ lit "/submit?" ++ q),
      (dict_set (v2_unsigned now pid kwargs) (lit "sign") (VStr sig)), sig, q.
    split; [exact Hgen|].
    split; [exact Hq|]. split; [reflexivity|].
    split; [apply dict_get_set_same|].
    split; [rewrite dict_del_set_absent by exact Hnone; exact Hsig|].
    split.
    { rewrite v2_reserved_key_ignored by (left; reflexivity).
      rewrite dict_del_absent by exact Hnone. exact Hsig. }
    split.
    { rewrite dict_get_set_other by (vm_compute; reflexivity).
      rewrite v2_unsigned_get by (vm_compute; reflexivity). exact Hst. }
    split.
    + intros Hty. rewrite dict_get_set_other by (vm_compute; reflexivity).
      rewrite v2_unsigned_get by (vm_compute; reflexivity).
      rewrite Ht. unfold dict_get_default. rewrite Hty. reflexivity.
    + intros Hno. rewrite dict_get_set_other by (vm_compute; reflexivity).
      rewrite v2_unsigned_get by (vm_compute; reflexivity).
      rewrite Ho. unfold dict_get_default. rewrite Hno. reflexivity.
  - unfold GeneratePaymentUrl.generate_payment_url.
    set (a := match amount with Some a => a | None => VStr (lit "0.01") end).
    set (n := match product_name with
              | Some n => n
              | None => VStr (lit "测试商品")
              end).
    assert (Ha' : encodable (py_str a) = true).
    { subst a. destruct amount as [a|]; [apply Ha; reflexivity|].
      vm_compute. reflexivity. }
    assert (Hn' : encodable (py_str n) = true).
    { subst n. destruct product_name as [n|]; [apply Hn; reflexivity|].
      vm_compute. reflexivity. }
    pose proof (v1_order_params_ok now a n Ha' Hn') as Hok.
    destruct (v1_order_params_get now a n) as [Ht [Ho [Hs Hst]]].
    set (op := GeneratePaymentUrl.order_params now a n) in *.
    destruct (v1_generate_sign_total op GeneratePaymentUrl.KEY Hok)
      as [sig [Hsig [_ Hhex]]]; [vm_compute; reflexivity|].
    set (signed := dict_set (dict_set op (lit "sign") (VStr sig))
                     (lit "sign_type") (VStr (lit "MD5"))).
    assert (Hok' : Forall entry_ok signed).
    { apply dict_set_entries_ok;
        [apply dict_set_entries_ok; [exact Hok|] |];
        (split; [vm_compute; reflexivity|]);
        [apply lower_hex_encodable, Hhex | vm_compute; reflexivity]. }
    destruct (urlencode_total _ Hok') as [q Hq].
    exists (lit "http://localhost:8080" ++ lit "/submit?" ++ q), signed, sig, q.
    split.
    { rewrite Hsig. cbn [bind]. fold signed. rewrite Hq. cbn [bind].
      rewrite !app_assoc, v1_base_url. reflexivity. }
    split; [exact Hq|]. split; [reflexivity|].
    subst signed. split.
    { rewrite dict_get_set_other by (vm_compute; reflexivity).
      apply dict_get_set_same. }
    split.
    { rewrite dict_del_set_absent.
      - rewrite dict_del_set_absent by exact Hs. exact Hsig.
      - rewrite dict_get_set_other by (vm_compute; reflexivity). exact Hst. }
    split; [apply dict_get_set_same|].
    split; rewrite !dict_get_set_other by (vm_compute; reflexivity);
      assumption.
Qed.

(** Valid text everywhere; the v2 builder returns. *)
Lemma payment_url_is_submit_query_witness :
  encodable (py_str Scenario.pid) = true
  /\ encodable Scenario.K = true
  /\ values_ok [(lit "money", VInt 5)]
  /\ exists u params,
       GeneratePaymentUrlV2.generate_payment_url 1700000000 Scenario.base_url
         Scenario.pid Scenario.K [(lit "money", VInt 5)] = Ok (u, params).
Proof.
  assert (H1 : encodable (py_str Scenario.pid) = true)
    by (vm_compute; reflexivity).
  assert (H2 : encodable Scenario.K = true) by (vm_compute; reflexivity).
  assert (H3 : values_ok [(lit "money", VInt 5)])
    by (constructor; [vm_compute; reflexivity | constructor]).
  split; [exact H1|]. split; [exact H2|]. split; [exact H3|].
  destruct (payment_url_is_submit_query 1700000000 Scenario.base_url
              Scenario.pid Scenario.K [(lit "money", VInt 5)] None None
              H1 H2 H3)
    as [[u [params [sig [q [H _]]]]] _]; [discriminate | discriminate |].
  exists u, params. exact H.
Defined.

(* ================================================================== *)
(** * UTF-8: decoding undoes encoding *)

Lemma decode_1 (b0 : Z) (rest : pybytes) :
  0 <= b0 < 0x80 ->
  decode (b0 :: rest) = option_map (cons b0) (decode rest).
Proof. intros H. cbn [decode]. zbool. reflexivity. Qed.

Lemma decode_2 (b0 b1 c : Z) (rest : pybytes) :
  0xC2 <= b0 < 0xE0 -> 0x80 <= b1 < 0xC0 ->
  (b0 - 0xC0) * 64 + (b1 - 0x80) = c ->
  decode (b0 :: b1 :: rest) = option_map (cons c) (decode rest).
Proof.
  intros H0 H1 <-. cbn [decode]. unfold is_cont. zbool. reflexivity.
Qed.

Lemma decode_3 (b0 b1 b2 c : Z) (rest : pybytes) :
  0xE0 <= b0 < 0xF0 -> 0x80 <= b1 < 0xC0 -> 0x80 <= b2 < 0xC0 ->
  (b0 - 0xE0) * 4096 + (b1 - 0x80) * 64 + (b2 - 0x80) = c ->
  0x800 <= c -> is_surrogate c = false ->
  decode (b0 :: b1 :: b2 :: rest) = option_map (cons c) (decode rest).
Proof.
  intros H0 H1 H2 Hc Hlo Hsur. cbn [decode]. cbv zeta. rewrite Hc, Hsur.
  unfold is_cont. zbool. reflexivity.
Qed.

Lemma decode_4 (b0 b1 b2 b3 c : Z) (rest : pybytes) :
  0xF0 <= b0 < 0xF5 -> 0x80 <= b1 < 0xC0 -> 0x80 <= b2 < 0xC0 ->
  0x80 <= b3 < 0xC0 ->
  (b0 - 0xF0) * 262144 + (b1 - 0x80) * 4096 + (b2 - 0x80) * 64 + (b3 - 0x80)
  = c ->
  0x10000 <= c < 0x110000 ->
  decode (b0 :: b1 :: b2 :: b3 :: rest) = option_map (cons c) (decode rest).
Proof.
  intros H0 H1 H2 H3 Hc Hr. cbn [decode]. cbv zeta. rewrite Hc.
  unfold is_cont. zbool. reflexivity.
Qed.

Lemma decode_encode_cp (c : Z) (bs rest : pybytes) :
  encode_cp c = Some bs ->
  decode (bs ++ rest) = option_map (cons c) (decode rest).
Proof.
  unfold encode_cp.
  destruct (Z.ltb_spec c 0); [discriminate|].
  destruct (Z.ltb_spec c 0x80).
  { some_eq bs. apply decode_1. lia. }
  destruct (Z.ltb_spec c 0x800).
  { some_eq bs. apply decode_2; Z.div_mod_to_equations; lia. }
  destruct (Z.ltb_spec c 0x10000).
  { destruct (is_surrogate c) eqn:Hsur; [discriminate|].
    some_eq bs. apply decode_3; try exact Hsur;
      Z.div_mod_to_equations; lia. }
  destruct (Z.ltb_spec c 0x110000); [|discriminate].
  some_eq bs. apply decode_4; Z.div_mod_to_equations; lia.
Qed.

Lemma decode_encode (s : pystr) (bs : pybytes) :
  encode s = Ok bs -> decode bs = Some s.
Proof.
  revert bs. induction s as [|c s IH]; simpl; intros bs.
  - intros [= <-]. reflexivity.
  - destruct (encode_cp c) as [b|] eqn:Hc; [|discriminate].
    destruct (encode s) as [rest|] eqn:Hs; [|discriminate].
    simpl. intros [= <-].
    rewrite (decode_encode_cp c b rest Hc), (IH rest eq_refl). reflexivity.
Qed.

Lemma encode_cp_octets (c : Z) (bs : pybytes) :
  encode_cp c = Some bs -> Forall is_octet bs.
Proof.
  unfold encode_cp, is_octet.
  destruct (Z.ltb_spec c 0); [discriminate|].
  destruct (Z.ltb_spec c 0x80).
  { some_eq bs. repeat constructor; lia. }
  destruct (Z.ltb_spec c 0x800).
  { some_eq bs. repeat constructor; Z.div_mod_to_equations; lia. }
  destruct (Z.ltb_spec c 0x10000).
  { destruct (is_surrogate c); [discriminate|].
    some_eq bs. repeat constructor; Z.div_mod_to_equations; lia. }
  destruct (Z.ltb_spec c 0x110000); [|discriminate].
  some_eq bs. repeat constructor; Z.div_mod_to_equations; lia.
Qed.

Lemma encode_octets (s : pystr) (bs : pybytes) :
  encode s = Ok bs -> Forall is_octet bs.
Proof.
  revert bs. induction s as [|c s IH]; simpl; intros bs.
  - intros [= <-]. constructor.
  - destruct (encode_cp c) as [b|] eqn:Hc; [|discriminate].
    destruct (encode s) as [rest|] eqn:Hs; [|discriminate].
    simpl. intros [= <-]. apply Forall_app. split.
    + apply (encode_cp_octets c b Hc).
    + apply IH. reflexivity.
Qed.

(** Only a space is encoded with the octet 32. *)
Lemma encode_cp_space (c : Z) (bs : pybytes) :
  encode_cp c = Some bs -> In 32 bs -> c = 32.
Proof.
  unfold encode_cp.
  destruct (Z.ltb_spec c 0); [discriminate|].
  destruct (Z.ltb_spec c 0x80).
  { intros E Hin; revert E; some_eq bs. destruct Hin as [E | []]. congruence. }
  destruct (Z.ltb_spec c 0x800).
  { some_eq bs. cbn [In]. intros [E | [E | []]];
      exfalso; Z.div_mod_to_equations; lia. }
  destruct (Z.ltb_spec c 0x10000).
  { destruct (is_surrogate c); [discriminate|].
    some_eq bs. cbn [In]. intros [E | [E | [E | []]]];
      exfalso; Z.div_mod_to_equations; lia. }
  destruct (Z.ltb_spec c 0x110000); [|discriminate].
  some_eq bs. cbn [In]. intros [E | [E | [E | [E | []]]]];
    exfalso; Z.div_mod_to_equations; lia.
Qed.

Lemma encode_space (s : pystr) (bs : pybytes) :
  encode s = Ok bs -> In 32 bs -> In 32 s.
Proof.
  revert bs. induction s as [|c s IH]; simpl; intros bs.
  - intros [= <-] [].
  - destruct (encode_cp c) as [b|] eqn:Hc; [|discriminate].
    destruct (encode s) as [rest|] eqn:Hs; [|discriminate].
    simpl. intros [= <-] Hin. apply in_app_or in Hin as [Hin | Hin].
    + left. apply (encode_cp_space c b Hc Hin).
    + right. apply (IH rest eq_refl Hin).
Qed.

(* ================================================================== *)
(** * Percent-encoding: the gateway reads back what [quote_plus] wrote *)

Lemma hexdigit_upper_range (d : Z) :
  0 <= d < 16 ->
  (48 <= UrlLib.hexdigit_upper d <= 57 \/ 65 <= UrlLib.hexdigit_upper d <= 70)
  /\ Gateway.hexval (UrlLib.hexdigit_upper d) = Some d.
Proof.
  intros Hd. unfold UrlLib.hexdigit_upper, Gateway.hexval.
  destruct (Z.ltb_spec d 10).
  - split; [lia|]. zbool. f_equal. lia.
  - split; [lia|]. zbool. f_equal. lia.
Qed.

Lemma always_safe_range (b : Z) :
  UrlLib.always_safe b = true ->
  0 <= b < 128 /\ b <> 32 /\ b <> 37 /\ b <> 38 /\ b <> 43 /\ b <> 61
  /\ b <> 63.
Proof. unfold UrlLib.always_safe. zbool; intros; try discriminate; lia. Qed.

Lemma octet_nibbles (b : Z) :
  is_octet b -> 0 <= b / 16 < 16 /\ 0 <= b mod 16 < 16
                /\ 16 * (b / 16) + b mod 16 = b.
Proof. unfold is_octet. intros H. Z.div_mod_to_equations. lia. Qed.

Lemma quote_byte_space (b : Z) :
  is_octet b ->
  map (fun c => if c =? 32 then 43 else c) (UrlLib.quote_byte [32] b)
  = qp_byte b.
Proof.
  intros Hb. unfold qp_byte, UrlLib.quote_byte.
  destruct (octet_nibbles b Hb) as [Hh [Hl _]].
  destruct (hexdigit_upper_range _ Hh) as [Hh' _].
  destruct (hexdigit_upper_range _ Hl) as [Hl' _].
  destruct (Z.eqb_spec b 32) as [-> | Hne]; [reflexivity|].
  cbn [existsb]. rewrite (proj2 (Z.eqb_neq b 32) Hne). cbn [orb].
  rewrite !orb_false_r.
  destruct (UrlLib.always_safe b); cbn [map].
  - rewrite (proj2 (Z.eqb_neq b 32) Hne). reflexivity.
  - replace (UrlLib.hexdigit_upper (b / 16) =? 32) with false
      by (symmetry; apply Z.eqb_neq; lia).
    replace (UrlLib.hexdigit_upper (b mod 16) =? 32) with false
      by (symmetry; apply Z.eqb_neq; lia).
    reflexivity.
Qed.

Lemma quote_plus_spec (s q : pystr) :
  UrlLib.quote_plus s = Ok q ->
  exists bs, encode s = Ok bs /\ q = concat (map qp_byte bs).
Proof.
  unfold UrlLib.quote_plus, UrlLib.quote.
  destruct (encode s) as [bs|e] eqn:Hs;
    [|destruct (existsb (Z.eqb 32) s); discriminate].
  pose proof (encode_octets s bs Hs) as Hoct.
  destruct (existsb (Z.eqb 32) s) eqn:Hsp; cbn [bind]; intros [= <-];
    exists bs; (split; [reflexivity|]).
  - clear Hs. induction Hoct as [|b bs Hb Hbs IH]; [reflexivity|].
    cbn [map concat]. rewrite map_app, IH, (quote_byte_space b Hb).
    reflexivity.
  - assert (Hno : ~ In 32 bs).
    { intros Hin. apply (encode_space s bs Hs) in Hin.
      assert (existsb (Z.eqb 32) s = true); [|congruence].
      apply existsb_exists. exists 32. split; [exact Hin | reflexivity]. }
    clear Hs Hoct. induction bs as [|b bs IH]; [reflexivity|].
    cbn [map concat]. rewrite IH by (intros H; apply Hno; right; exact H).
    unfold qp_byte. destruct (Z.eqb_spec b 32) as [-> | _]; [|reflexivity].
    exfalso. apply Hno. left. reflexivity.
Qed.

Lemma unquote_plain (c : Z) (rest : pystr) :
  0 <= c < 128 -> c <> 37 -> c <> 43 ->
  Gateway.unquote_to_bytes (c :: rest)
  = option_map (cons c) (Gateway.unquote_to_bytes rest).
Proof. intros H H37 H43. cbn [Gateway.unquote_to_bytes]. zbool. reflexivity. Qed.

Lemma unquote_percent (h1 h2 a b : Z) (rest : pystr) :
  Gateway.hexval h1 = Some a -> Gateway.hexval h2 = Some b ->
  Gateway.unquote_to_bytes (37 :: h1 :: h2 :: rest)
  = option_map (cons (16 * a + b)) (Gateway.unquote_to_bytes rest).
Proof.
  intros H1 H2.
  change (Gateway.unquote_to_bytes (37 :: h1 :: h2 :: rest))
    with (match Gateway.hexval h1, Gateway.hexval h2 with
          | Some a, Some b =>
              option_map (cons (16 * a + b)) (Gateway.unquote_to_bytes rest)
          | _, _ => None
          end).
  rewrite H1, H2. reflexivity.
Qed.

Lemma unquote_qp_byte (b : Z) (rest : pystr) :
  is_octet b ->
  Gateway.unquote_to_bytes (qp_byte b ++ rest)
  = option_map (cons b) (Gateway.unquote_to_bytes rest).
Proof.
  intros Hb. unfold qp_byte, UrlLib.quote_byte.
  destruct (Z.eqb_spec b 32) as [-> | Hne]; [reflexivity|].
  cbn [existsb orb]. rewrite orb_false_r.
  destruct (UrlLib.always_safe b) eqn:Hsafe.
  - apply always_safe_range in Hsafe. apply unquote_plain; lia.
  - destruct (octet_nibbles b Hb) as [Hh [Hl Hsum]].
    change ([37; UrlLib.hexdigit_upper (b / 16);
             UrlLib.hexdigit_upper (b mod 16)] ++ rest)
      with (37 :: UrlLib.hexdigit_upper (b / 16)
               :: UrlLib.hexdigit_upper (b mod 16) :: rest).
    rewrite (unquote_percent _ _ (b / 16) (b mod 16));
      [rewrite Hsum; reflexivity | |];
      apply hexdigit_upper_range; assumption.
Qed.

Lemma unquote_qp_bytes (bs : pybytes) :
  Forall is_octet bs ->
  Gateway.unquote_to_bytes (concat (map qp_byte bs)) = Some bs.
Proof.
  induction 1 as [|b bs Hb Hbs IH]; [reflexivity|].
  cbn [map concat]. rewrite (unquote_qp_byte b _ Hb), IH. reflexivity.
Qed.

Lemma unquote_quote_plus (s q : pystr) :
  UrlLib.quote_plus s = Ok q -> Gateway.unquote_plus q = Some s.
Proof.
  intros Hq. destruct (quote_plus_spec s q Hq) as [bs [Hs ->]].
  unfold Gateway.unquote_plus.
  rewrite (unquote_qp_bytes bs (encode_octets s bs Hs)).
  apply decode_encode, Hs.
Qed.

Lemma qp_byte_chars (b : Z) : is_octet b -> Forall url_char (qp_byte b).
Proof.
  intros Hb. unfold qp_byte, UrlLib.quote_byte, url_char.
  destruct (Z.eqb_spec b 32); [repeat constructor; lia|].
  cbn [existsb orb]. rewrite orb_false_r.
  destruct (UrlLib.always_safe b) eqn:Hsafe.
  - apply always_safe_range in Hsafe. repeat constructor; lia.
  - destruct (octet_nibbles b Hb) as [Hh [Hl _]].
    destruct (hexdigit_upper_range _ Hh) as [Hh' _].
    destruct (hexdigit_upper_range _ Hl) as [Hl' _].
    repeat constructor; lia.
Qed.

Lemma quote_plus_chars (s q : pystr) :
  UrlLib.quote_plus s = Ok q -> Forall url_char q.
Proof.
  intros Hq. destruct (quote_plus_spec s q Hq) as [bs [Hs ->]].
  pose proof (encode_octets s bs Hs) as Hoct. clear Hs Hq.
  induction Hoct as [|b bs Hb Hbs IH]; [constructor|].
  cbn [map concat]. apply Forall_app. split; [apply qp_byte_chars, Hb | exact IH].
Qed.

(* ================================================================== *)
(** * The query string parses back into the params *)

Lemma cut_app (sep : Z) (a b : pystr) :
  ~ In sep a -> Gateway.cut sep (a ++ sep :: b) = (a, b).
Proof.
  induction a as [|c a IH]; intros Hno.
  - cbn [app Gateway.cut]. rewrite Z.eqb_refl. reflexivity.
  - cbn [app Gateway.cut].
    destruct (Z.eqb_spec c sep) as [-> | _];
      [exfalso; apply Hno; left; reflexivity|].
    rewrite IH by (intros H; apply Hno; right; exact H). reflexivity.
Qed.

Lemma split_single (sep : Z) (a : pystr) :
  ~ In sep a -> Gateway.split sep a = [a].
Proof.
  induction a as [|c a IH]; intros Hno; [reflexivity|].
  cbn [Gateway.split].
  destruct (Z.eqb_spec c sep) as [-> | _];
    [exfalso; apply Hno; left; reflexivity|].
  rewrite IH by (intros H; apply Hno; right; exact H). reflexivity.
Qed.

Lemma split_app (sep : Z) (a rest : pystr) :
  ~ In sep a ->
  Gateway.split sep (a ++ sep :: rest) = a :: Gateway.split sep rest.
Proof.
  induction a as [|c a IH]; intros Hno.
  - cbn [app Gateway.split]. rewrite Z.eqb_refl. reflexivity.
  - cbn [app Gateway.split].
    destruct (Z.eqb_spec c sep) as [-> | _];
      [exfalso; apply Hno; left; reflexivity|].
    rewrite IH by (intros H; apply Hno; right; exact H). reflexivity.
Qed.

Lemma split_join (sep : Z) (f : pystr) (fields : list pystr) :
  Forall (fun x => ~ In sep x) (f :: fields) ->
  Gateway.split sep (join [sep] (f :: fields)) = f :: fields.
Proof.
  revert f. induction fields as [|g fields IH]; intros f Hno.
  - apply split_single. inversion Hno; assumption.
  - change (join [sep] (f :: g :: fields))
      with (f ++ sep :: join [sep] (g :: fields)).
    inversion Hno as [|? ? Hf Hrest]; subst.
    rewrite split_app by exact Hf. rewrite IH by exact Hrest. reflexivity.
Qed.

Lemma mapM_Forall2 {A B} (f : A -> result B) (l : list A) (ys : list B) :
  mapM f l = Ok ys -> Forall2 (fun x y => f x = Ok y) l ys.
Proof.
  revert ys. induction l as [|x l IH]; simpl; intros ys.
  - intros [= <-]. constructor.
  - destruct (f x) as [y|] eqn:Hx; [|discriminate]. simpl.
    destruct (mapM f l) as [ys'|] eqn:Hl; [|discriminate]. simpl.
    intros [= <-]. constructor; [exact Hx | apply IH; reflexivity].
Qed.

Lemma urlencode_fields (d : dict) (q : pystr) :
  UrlLib.urlencode d = Ok q ->
  exists fields, q = join [38] fields /\ Forall2 field_of d fields.
Proof.
  unfold UrlLib.urlencode.
  destruct (mapM _ d) as [fields|] eqn:Hm; [|discriminate].
  simpl. intros [= <-]. exists fields. split; [reflexivity|].
  apply mapM_Forall2 in Hm. revert Hm. apply Forall2_impl.
  intros kv f Hf. unfold field_of.
  destruct (UrlLib.quote_plus (fst kv)) as [k|]; [|discriminate].
  destruct (UrlLib.quote_plus (py_str (snd kv))) as [v|]; [|discriminate].
  simpl in Hf. injection Hf as <-. exists k, v. auto.
Qed.

Lemma url_char_not_in (c : Z) (q : pystr) :
  c = 38 \/ c = 61 \/ c = 63 -> Forall url_char q -> ~ In c q.
Proof.
  intros Hc Hq Hin. rewrite Forall_forall in Hq.
  destruct (Hq c Hin) as [H1 [H2 H3]]. lia.
Qed.

Lemma field_no_amp (kv : pystr * pyval) (f : pystr) :
  field_of kv f -> ~ In 38 f.
Proof.
  intros [k [v [Hk [Hv ->]]]] Hin.
  apply in_app_or in Hin as [Hin | [Hin | Hin]]; [|discriminate|].
  - revert Hin. apply url_char_not_in; [auto | apply (quote_plus_chars _ _ Hk)].
  - revert Hin. apply url_char_not_in; [auto | apply (quote_plus_chars _ _ Hv)].
Qed.

Lemma parse_field_of (kv : pystr * pyval) (f : pystr) :
  field_of kv f ->
  Gateway.parse_field f = Some (fst kv, py_str (snd kv)).
Proof.
  intros [k [v [Hk [Hv ->]]]]. unfold Gateway.parse_field.
  rewrite cut_app
    by (apply url_char_not_in; [auto | apply (quote_plus_chars _ _ Hk)]).
  rewrite (unquote_quote_plus _ _ Hk), (unquote_quote_plus _ _ Hv).
  reflexivity.
Qed.

Lemma parse_fields_of (d : dict) (fields : list pystr) :
  Forall2 field_of d fields -> Gateway.parse_fields fields = Some (view d).
Proof.
  induction 1 as [|kv f d fields Hf Hrest IH]; [reflexivity|].
  pose proof (parse_field_of kv f Hf) as Hp.
  destruct Hf as [k [v [_ [_ ->]]]].
  destruct k as [|c k]; cbn [app Gateway.parse_fields];
    cbn [app] in Hp; rewrite Hp, IH; reflexivity.
Qed.

Lemma parse_urlencode (d : dict) (q : pystr) :
  UrlLib.urlencode d = Ok q ->
  Gateway.parse_fields (Gateway.split 38 q) = Some (view d).
Proof.
  intros Hq. destruct (urlencode_fields d q Hq) as [fields [-> Hf]].
  rewrite <- (parse_fields_of d fields Hf).
  destruct fields as [|f fields]; [reflexivity|].
  rewrite split_join; [reflexivity|].
  clear Hq. revert Hf. generalize (f :: fields). clear f fields.
  intros fields Hf. induction Hf as [|kv f d fields Hkv Hrest IH];
    constructor; [apply (field_no_amp kv f Hkv) | exact IH].
Qed.

Lemma submit_path : lit "/submit?" = lit "/submit" ++ [63].
Proof. vm_compute. reflexivity. Qed.

Lemma query_of_submit (base q : pystr) :
  existsb (Z.eqb 63) base = false ->
  Gateway.query_of (base ++ lit "/submit?" ++ q) = q.
Proof.
  intros Hb. unfold Gateway.query_of.
  rewrite submit_path, <- app_assoc, app_assoc. cbn [app].
  rewrite cut_app; [reflexivity|].
  intros Hin. apply in_app_or in Hin as [Hin | Hin].
  - assert (existsb (Z.eqb 63) base = true); [|congruence].
    apply existsb_exists. exists 63. split; [exact Hin | reflexivity].
  - vm_compute in Hin. repeat destruct Hin as [Hin | Hin]; try discriminate.
    exact Hin.
Qed.

(* ================================================================== *)
(** * The signature is a function of the keys and the texts *)

Lemma lookup_view (d : dict) (k : pystr) :
  Gateway.lookup (view d) k = option_map py_str (dict_get d k).
Proof.
  induction d as [|[k' v'] d IH]; [reflexivity|].
  cbn [view map Gateway.lookup dict_get fst snd].
  destruct (str_eqb k k'); [reflexivity | exact IH].
Qed.

Lemma mapM_ext {A B} (f g : A -> result B) (l : list A) :
  (forall x, f x = g x) -> mapM f l = mapM g l.
Proof.
  intros H. induction l as [|x l IH]; [reflexivity|].
  cbn [mapM]. rewrite H, IH. reflexivity.
Qed.

Lemma view_keys (d : dict) : map fst (view d) = map fst d.
Proof. unfold view. rewrite map_map. reflexivity. Qed.

Lemma v2_sign_str_view (p : dict) :
  GeneratePaymentUrlV2.sign_str p
  = sign_str_of_view (view (GeneratePaymentUrlV2.filtered p)).
Proof.
  unfold GeneratePaymentUrlV2.sign_str, sign_str_of_view.
  rewrite view_keys. f_equal. apply mapM_ext. intros k.
  rewrite lookup_view. unfold dict_item.
  destruct (dict_get (GeneratePaymentUrlV2.filtered p) k); reflexivity.
Qed.

Lemma app_not_nil_r {A} (a b : list A) : b <> [] -> a ++ b <> [].
Proof. destruct a; [auto | discriminate]. Qed.

Lemma layout_not_nil (ds : pystr) (decpt : Z) :
  FloatRepr.layout ds decpt <> [].
Proof.
  unfold FloatRepr.layout.
  destruct ((-4 <? decpt) && (decpt <=? 16)).
  - destruct (decpt <=? 0); [discriminate|].
    destruct (Z.of_nat (length ds) <=? decpt);
      apply app_not_nil_r; [apply app_not_nil_r|]; discriminate.
  - apply app_not_nil_r, app_not_nil_r. discriminate.
Qed.

Lemma float_repr_not_nil (f : pyfloat) : FloatRepr.float_repr f <> [].
Proof.
  destruct f as [neg m e | neg |]; cbn [FloatRepr.float_repr];
    try discriminate; try (destruct neg; discriminate).
  apply app_not_nil_r. destruct (m =? 0); [discriminate|].
  destruct (FloatRepr.shortest m e) as [d p]. apply layout_not_nil.
Qed.

(** The truth value of a text-like value is that of its text. *)
Lemma text_like_truthy (v : pyval) :
  text_like v = true ->
  truthy v = match py_str v with [] => false | _ => true end.
Proof.
  destruct v as [|b|n|f|s]; cbn [text_like]; intros Hv;
    try discriminate; try reflexivity; rewrite Hv.
  - destruct b; [reflexivity | discriminate].
  - cbn [py_str]. pose proof (int_str_plain n) as Hp.
    destruct (int_str n); [discriminate | reflexivity].
  - cbn [py_str]. pose proof (float_repr_not_nil f) as Hp.
    destruct (FloatRepr.float_repr f); [congruence | reflexivity].
Qed.

Lemma strip_view (p : dict) :
  values_text p = true ->
  Gateway.strip (view p) = view (GeneratePaymentUrlV2.filtered p).
Proof.
  unfold values_text. induction p as [|[k v] p IH]; [reflexivity|].
  cbn [forallb snd]. intros H. apply andb_true_iff in H as [Hv Hp].
  unfold Gateway.strip, GeneratePaymentUrlV2.filtered in *.
  cbn [view map filter fst snd].
  rewrite (text_like_truthy v Hv), andb_comm.
  destruct (match py_str v with [] => false | _ => true end
            && negb (GeneratePaymentUrlV2.reserved k));
    cbn [view map]; fold (view p); rewrite IH by exact Hp; reflexivity.
Qed.

Lemma filtered_as_dict_strip (w : list (pystr * pystr)) :
  GeneratePaymentUrlV2.filtered (Gateway.as_dict (Gateway.strip w))
  = Gateway.as_dict (Gateway.strip w).
Proof.
  unfold Gateway.strip, Gateway.as_dict, GeneratePaymentUrlV2.filtered.
  induction w as [|[k t] w IH]; [reflexivity|].
  cbn [filter fst snd].
  destruct (negb (GeneratePaymentUrlV2.reserved k)) eqn:Hk; [|exact IH].
  destruct t as [|c t]; [exact IH|].
  cbn [andb map filter fst snd truthy]. rewrite Hk, IH. reflexivity.
Qed.

Lemma view_as_dict (w : list (pystr * pystr)) : view (Gateway.as_dict w) = w.
Proof.
  unfold view, Gateway.as_dict.
  induction w as [|[k t] w IH]; [reflexivity|].
  cbn [map fst snd py_str]. rewrite IH. reflexivity.
Qed.

(** What the gateway recomputes from the texts of a dict is the signature
    of the dict. *)
Lemma recompute_view (p : dict) (key : pystr) :
  values_text p = true ->
  Gateway.recompute (view p) key = GeneratePaymentUrlV2.generate_sign p key.
Proof.
  intros Hp. unfold Gateway.recompute, GeneratePaymentUrlV2.generate_sign.
  rewrite (v2_sign_str_view (Gateway.as_dict _)), filtered_as_dict_strip,
    view_as_dict, (strip_view p Hp), <- v2_sign_str_view.
  reflexivity.
Qed.

Lemma dict_set_values_text (d : dict) (k : pystr) (v : pyval) :
  values_text d = true -> text_like v = true ->
  values_text (dict_set d k v) = true.
Proof.
  unfold values_text. intros Hd Hv.
  induction d as [|[k' v'] d IH]; cbn [dict_set forallb snd].
  - rewrite Hv. reflexivity.
  - cbn [forallb snd] in Hd. apply andb_true_iff in Hd as [Hv' Hd].
    destruct (str_eqb k k'); cbn [forallb snd].
    + rewrite Hv, Hd. reflexivity.
    + rewrite Hv', (IH Hd). reflexivity.
Qed.

Lemma dict_get_text (d : dict) (k : pystr) (v : pyval) :
  values_text d = true -> dict_get d k = Some v -> text_like v = true.
Proof.
  unfold values_text. intros Hd Hv. apply dict_get_in in Hv.
  rewrite forallb_forall in Hd. apply (Hd _ Hv).
Qed.

Lemma dict_get_default_text (d : dict) (k : pystr) (s : pystr) :
  values_text d = true -> text_like (dict_get_default d k (VStr s)) = true.
Proof.
  intros Hd. unfold dict_get_default.
  destruct (dict_get d k) as [v|] eqn:E; [|reflexivity].
  apply (dict_get_text d k v Hd E).
Qed.

Lemma v2_unsigned_text (now : Z) (pid : pyval) (kwargs : dict) :
  text_like pid = true -> values_text kwargs = true ->
  values_text (v2_unsigned now pid kwargs) = true.
Proof.
  intros Hpid Hkw.
  assert (Hd : values_text (GeneratePaymentUrlV2.default_params now pid kwargs)
               = true).
  { unfold GeneratePaymentUrlV2.default_params, values_text.
    cbn [forallb snd]. rewrite Hpid, !dict_get_default_text by exact Hkw.
    reflexivity. }
  unfold v2_unsigned.
  destruct (dict_get kwargs (lit "sitename")) as [v|] eqn:E; [|exact Hd].
  destruct (truthy v); [|exact Hd].
  apply dict_set_values_text; [exact Hd | apply (dict_get_text _ _ _ Hkw E)].
Qed.

(** C5. Round trip. On well-formed inputs (valid text, every value a text
    or truthy, no [?] in the base URL) the v2 builder returns a URL whose
    query string parses back into key/value pairs; these carry a [sign],
    and the signature recomputed from the pairs (reserved keys and empty
    values stripped) with the same secret is that [sign]. *)
Theorem signed_url_round_trip
        (now : Z) (base_url : pystr) (pid : pyval) (merchant_key : pystr)
        (kwargs : dict) :
  encodable (py_str pid) = true ->
  encodable merchant_key = true ->
  values_ok kwargs ->
  text_like pid = true ->
  values_text kwargs = true ->
  existsb (Z.eqb 63) base_url = false ->
  exists u params pairs sig,
    GeneratePaymentUrlV2.generate_payment_url now base_url pid merchant_key
      kwargs = Ok (u, params)
    /\ Gateway.parse_query u = Some pairs
    /\ pairs = view params
    /\ Gateway.lookup pairs (lit "sign") = Some sig
    /\ Gateway.recompute pairs merchant_key = Ok sig.
Proof.
  intros Hpid Hkey Hkw Tpid Tkw Hbase.
  destruct (v2_builder_returns now base_url pid merchant_key kwargs
              Hpid Hkey Hkw) as [sig [q [Hsig [Hq [Hgen Hnone]]]]].
  set (params := dict_set (v2_unsigned now pid kwargs) (lit "sign") (VStr sig))
    in *.
  exists (base_url ++ lit "/submit?" ++ q), params, (view params), sig.
  split; [exact Hgen|].
  split.
  { unfold Gateway.parse_query. rewrite (query_of_submit _ _ Hbase).
    apply parse_urlencode, Hq. }
  split; [reflexivity|].
  split.
  { rewrite lookup_view. subst params. rewrite dict_get_set_same.
    reflexivity. }
  rewrite recompute_view.
  - subst params. rewrite v2_reserved_key_ignored by (left; reflexivity).
    rewrite dict_del_absent by exact Hnone. exact Hsig.
  - subst params. apply dict_set_values_text; [|reflexivity].
    apply v2_unsigned_text; assumption.
Qed.

(** A product name with a space, [&], [=], [+] and a non-ASCII letter. *)
Lemma signed_url_round_trip_witness :
  existsb (Z.eqb 63) Scenario.base_url = false
  /\ exists u params pairs sig,
       GeneratePaymentUrlV2.generate_payment_url 1700000000 Scenario.base_url
         Scenario.pid Scenario.K [(lit "name", VStr (lit "a b&c=d+é"))]
       = Ok (u, params)
       /\ Gateway.parse_query u = Some pairs
       /\ pairs = view params
       /\ Gateway.lookup pairs (lit "sign") = Some sig
       /\ Gateway.recompute pairs Scenario.K = Ok sig.
Proof.
  assert (H1 : encodable (py_str Scenario.pid) = true)
    by (vm_compute; reflexivity).
  assert (H2 : encodable Scenario.K = true) by (vm_compute; reflexivity).
  assert (H3 : values_ok [(lit "name", VStr (lit "a b&c=d+é"))])
    by (constructor; [vm_compute; reflexivity | constructor]).
  assert (H4 : text_like Scenario.pid = true) by reflexivity.
  assert (H5 : values_text [(lit "name", VStr (lit "a b&c=d+é"))] = true)
    by reflexivity.
  assert (H6 : existsb (Z.eqb 63) Scenario.base_url = false)
    by (vm_compute; reflexivity).
  split; [exact H6|].
  exact (signed_url_round_trip 1700000000 Scenario.base_url Scenario.pid
           Scenario.K [(lit "name", VStr (lit "a b&c=d+é"))]
           H1 H2 H3 H4 H5 H6).
Defined.

(** Outside these inputs the round trip can fail: the merchant id [0], an
    [int], is falsy and left out of the signature, but the URL carries
    [pid=0], which the recomputation signs. *)
Remark falsy_pid_breaks_round_trip :
  text_like (VInt 0) = false
  /\ GeneratePaymentUrlV2.generate_payment_url 1700000000 Scenario.base_url
       (VInt 0) Scenario.K []
     = Ok (Scenario.url_pid_0,
           dict_set (v2_unsigned 1700000000 (VInt 0) [])
             (lit "sign") (VStr (lit "d080d4bd05883e6a7a7326395170947c")))
  /\ (exists pairs,
        Gateway.parse_query Scenario.url_pid_0 = Some pairs
        /\ Gateway.lookup pairs (lit "sign")
           = Some (lit "d080d4bd05883e6a7a7326395170947c")
        /\ Gateway.recompute pairs Scenario.K
           = Ok (lit "ec8347d0082ec2b7644384bc37a20415")).
Proof.
  split; [reflexivity|]. split; [vm_compute; reflexivity|].
  exists (match Gateway.parse_query Scenario.url_pid_0 with
          | Some pairs => pairs
          | None => []
          end).
  repeat split; vm_compute; reflexivity.
Qed.

(* ================================================================== *)
(** * The deep-link harness against any server *)

Section HarnessAnyServer.
Import TestAlipayDeeplink.
Variable server : list request -> request -> result response.
Variable exc_str : pyexc -> pystr.



Lemma on_other_exception (e : pyexc) (tr : list event) :
  e <> ConnectionError ->
  on_exception exc_str e tr
  = (Ok tt, tr ++ [Out (10 :: lit "❌ 错误: " ++ exc_str e); Out []]).
Proof.
  intros He. destruct e; try congruence;
    unfold on_exception, io_seq, io_bind, print;
    rewrite <- app_assoc; reflexivity.
Qed.


(** X2. When the request of scenario n + 1 raises an exception that is
    not a connection error, after the earlier ones were answered, [main]
    ends normally, sends nothing more, and the last two lines it prints are
    the error line with the text of the exception, and an empty line. *)
Theorem other_exception_is_reported (n : nat) (r : request) (e : pyexc) :
  nth_error Expected.requests n = Some r ->
  (forall i r', (i < n)%nat -> nth_error Expected.requests i = Some r' ->
     exists resp, server (firstn i Expected.requests) r' = Ok resp) ->
  server (firstn n Expected.requests) r = Raise e ->
  e <> ConnectionError ->
  fst (run server exc_str) = Ok tt
  /\ requests_of (snd (run server exc_str)) = firstn (S n) Expected.requests
  /\ exists tr,
       snd (run server exc_str)
       = tr ++ [Get r; Out (10 :: lit "❌ 错误: " ++ exc_str e); Out []].
Proof.
  intros Hn Hans Hfail He.
  destruct (run_header server exc_str) as [hdr [Hhdr ->]].
  destruct (then_all_refused server (tests server) Expected.requests footer
              (tests_one_request server) n hdr r e Hn)
    as [tr' [Hrun Hreq]].
  { rewrite Hhdr. exact Hans. }
  { rewrite Hhdr. exact Hfail. }
  unfold try_except.
  rewrite (run_all_tests_then_all server), Hrun, on_other_exception by exact He.
  split; [reflexivity|]. split.
  - cbn [snd]. rewrite (firstn_succ_nth_error _ _ _ Hn).
    rewrite !requests_of_app, Hreq, Hhdr.
    change (requests_of [Get r]) with [r].
    rewrite app_nil_r. reflexivity.
  - exists tr'. cbn [snd]. rewrite <- app_assoc. reflexivity.
Qed.

End HarnessAnyServer.

(** A server that times out on the fifth request: the error line carries
    the text of the exception. *)
Lemma other_exception_is_reported_witness :
  Servers.four_then_timeout (firstn 4 Expected.requests)
    (Expected.link (lit "qr_code_id=fkx12345678901234&amount=invalid"))
  = Raise OtherException
  /\ OtherException <> ConnectionError
  /\ TestAlipayDeeplink.requests_of
       (snd (TestAlipayDeeplink.run Servers.four_then_timeout Servers.exc_text))
     = firstn 5 Expected.requests.
Proof.
  split; [reflexivity|].
  assert (He : OtherException <> ConnectionError) by discriminate.
  split; [exact He|].
  refine (proj1 (proj2 (other_exception_is_reported Servers.four_then_timeout
                          Servers.exc_text 4
                          (Expected.link
                             (lit "qr_code_id=fkx12345678901234&amount=invalid"))
                          OtherException eq_refl _ eq_refl He))).
  intros [|[|[|[|i]]]] r' Hi _;
    [eexists; reflexivity | eexists; reflexivity | eexists; reflexivity
    | eexists; reflexivity | lia].
Defined.

(* ================================================================== *)
(** * The order of keys, and what [sorted] returns *)

Lemma str_ltb_irrefl (a : pystr) : str_ltb a a = false.
Proof.
  induction a as [|x a IH]; simpl; [reflexivity|].
  rewrite Z.ltb_irrefl, Z.eqb_refl, IH. reflexivity.
Qed.

Lemma str_ltb_trans (a b c : pystr) :
  str_ltb a b = true -> str_ltb b c = true -> str_ltb a c = true.
Proof.
  revert b c; induction a as [|x a IH]; intros [|y b] [|z c]; simpl;
    try discriminate; try reflexivity.
  rewrite !orb_true_iff, !andb_true_iff, !Z.ltb_lt, !Z.eqb_eq.
  intros [H1|[H1 H1']] [H2|[H2 H2']];
    [left; lia | left; lia | left; lia |].
  right. split; [lia | exact (IH b c H1' H2')].
Qed.

Lemma str_ltb_asym (a b : pystr) : str_ltb a b = true -> str_ltb b a = false.
Proof.
  intros H. destruct (str_ltb b a) eqn:E; [|reflexivity].
  pose proof (str_ltb_trans _ _ _ H E) as F.
  rewrite str_ltb_irrefl in F. discriminate.
Qed.

Lemma str_ltb_connex (a b : pystr) :
  str_ltb a b = false -> str_ltb b a = false -> a = b.
Proof.
  revert b; induction a as [|x a IH]; intros [|y b]; simpl;
    try discriminate; try reflexivity.
  rewrite !orb_false_iff, !andb_false_iff, !Z.ltb_ge, !Z.eqb_neq.
  intros [H1 H1'] [H2 H2'].
  assert (x = y) by lia. subst y. f_equal.
  apply IH; [destruct H1' | destruct H2']; congruence.
Qed.

Lemma str_le_trans (x y z : pystr) :
  str_ltb y x = false -> str_ltb z y = false -> str_ltb z x = false.
Proof.
  intros H1 H2. destruct (str_ltb z x) eqn:E; [|reflexivity].
  destruct (str_ltb y z) eqn:F.
  - rewrite (str_ltb_trans _ _ _ F E) in H1. discriminate.
  - rewrite (str_ltb_connex _ _ F H2), E in H1. discriminate.
Qed.

Section SortedPermutation.
Context {A : Type} (ltb : A -> A -> bool).

Lemma insert_Permutation (x : A) (l : list A) :
  Permutation (insert ltb x l) (x :: l).
Proof.
  induction l as [|h t IH]; simpl; [apply Permutation_refl|].
  destruct (ltb h x); [|apply Permutation_refl].
  apply perm_trans with (h :: x :: t); [apply perm_skip, IH | apply perm_swap].
Qed.

Lemma sorted_Permutation (l : list A) : Permutation (sorted ltb l) l.
Proof.
  induction l as [|x l IH]; simpl; [apply perm_nil|].
  apply perm_trans with (x :: sorted ltb l);
    [apply insert_Permutation | apply perm_skip, IH].
Qed.
End SortedPermutation.

Section SortedByKey.
Context {A : Type} (key : A -> pystr).
Local Notation "'ltk'" := (fun a b : A => str_ltb (key a) (key b)).
Local Notation "'lek'" := (fun a b : A => str_ltb (key b) (key a) = false).

Lemma insert_ascending (x : A) (l : list A) :
  StronglySorted lek l -> StronglySorted lek (insert ltk x l).
Proof.
  induction 1 as [|h t Ht IH Hh]; simpl.
  - apply SSorted_cons; [apply SSorted_nil | apply Forall_nil].
  - destruct (str_ltb (key h) (key x)) eqn:E.
    + apply SSorted_cons; [exact IH|].
      apply Forall_forall. intros y Hy. apply in_insert in Hy.
      destruct Hy as [-> | Hy]; [apply str_ltb_asym, E|].
      exact (proj1 (Forall_forall _ _) Hh y Hy).
    + apply SSorted_cons; [apply SSorted_cons; assumption|].
      apply Forall_cons; [exact E|].
      apply Forall_forall. intros y Hy.
      apply str_le_trans with (key h);
        [exact E | exact (proj1 (Forall_forall _ _) Hh y Hy)].
Qed.

Lemma sorted_ascending (l : list A) : StronglySorted lek (sorted ltk l).
Proof.
  induction l as [|x l IH]; simpl;
    [apply SSorted_nil | apply insert_ascending, IH].
Qed.

(** Two ascending lists with the same entries, of distinct keys, are the
    same list. *)
Lemma ascending_unique (l1 l2 : list A) :
  StronglySorted lek l1 -> StronglySorted lek l2 ->
  Permutation l1 l2 -> NoDup (map key l1) -> l1 = l2.
Proof.
  revert l2; induction l1 as [|a l1 IH]; intros l2 H1 H2 Hp Hnd.
  - apply Permutation_nil in Hp. congruence.
  - destruct l2 as [|b l2];
      [apply Permutation_sym, Permutation_nil in Hp; discriminate|].
    apply StronglySorted_inv in H1. destruct H1 as [H1 Ha].
    apply StronglySorted_inv in H2. destruct H2 as [H2 Hb].
    simpl in Hnd. apply NoDup_cons_iff in Hnd. destruct Hnd as [Hnot Hnd].
    assert (E : a = b).
    { assert (Hina : In a (b :: l2))
        by (apply (Permutation_in _ Hp); left; reflexivity).
      assert (Hinb : In b (a :: l1))
        by (apply (Permutation_in _ (Permutation_sym Hp)); left; reflexivity).
      destruct Hina as [E | Hina]; [congruence|].
      destruct Hinb as [E | Hinb]; [congruence|].
      exfalso. apply Hnot.
      pose proof (proj1 (Forall_forall _ _) Hb a Hina) as Lba.
      pose proof (proj1 (Forall_forall _ _) Ha b Hinb) as Lab.
      cbv beta in Lba, Lab.
      rewrite (str_ltb_connex _ _ Lba Lab).
      apply in_map, Hinb. }
    subst b. f_equal.
    apply IH; try assumption. exact (Permutation_cons_inv Hp).
Qed.

(** [sorted] does not depend on the order of its input, when the keys are
    distinct. *)
Lemma sorted_order_independent (l1 l2 : list A) :
  NoDup (map key l1) -> Permutation l1 l2 ->
  sorted ltk l1 = sorted ltk l2.
Proof.
  intros Hnd Hp.
  apply ascending_unique; try apply sorted_ascending.
  - apply perm_trans with l1; [apply sorted_Permutation|].
    apply perm_trans with l2;
      [exact Hp | apply Permutation_sym, sorted_Permutation].
  - apply (Permutation_NoDup (l := map key l1)); [|exact Hnd].
    apply Permutation_map, Permutation_sym, sorted_Permutation.
Qed.
End SortedByKey.

Lemma distinct_keys_NoDup (d : dict) :
  distinct_keys d = true -> NoDup (map fst d).
Proof.
  induction d as [|[k v] d IH]; simpl; [intros _; apply NoDup_nil|].
  rewrite andb_true_iff, negb_true_iff. intros [Hk Hd].
  apply NoDup_cons; [|apply IH, Hd].
  intros Hin.
  assert (existsb (str_eqb k) (map fst d) = true)
    by (apply existsb_exists; exists k; split;
        [exact Hin | apply str_eqb_refl]).
  congruence.
Qed.

Lemma filter_keys_NoDup (f : pystr * pyval -> bool) (d : dict) :
  NoDup (map fst d) -> NoDup (map fst (filter f d)).
Proof.
  induction d as [|kv d IH]; simpl; [auto|].
  intros Hnd. apply NoDup_cons_iff in Hnd. destruct Hnd as [Hnot Hnd].
  destruct (f kv); [|apply IH, Hnd].
  simpl. apply NoDup_cons; [|apply IH, Hnd].
  intros Hin. apply Hnot.
  apply in_map_iff in Hin. destruct Hin as [x [Hx Hin]].
  apply filter_In in Hin. apply in_map_iff. exists x. tauto.
Qed.

Lemma filter_Permutation {A} (f : A -> bool) (l l' : list A) :
  Permutation l l' -> Permutation (filter f l) (filter f l').
Proof.
  induction 1 as [|x l l' H IH|x y l|l l' l'' H1 IH1 H2 IH2]; simpl.
  - apply perm_nil.
  - destruct (f x); [apply perm_skip|]; exact IH.
  - destruct (f x), (f y); try apply Permutation_refl. apply perm_swap.
  - exact (perm_trans IH1 IH2).
Qed.

Lemma dict_get_entry (d : dict) (k : pystr) (v : pyval) :
  NoDup (map fst d) -> In (k, v) d -> dict_get d k = Some v.
Proof.
  induction d as [|[k' v'] d IH]; simpl; [tauto|].
  intros Hnd Hin. apply NoDup_cons_iff in Hnd. destruct Hnd as [Hnot Hnd].
  destruct Hin as [E | Hin].
  - injection E as -> ->. rewrite str_eqb_refl. reflexivity.
  - destruct (str_eqb k k') eqn:E; [|exact (IH Hnd Hin)].
    apply str_eqb_eq in E. subst k'. exfalso. apply Hnot.
    apply in_map_iff. exists (k, v). split; [reflexivity | exact Hin].
Qed.

(** A lookup does not depend on the order of the entries. *)
Lemma dict_get_Permutation (d d' : dict) (k : pystr) :
  NoDup (map fst d) -> Permutation d d' -> dict_get d k = dict_get d' k.
Proof.
  intros Hnd Hp.
  assert (Hnd' : NoDup (map fst d'))
    by (apply (Permutation_NoDup (l := map fst d));
        [apply Permutation_map, Hp | exact Hnd]).
  destruct (dict_get d k) as [v|] eqn:E.
  - symmetry. apply dict_get_entry; [exact Hnd'|].
    apply (Permutation_in _ Hp), dict_get_in, E.
  - destruct (dict_get d' k) as [v|] eqn:E'; [|reflexivity].
    apply dict_get_in in E'.
    apply (Permutation_in _ (Permutation_sym Hp)) in E'.
    rewrite (dict_get_entry _ _ _ Hnd E') in E. discriminate.
Qed.

Lemma v2_sign_str_Permutation (P P' : dict) :
  NoDup (map fst P) -> Permutation P P' ->
  GeneratePaymentUrlV2.sign_str P = GeneratePaymentUrlV2.sign_str P'.
Proof.
  intros Hnd Hp.
  unfold GeneratePaymentUrlV2.sign_str.
  set (F := GeneratePaymentUrlV2.filtered P).
  set (F' := GeneratePaymentUrlV2.filtered P').
  assert (HF : Permutation F F') by (apply filter_Permutation, Hp).
  assert (HndF : NoDup (map fst F)) by (apply filter_keys_NoDup, Hnd).
  assert (Hk : sorted str_ltb (map fst F) = sorted str_ltb (map fst F')).
  { apply (sorted_order_independent (fun k : pystr => k)).
    - rewrite map_id. exact HndF.
    - apply Permutation_map, HF. }
  cbv zeta. rewrite Hk.
  rewrite (mapM_ext _ (fun k => v <- dict_item F' k ;;
                                Ok (k ++ [61] ++ py_str v)));
    [reflexivity|].
  intros k. unfold dict_item.
  rewrite (dict_get_Permutation F F' k HndF HF). reflexivity.
Qed.

(** X3. The v2 signer does not depend on the order in which the
    parameters were inserted: two dicts with the same entries give the same
    canonical string and the same signature.  The same holds for the signer
    of test_payment.py. *)
Theorem v2_sign_order_independent (P P' : dict) (key : pystr) :
  distinct_keys P = true ->
  Permutation P P' ->
  GeneratePaymentUrlV2.sign_str P = GeneratePaymentUrlV2.sign_str P'
  /\ GeneratePaymentUrlV2.generate_sign P key
     = GeneratePaymentUrlV2.generate_sign P' key
  /\ TestPayment.generate_sign P key = TestPayment.generate_sign P' key.
Proof.
  intros Hd Hp.
  pose proof (v2_sign_str_Permutation P P' (distinct_keys_NoDup P Hd) Hp) as E.
  split; [exact E|].
  assert (G : GeneratePaymentUrlV2.generate_sign P key
              = GeneratePaymentUrlV2.generate_sign P' key)
    by (unfold GeneratePaymentUrlV2.generate_sign; rewrite E; reflexivity).
  split; [exact G|].
  rewrite !test_payment_generate_sign_v2. exact G.
Qed.

Lemma v2_sign_order_independent_witness :
  distinct_keys Scenario.P = true
  /\ Permutation Scenario.P (rev Scenario.P)
  /\ GeneratePaymentUrlV2.generate_sign Scenario.P Scenario.K
     = GeneratePaymentUrlV2.generate_sign (rev Scenario.P) Scenario.K.
Proof.
  assert (H1 : distinct_keys Scenario.P = true) by (vm_compute; reflexivity).
  assert (H2 : Permutation Scenario.P (rev Scenario.P))
    by apply Permutation_rev.
  split; [exact H1|]. split; [exact H2|].
  exact (proj1 (proj2 (v2_sign_order_independent Scenario.P (rev Scenario.P)
                         Scenario.K H1 H2))).
Defined.

(** X4. The v1 signer does not depend on the insertion order either:
    [sorted(params.items())] puts the entries of two dicts with the same
    entries in the same order. *)
Theorem v1_sign_order_independent (P P' : dict) (key : pystr) :
  distinct_keys P = true ->
  Permutation P P' ->
  GeneratePaymentUrl.canonical P = GeneratePaymentUrl.canonical P'
  /\ GeneratePaymentUrl.generate_sign P key
     = GeneratePaymentUrl.generate_sign P' key.
Proof.
  intros Hd Hp.
  assert (E : GeneratePaymentUrl.canonical P = GeneratePaymentUrl.canonical P').
  { unfold GeneratePaymentUrl.canonical. cbv zeta.
    change (sorted item_ltb P)
      with (sorted (fun a b : pystr * pyval => str_ltb (fst a) (fst b)) P).
    change (sorted item_ltb P')
      with (sorted (fun a b : pystr * pyval => str_ltb (fst a) (fst b)) P').
    rewrite (sorted_order_independent fst P P' (distinct_keys_NoDup P Hd) Hp).
    reflexivity. }
  split; [exact E|].
  unfold GeneratePaymentUrl.generate_sign, GeneratePaymentUrl.sign_str.
  rewrite E. reflexivity.
Qed.

Lemma v1_sign_order_independent_witness :
  distinct_keys Scenario.P = true
  /\ Permutation Scenario.P (rev Scenario.P)
  /\ GeneratePaymentUrl.generate_sign Scenario.P Scenario.K
     = GeneratePaymentUrl.generate_sign (rev Scenario.P) Scenario.K.
Proof.
  assert (H1 : distinct_keys Scenario.P = true) by (vm_compute; reflexivity).
  assert (H2 : Permutation Scenario.P (rev Scenario.P))
    by apply Permutation_rev.
  split; [exact H1|]. split; [exact H2|].
  exact (proj2 (v1_sign_order_independent Scenario.P (rev Scenario.P)
                  Scenario.K H1 H2)).
Defined.

(* ------------------------------------------------------------------ *)
(** ** Where the two signers agree *)

Lemma insert_map_fst (x : pystr * pyval) (l : dict) :
  map fst (insert item_ltb x l) = insert str_ltb (fst x) (map fst l).
Proof.
  induction l as [|h t IH]; simpl; [reflexivity|].
  unfold item_ltb at 1.
  destruct (str_ltb (fst h) (fst x)); simpl; [rewrite IH|]; reflexivity.
Qed.

Lemma sorted_map_fst (l : dict) :
  map fst (sorted item_ltb l) = sorted str_ltb (map fst l).
Proof.
  induction l as [|x l IH]; simpl; [reflexivity|].
  rewrite insert_map_fst, IH. reflexivity.
Qed.

Lemma filter_all {A} (f : A -> bool) (l : list A) :
  forallb f l = true -> filter f l = l.
Proof.
  induction l as [|x l IH]; simpl; [reflexivity|].
  rewrite andb_true_iff. intros [-> H]. rewrite (IH H). reflexivity.
Qed.

Lemma mapM_items (d L : dict) :
  (forall kv, In kv L -> dict_get d (fst kv) = Some (snd kv)) ->
  mapM (fun k => v <- dict_item d k ;; Ok (k ++ [61] ++ py_str v)) (map fst L)
  = Ok (map (fun kv => fst kv ++ [61] ++ py_str (snd kv)) L).
Proof.
  induction L as [|kv L IH]; intros H; [reflexivity|].
  change (map fst (kv :: L)) with (fst kv :: map fst L).
  cbn [mapM]. unfold dict_item at 1.
  rewrite (H kv (or_introl eq_refl)). cbn [bind].
  rewrite IH by (intros x Hx; apply H; right; exact Hx).
  reflexivity.
Qed.

Lemma v2_sign_str_canonical (P : dict) :
  NoDup (map fst P) ->
  GeneratePaymentUrlV2.filtered P = P ->
  GeneratePaymentUrlV2.sign_str P = Ok (GeneratePaymentUrl.canonical P).
Proof.
  intros Hnd Hf.
  unfold GeneratePaymentUrlV2.sign_str, GeneratePaymentUrl.canonical.
  cbv zeta. rewrite Hf, <- sorted_map_fst, mapM_items; [reflexivity|].
  intros [k v] Hin. apply dict_get_entry; [exact Hnd|].
  apply in_sorted in Hin. exact Hin.
Qed.

(** X5. On a dict that has no reserved key and no falsy value, the two
    signers agree: the canonical string of generate_payment_url_v2.py
    (sorted keys, then lookups) is the one of generate_payment_url.py
    (sorted items), and the signatures are equal. *)
Theorem signers_agree_without_filtered_entries (P : dict) (key : pystr) :
  distinct_keys P = true ->
  forallb (fun kv => truthy (snd kv)
                     && negb (GeneratePaymentUrlV2.reserved (fst kv))) P
  = true ->
  GeneratePaymentUrlV2.sign_str P = Ok (GeneratePaymentUrl.canonical P)
  /\ GeneratePaymentUrlV2.generate_sign P key
     = GeneratePaymentUrl.generate_sign P key
  /\ TestPayment.generate_sign P key = GeneratePaymentUrl.generate_sign P key.
Proof.
  intros Hd Hall.
  pose proof (v2_sign_str_canonical P (distinct_keys_NoDup P Hd)
                (filter_all _ P Hall)) as E.
  split; [exact E|].
  assert (G : GeneratePaymentUrlV2.generate_sign P key
              = GeneratePaymentUrl.generate_sign P key).
  { unfold GeneratePaymentUrlV2.generate_sign. rewrite E. reflexivity. }
  split; [exact G|].
  rewrite test_payment_generate_sign_v2. exact G.
Qed.

Lemma signers_agree_without_filtered_entries_witness :
  distinct_keys Scenario.P = true
  /\ GeneratePaymentUrlV2.generate_sign Scenario.P Scenario.K
     = GeneratePaymentUrl.generate_sign Scenario.P Scenario.K.
Proof.
  assert (H1 : distinct_keys Scenario.P = true) by (vm_compute; reflexivity).
  assert (H2 : forallb (fun kv => truthy (snd kv)
                          && negb (GeneratePaymentUrlV2.reserved (fst kv)))
                 Scenario.P = true) by (vm_compute; reflexivity).
  split; [exact H1|].
  exact (proj1 (proj2 (signers_agree_without_filtered_entries Scenario.P
                         Scenario.K H1 H2))).
Defined.

(* ================================================================== *)
(** * How the signers fail *)





(* ================================================================== *)
(** * The v2 builder and its keyword arguments *)

Lemma str_eqb_sym (a b : pystr) : str_eqb a b = str_eqb b a.
Proof.
  destruct (str_eqb a b) eqn:E.
  - apply str_eqb_eq in E. subst b. symmetry. apply str_eqb_refl.
  - apply str_eqb_neq in E. symmetry. apply str_eqb_neq. congruence.
Qed.

Lemma dict_get_del_other (d : dict) (k k' : pystr) :
  str_eqb k' k = false -> dict_get (dict_del d k) k' = dict_get d k'.
Proof.
  intros Hk. induction d as [|[k0 v0] d IH]; simpl; [reflexivity|].
  destruct (str_eqb k k0) eqn:E.
  - apply str_eqb_eq in E. subst k0. rewrite Hk. reflexivity.
  - simpl. rewrite IH. reflexivity.
Qed.

Lemma dict_get_absent (d : dict) (k : pystr) :
  ~ In k (map fst d) -> dict_get d k = None.
Proof.
  intros Hk. destruct (dict_get d k) as [v|] eqn:E; [|reflexivity].
  exfalso. apply Hk. apply dict_get_in in E.
  apply in_map_iff. exists (k, v). split; [reflexivity | exact E].
Qed.

Lemma dict_get_del_same (d : dict) (k : pystr) :
  NoDup (map fst d) -> dict_get (dict_del d k) k = None.
Proof.
  induction d as [|[k0 v0] d IH]; simpl; [reflexivity|].
  intros Hnd. apply NoDup_cons_iff in Hnd. destruct Hnd as [Hnot Hnd].
  destruct (str_eqb k k0) eqn:E.
  - apply str_eqb_eq in E. subst k0. apply dict_get_absent, Hnot.
  - simpl. rewrite E. apply IH, Hnd.
Qed.

(** The builder reads its keyword arguments through seven lookups. *)
Lemma v2_builder_reads (now : Z) (base : pystr) (pid : pyval) (key : pystr)
      (kwargs kwargs' : dict) :
  (forall k, In k read_kwargs -> dict_get kwargs' k = dict_get kwargs k) ->
  GeneratePaymentUrlV2.generate_payment_url now base pid key kwargs'
  = GeneratePaymentUrlV2.generate_payment_url now base pid key kwargs.
Proof.
  intros H.
  unfold GeneratePaymentUrlV2.generate_payment_url,
    GeneratePaymentUrlV2.default_params, dict_get_default.
  rewrite !H by (unfold read_kwargs; simpl; tauto).
  reflexivity.
Qed.

(** X7. The v2 builder ignores a keyword argument it does not know: one
    more argument under a name other than [type], [out_trade_no],
    [notify_url], [return_url], [name], [money] and [sitename] changes
    neither the URL nor the params; it is not sent and not signed. *)
Theorem v2_unknown_kwarg_is_ignored
        (now : Z) (base_url : pystr) (pid : pyval) (merchant_key : pystr)
        (kwargs : dict) (k : pystr) (v : pyval) :
  existsb (str_eqb k) read_kwargs = false ->
  GeneratePaymentUrlV2.generate_payment_url now base_url pid merchant_key
    (dict_set kwargs k v)
  = GeneratePaymentUrlV2.generate_payment_url now base_url pid merchant_key
      kwargs.
Proof.
  intros Hk. apply v2_builder_reads. intros k' Hk'.
  apply dict_get_set_other.
  destruct (str_eqb k' k) eqn:E; [|reflexivity].
  apply str_eqb_eq in E. subst k'.
  assert (existsb (str_eqb k) read_kwargs = true)
    by (apply existsb_exists; exists k; split;
        [exact Hk' | apply str_eqb_refl]).
  congruence.
Qed.

Lemma v2_unknown_kwarg_is_ignored_witness :
  existsb (str_eqb (lit "subject")) read_kwargs = false
  /\ GeneratePaymentUrlV2.generate_payment_url 1700000000 Scenario.base_url
       Scenario.pid Scenario.K
       (dict_set [(lit "money", VInt 5)] (lit "subject") (VStr (lit "x")))
     = GeneratePaymentUrlV2.generate_payment_url 1700000000 Scenario.base_url
         Scenario.pid Scenario.K [(lit "money", VInt 5)].
Proof.
  assert (H : existsb (str_eqb (lit "subject")) read_kwargs = false)
    by (vm_compute; reflexivity).
  split; [exact H|].
  exact (v2_unknown_kwarg_is_ignored 1700000000 Scenario.base_url Scenario.pid
           Scenario.K [(lit "money", VInt 5)] (lit "subject")
           (VStr (lit "x")) H).
Defined.

(** X8. A [sitename] that is given but falsy (an empty string, [None],
    zero) is the same as no [sitename]: the builder returns what it returns
    for the keyword arguments without it. *)
Theorem v2_falsy_sitename_is_dropped
        (now : Z) (base_url : pystr) (pid : pyval) (merchant_key : pystr)
        (kwargs : dict) (v : pyval) :
  distinct_keys kwargs = true ->
  dict_get kwargs (lit "sitename") = Some v ->
  truthy v = false ->
  GeneratePaymentUrlV2.generate_payment_url now base_url pid merchant_key
    kwargs
  = GeneratePaymentUrlV2.generate_payment_url now base_url pid merchant_key
      (dict_del kwargs (lit "sitename")).
Proof.
  intros Hd Hs Hv.
  pose proof (dict_get_del_same kwargs (lit "sitename")
                (distinct_keys_NoDup kwargs Hd)) as Hnone.
  unfold GeneratePaymentUrlV2.generate_payment_url.
  rewrite Hs, Hv, Hnone.
  unfold GeneratePaymentUrlV2.default_params, dict_get_default.
  rewrite !(dict_get_del_other kwargs (lit "sitename"))
    by (vm_compute; reflexivity).
  reflexivity.
Qed.

Lemma v2_falsy_sitename_is_dropped_witness :
  distinct_keys [(lit "money", VInt 5); (lit "sitename", VStr [])] = true
  /\ GeneratePaymentUrlV2.generate_payment_url 1700000000 Scenario.base_url
       Scenario.pid Scenario.K
       [(lit "money", VInt 5); (lit "sitename", VStr [])]
     = GeneratePaymentUrlV2.generate_payment_url 1700000000 Scenario.base_url
         Scenario.pid Scenario.K
         (dict_del [(lit "money", VInt 5); (lit "sitename", VStr [])]
            (lit "sitename")).
Proof.
  assert (H1 : distinct_keys [(lit "money", VInt 5); (lit "sitename", VStr [])]
               = true) by (vm_compute; reflexivity).
  assert (H2 : dict_get [(lit "money", VInt 5); (lit "sitename", VStr [])]
                 (lit "sitename") = Some (VStr []))
    by (vm_compute; reflexivity).
  split; [exact H1|].
  exact (v2_falsy_sitename_is_dropped 1700000000 Scenario.base_url Scenario.pid
           Scenario.K [(lit "money", VInt 5); (lit "sitename", VStr [])]
           (VStr []) H1 H2 eq_refl).
Defined.

(* ------------------------------------------------------------------ *)
(** ** The characters of a query string *)

Lemma hexdigit_upper_safe (d : Z) :
  0 <= d < 16 -> UrlLib.always_safe (UrlLib.hexdigit_upper d) = true.
Proof.
  intros Hd. destruct (hexdigit_upper_range d Hd) as [H _].
  unfold UrlLib.always_safe.
  destruct H as [H|H]; zbool; try reflexivity; lia.
Qed.

Lemma qp_byte_query_chars (b : Z) :
  is_octet b -> forallb is_query_char (qp_byte b) = true.
Proof.
  intros Hb. unfold qp_byte, UrlLib.quote_byte.
  destruct (Z.eqb_spec b 32); [reflexivity|].
  cbn [existsb orb]. rewrite orb_false_r.
  destruct (UrlLib.always_safe b) eqn:Hsafe.
  - cbn [forallb]. unfold is_query_char. rewrite Hsafe. reflexivity.
  - destruct (octet_nibbles b Hb) as [Hh [Hl _]].
    cbn [forallb]. unfold is_query_char at 2 3.
    rewrite (hexdigit_upper_safe _ Hh), (hexdigit_upper_safe _ Hl).
    reflexivity.
Qed.

Lemma quote_plus_query_chars (s q : pystr) :
  UrlLib.quote_plus s = Ok q -> forallb is_query_char q = true.
Proof.
  intros Hq. destruct (quote_plus_spec s q Hq) as [bs [Hs ->]].
  pose proof (encode_octets s bs Hs) as Hoct. clear Hs Hq.
  induction Hoct as [|b bs Hb Hbs IH]; [reflexivity|].
  cbn [map concat]. rewrite forallb_app, (qp_byte_query_chars b Hb), IH.
  reflexivity.
Qed.

Lemma join_query_chars (fields : list pystr) :
  Forall (fun f => forallb is_query_char f = true) fields ->
  forallb is_query_char (join [38] fields) = true.
Proof.
  induction 1 as [|f fields Hf Hfs IH]; [reflexivity|].
  destruct fields as [|g fields]; [exact Hf|].
  change (join [38] (f :: g :: fields))
    with (f ++ [38] ++ join [38] (g :: fields)).
  rewrite !forallb_app, Hf, IH. reflexivity.
Qed.

Lemma urlencode_query_chars (d : dict) (q : pystr) :
  UrlLib.urlencode d = Ok q -> forallb is_query_char q = true.
Proof.
  intros Hq. destruct (urlencode_fields d q Hq) as [fields [-> Hf]].
  apply join_query_chars. clear Hq.
  induction Hf as [|kv f d fields Hkv Hf IH]; [constructor|].
  constructor; [|exact IH].
  destruct Hkv as [k [v [Hk [Hv ->]]]].
  change (k ++ 61 :: v) with (k ++ [61] ++ v).
  rewrite !forallb_app, (quote_plus_query_chars _ _ Hk),
    (quote_plus_query_chars _ _ Hv).
  reflexivity.
Qed.

Lemma v1_generate_payment_url_inv
      (now : Z) (amount product_name : option pyval)
      (u : pystr) (params : dict) :
  GeneratePaymentUrl.generate_payment_url now amount product_name
    = Ok (u, params) ->
  exists q, UrlLib.urlencode params = Ok q
            /\ u = GeneratePaymentUrl.BASE_URL ++ lit "?" ++ q.
Proof.
  unfold GeneratePaymentUrl.generate_payment_url.
  destruct (GeneratePaymentUrl.generate_sign _ _) as [sig|]; [|discriminate].
  cbn [bind].
  destruct (UrlLib.urlencode _) as [q|] eqn:Hq; [|discriminate].
  cbn [bind]. intros [= <- <-]. exists q. split; [exact Hq | reflexivity].
Qed.

(** X9. What the builders put after the [?] of the URL is made of
    ASCII letters, digits, [_.-~], and [%], [+], [&], [=] only: whatever
    the values are, the query string has no space, no quote, no [#], no
    non-ASCII character in it. *)
Theorem payment_url_query_is_url_safe
        (now : Z) (base_url : pystr) (pid : pyval) (merchant_key : pystr)
        (kwargs : dict) (amount product_name : option pyval) :
  (forall u params,
     GeneratePaymentUrlV2.generate_payment_url now base_url pid merchant_key
       kwargs = Ok (u, params) ->
     exists q, u = base_url ++ lit "/submit?" ++ q
               /\ forallb is_query_char q = true)
  /\ (forall u params,
        GeneratePaymentUrl.generate_payment_url now amount product_name
        = Ok (u, params) ->
        exists q, u = GeneratePaymentUrl.BASE_URL ++ lit "?" ++ q
                  /\ forallb is_query_char q = true).
Proof.
  split; intros u params H.
  - destruct (v2_generate_payment_url_inv _ _ _ _ _ _ _ H)
      as [unsigned [sig [q [_ [_ [_ [Hq ->]]]]]]].
    exists q. split; [reflexivity | exact (urlencode_query_chars _ _ Hq)].
  - destruct (v1_generate_payment_url_inv _ _ _ _ _ H) as [q [Hq ->]].
    exists q. split; [reflexivity | exact (urlencode_query_chars _ _ Hq)].
Qed.

Lemma payment_url_query_is_url_safe_witness :
  exists q,
    GeneratePaymentUrlV2.generate_payment_url 1700000000 Scenario.base_url
      Scenario.pid Scenario.K [(lit "money", VInt 5)]
    = Ok (Scenario.base_url ++ lit "/submit?" ++ q,
          Scenario.returned (lit "5") (lit "ca0dcd47e9bb0b03177c9d4e7f15c928"))
    /\ forallb is_query_char q = true.
Proof.
  assert (H : GeneratePaymentUrlV2.generate_payment_url 1700000000
                Scenario.base_url Scenario.pid Scenario.K
                [(lit "money", VInt 5)]
              = Ok (Scenario.url_5,
                    Scenario.returned (lit "5")
                      (lit "ca0dcd47e9bb0b03177c9d4e7f15c928")))
    by (vm_compute; reflexivity).
  destruct (proj1 (payment_url_query_is_url_safe 1700000000 Scenario.base_url
                     Scenario.pid Scenario.K [(lit "money", VInt 5)]
                     None None)
              Scenario.url_5
              (Scenario.returned (lit "5")
                 (lit "ca0dcd47e9bb0b03177c9d4e7f15c928")) H)
    as [q [Hu Hq]].
  exists q. split; [rewrite H, Hu; reflexivity | exact Hq].
Defined.

(* ================================================================== *)
(** * The scripts against each other *)

Lemma test_payment_full_url_eq (now : Z) :
  TestPayment.full_url now
  = (r <- GeneratePaymentUrlV2.generate_payment_url now TestPayment.BASE_URL
            (VStr TestPayment.PID) TestPayment.KEY [] ;;
     Ok (fst r)).
Proof.
  rewrite v2_generate_payment_url_eq.
  unfold TestPayment.full_url.
  rewrite test_payment_generate_sign_v2.
  change (v2_unsigned now (VStr TestPayment.PID) [])
    with (TestPayment.params now).
  destruct (GeneratePaymentUrlV2.generate_sign (TestPayment.params now)
              TestPayment.KEY) as [sig|]; [|reflexivity].
  cbn [bind].
  destruct (UrlLib.urlencode _) as [q|]; reflexivity.
Qed.

(** X10. Whatever the clock reads, test_payment.py builds its URL, and it
    is the URL that [generate_payment_url] of generate_payment_url_v2.py
    returns for the same base URL, merchant and key when it is called with
    no keyword argument. *)
Theorem test_payment_url_is_v2_default (now : Z) :
  exists u params,
    GeneratePaymentUrlV2.generate_payment_url now TestPayment.BASE_URL
      (VStr TestPayment.PID) TestPayment.KEY [] = Ok (u, params)
    /\ TestPayment.full_url now = Ok u.
Proof.
  destruct (v2_builder_returns now TestPayment.BASE_URL (VStr TestPayment.PID)
              TestPayment.KEY [])
    as [sig [q [_ [_ [H _]]]]];
    [vm_compute; reflexivity | vm_compute; reflexivity | constructor |].
  eexists. eexists. split; [exact H|].
  rewrite test_payment_full_url_eq, H. reflexivity.
Qed.

(* ------------------------------------------------------------------ *)
(** ** The v1 builder under the v2 signer *)

Lemma v2_sign_ignores_reserved (P : dict) (k : pystr) (v : pyval)
      (key : pystr) :
  k = lit "sign" \/ k = lit "sign_type" ->
  dict_get P k = None ->
  GeneratePaymentUrlV2.generate_sign (dict_set P k v) key
  = GeneratePaymentUrlV2.generate_sign P key.
Proof.
  intros Hk Hnone.
  rewrite (v2_reserved_key_ignored P k v key Hk).
  rewrite (dict_del_absent P k Hnone). reflexivity.
Qed.

Lemma v1_order_params_signed (now : Z) (amount product_name : pyval) :
  truthy amount = true -> truthy product_name = true ->
  distinct_keys (GeneratePaymentUrl.order_params now amount product_name)
  = true
  /\ forallb (fun kv => truthy (snd kv)
                        && negb (GeneratePaymentUrlV2.reserved (fst kv)))
       (GeneratePaymentUrl.order_params now amount product_name) = true.
Proof.
  intros Ha Hn. unfold GeneratePaymentUrl.order_params. split.
  - cbn [distinct_keys map fst existsb]. eval_keys. reflexivity.
  - cbn [forallb fst snd]. rewrite Ha, Hn.
    assert (T : truthy (VStr (lit "TEST" ++ int_str now)) = true).
    { replace (lit "TEST") with [84; 69; 83; 84] by (vm_compute; reflexivity).
      reflexivity. }
    rewrite T. vm_compute. reflexivity.
Qed.

(** What the v1 builder returns for an amount and a product name that are
    not empty. *)
Lemma v1_builder_returns (now : Z) (amount product_name : pyval) :
  truthy amount = true ->
  truthy product_name = true ->
  encodable (py_str amount) = true ->
  encodable (py_str product_name) = true ->
  exists sig q,
    let params :=
      dict_set
        (dict_set (GeneratePaymentUrl.order_params now amount product_name)
           (lit "sign") (VStr sig))
        (lit "sign_type") (VStr (lit "MD5")) in
    GeneratePaymentUrl.generate_payment_url now (Some amount)
      (Some product_name)
    = Ok (GeneratePaymentUrl.BASE_URL ++ lit "?" ++ q, params)
    /\ UrlLib.urlencode params = Ok q
    /\ forallb is_lower_hex sig = true
    /\ dict_get params (lit "sign") = Some (VStr sig)
    /\ GeneratePaymentUrlV2.generate_sign params GeneratePaymentUrl.KEY
       = Ok sig.
Proof.
  intros Ta Tn Ea En.
  set (op := GeneratePaymentUrl.order_params now amount product_name).
  pose proof (v1_order_params_ok now amount product_name Ea En) as Hok.
  destruct (v1_order_params_get now amount product_name)
    as [_ [_ [Hsign Hsign_type]]].
  destruct (v1_order_params_signed now amount product_name Ta Tn)
    as [Hd Hall].
  fold op in Hok, Hsign, Hsign_type, Hd, Hall.
  destruct (v1_generate_sign_total op GeneratePaymentUrl.KEY Hok)
    as [sig [Hsig [_ Hhex]]]; [vm_compute; reflexivity|].
  set (p1 := dict_set op (lit "sign") (VStr sig)).
  set (p2 := dict_set p1 (lit "sign_type") (VStr (lit "MD5"))).
  assert (Hok2 : Forall entry_ok p2).
  { apply dict_set_entries_ok; [apply dict_set_entries_ok; [exact Hok|]|].
    - split; [vm_compute; reflexivity | apply lower_hex_encodable, Hhex].
    - split; vm_compute; reflexivity. }
  destruct (urlencode_total p2 Hok2) as [q Hq].
  exists sig, q. cbv zeta. fold p1. fold p2.
  split; [|split; [exact Hq | split; [exact Hhex | split]]].
  - unfold GeneratePaymentUrl.generate_payment_url. fold op.
    rewrite Hsig. cbn [bind]. fold p1. fold p2. rewrite Hq. reflexivity.
  - unfold p2. rewrite dict_get_set_other by (vm_compute; reflexivity).
    apply dict_get_set_same.
  - unfold p2.
    rewrite v2_sign_ignores_reserved;
      [| right; reflexivity
       | unfold p1; rewrite dict_get_set_other by (vm_compute; reflexivity);
         exact Hsign_type ].
    unfold p1.
    rewrite v2_sign_ignores_reserved; [| left; reflexivity | exact Hsign].
    unfold GeneratePaymentUrlV2.generate_sign.
    rewrite (v2_sign_str_canonical op (distinct_keys_NoDup op Hd)
               (filter_all _ op Hall)).
    exact Hsig.
Qed.

(** X11. When the amount and the product name are not empty, the
    signature that the v1 builder puts into its params is the one the v2
    signer computes from these params and the v1 key: a URL of
    generate_payment_url.py passes a check that recomputes the signature
    the v2 way (reserved keys and empty values left out). *)
Theorem v1_url_passes_v2_check (now : Z) (amount product_name : pyval) :
  truthy amount = true ->
  truthy product_name = true ->
  encodable (py_str amount) = true ->
  encodable (py_str product_name) = true ->
  exists u params sig,
    GeneratePaymentUrl.generate_payment_url now (Some amount)
      (Some product_name) = Ok (u, params)
    /\ dict_get params (lit "sign") = Some (VStr sig)
    /\ GeneratePaymentUrlV2.generate_sign params GeneratePaymentUrl.KEY
       = Ok sig.
Proof.
  intros Ta Tn Ea En.
  destruct (v1_builder_returns now amount product_name Ta Tn Ea En)
    as [sig [q [H [_ [_ [Hs Hv]]]]]].
  eexists. eexists. exists sig.
  split; [exact H | split; [exact Hs | exact Hv]].
Qed.

Lemma v1_url_passes_v2_check_witness :
  truthy (VStr (lit "0.01")) = true
  /\ truthy (VStr (lit "测试商品")) = true
  /\ exists u params sig,
       GeneratePaymentUrl.generate_payment_url 1700000000
         (Some (VStr (lit "0.01"))) (Some (VStr (lit "测试商品")))
       = Ok (u, params)
       /\ dict_get params (lit "sign") = Some (VStr sig)
       /\ GeneratePaymentUrlV2.generate_sign params GeneratePaymentUrl.KEY
          = Ok sig.
Proof.
  assert (H1 : truthy (VStr (lit "0.01")) = true) by (vm_compute; reflexivity).
  assert (H2 : truthy (VStr (lit "测试商品")) = true)
    by (vm_compute; reflexivity).
  assert (H3 : encodable (py_str (VStr (lit "0.01"))) = true)
    by (vm_compute; reflexivity).
  assert (H4 : encodable (py_str (VStr (lit "测试商品"))) = true)
    by (vm_compute; reflexivity).
  split; [exact H1|]. split; [exact H2|].
  exact (v1_url_passes_v2_check 1700000000 (VStr (lit "0.01"))
           (VStr (lit "测试商品")) H1 H2 H3 H4).
Defined.

(* ------------------------------------------------------------------ *)
(** ** Values are signed as they are *)

Lemma str_ltb_neq (a b : pystr) : str_ltb a b = true -> str_eqb b a = false.
Proof.
  intros H. apply str_eqb_neq. intros ->.
  rewrite str_ltb_irrefl in H. discriminate.
Qed.

(** X12. The signers write values into the canonical string as they
    are, without quoting [&] or [=]: one entry whose value is
    [v1&k2=v2] is signed exactly as the two entries [k1=v1] and
    [k2=v2], so the two parameter sets have the same signature under every
    key. *)
Theorem unquoted_value_signs_as_two_entries
        (k1 k2 v1 v2 key : pystr) :
  str_ltb k1 k2 = true ->
  GeneratePaymentUrlV2.reserved k1 = false ->
  GeneratePaymentUrlV2.reserved k2 = false ->
  v1 <> [] -> v2 <> [] ->
  let one := [(k1, VStr (v1 ++ [38] ++ k2 ++ [61] ++ v2))] in
  let two := [(k1, VStr v1); (k2, VStr v2)] in
  GeneratePaymentUrlV2.sign_str one = GeneratePaymentUrlV2.sign_str two
  /\ GeneratePaymentUrlV2.generate_sign one key
     = GeneratePaymentUrlV2.generate_sign two key
  /\ GeneratePaymentUrl.generate_sign one key
     = GeneratePaymentUrl.generate_sign two key.
Proof.
  intros Hlt R1 R2 N1 N2 one two.
  assert (T1 : truthy (VStr v1) = true) by (destruct v1; [congruence | reflexivity]).
  assert (T2 : truthy (VStr v2) = true) by (destruct v2; [congruence | reflexivity]).
  assert (T : truthy (VStr (v1 ++ [38] ++ k2 ++ [61] ++ v2)) = true)
    by (destruct v1; [congruence | reflexivity]).
  pose proof (str_ltb_asym _ _ Hlt) as Hgt.
  pose proof (str_ltb_neq _ _ Hlt) as Hne.
  assert (E : GeneratePaymentUrlV2.sign_str one
              = GeneratePaymentUrlV2.sign_str two).
  { unfold GeneratePaymentUrlV2.sign_str, GeneratePaymentUrlV2.filtered,
      one, two.
    cbn [filter fst snd]. rewrite T, T1, T2, R1, R2. cbn [andb negb].
    cbn [map fst sorted fold_right insert]. rewrite Hgt.
    cbn [mapM]. unfold dict_item. cbn [dict_get].
    rewrite !str_eqb_refl, Hne. cbn [bind join py_str].
    rewrite <- !app_assoc. reflexivity. }
  split; [exact E|]. split.
  - unfold GeneratePaymentUrlV2.generate_sign. rewrite E. reflexivity.
  - unfold GeneratePaymentUrl.generate_sign, GeneratePaymentUrl.sign_str,
      GeneratePaymentUrl.canonical, one, two.
    cbn [sorted fold_right insert]. unfold item_ltb. cbn [fst snd].
    rewrite Hgt. cbn [map join fst snd py_str].
    rewrite <- !app_assoc. reflexivity.
Qed.

Lemma unquoted_value_signs_as_two_entries_witness :
  str_ltb (lit "money") (lit "pid") = true
  /\ GeneratePaymentUrlV2.generate_sign
       [(lit "money", VStr (lit "1&pid=2"))] Scenario.K
     = GeneratePaymentUrlV2.generate_sign
         [(lit "money", VStr (lit "1")); (lit "pid", VStr (lit "2"))]
         Scenario.K.
Proof.
  assert (H1 : str_ltb (lit "money") (lit "pid") = true)
    by (vm_compute; reflexivity).
  assert (H2 : GeneratePaymentUrlV2.reserved (lit "money") = false)
    by (vm_compute; reflexivity).
  assert (H3 : GeneratePaymentUrlV2.reserved (lit "pid") = false)
    by (vm_compute; reflexivity).
  assert (H4 : lit "1" <> []) by (vm_compute; discriminate).
  assert (H5 : lit "2" <> []) by (vm_compute; discriminate).
  split; [exact H1|].
  exact (proj1 (proj2 (unquoted_value_signs_as_two_entries (lit "money")
                         (lit "pid") (lit "1") (lit "2") Scenario.K
                         H1 H2 H3 H4 H5))).
Defined.

(* ================================================================== *)
(** * Every signed value is in the canonical string *)

(** [join] around one of its parts. *)
Lemma join_middle (sep : pystr) (A B : list pystr) (x : pystr) :
  join sep (A ++ x :: B)
  = concat (map (fun a => a ++ sep) A) ++ x
    ++ concat (map (fun b => sep ++ b) B).
Proof.
  induction A as [|a A IH].
  - cbn [app map concat]. induction B as [|b B IHB].
    + cbn [join map concat]. rewrite app_nil_r. reflexivity.
    + change (join sep (x :: b :: B)) with (x ++ sep ++ join sep (b :: B)).
      destruct B as [|b' B].
      * cbn [join map concat]. rewrite !app_nil_r. reflexivity.
      * cbn [map concat]. f_equal. rewrite <- app_assoc. f_equal.
        cbn [app] in IHB.
        change (join sep (x :: b' :: B)) with (x ++ sep ++ join sep (b' :: B))
          in IHB.
        apply app_inv_head in IHB.
        change (join sep (b :: b' :: B))
          with (b ++ sep ++ join sep (b' :: B)).
        cbn [map concat] in IHB. rewrite IHB. reflexivity.
  - cbn [app map concat].
    destruct (A ++ x :: B) as [|y l] eqn:E;
      [destruct A; discriminate|].
    change (join sep (a :: y :: l)) with (a ++ sep ++ join sep (y :: l)).
    rewrite IH, <- !app_assoc. reflexivity.
Qed.

Section KeyPreserving.
(** A change of values that leaves the keys alone commutes with
    [sorted]. *)
Variable g : pystr * pyval -> pystr * pyval.
Hypothesis g_key : forall kv, fst (g kv) = fst kv.

Lemma insert_map_values (x : pystr * pyval) (l : dict) :
  insert item_ltb (g x) (map g l) = map g (insert item_ltb x l).
Proof.
  induction l as [|h t IH]; [reflexivity|].
  cbn [map insert]. unfold item_ltb at 1 3. rewrite !g_key.
  destruct (str_ltb (fst h) (fst x)); cbn [map]; [rewrite IH|]; reflexivity.
Qed.

Lemma sorted_map_values (l : dict) :
  sorted item_ltb (map g l) = map g (sorted item_ltb l).
Proof.
  induction l as [|x l IH]; [reflexivity|].
  cbn [map sorted fold_right]. fold (sorted item_ltb (map g l)).
  fold (sorted item_ltb l). rewrite IH. apply insert_map_values.
Qed.
End KeyPreserving.

Lemma with_value_key (k : pystr) (v : pyval) (kv : pystr * pyval) :
  fst (with_value k v kv) = fst kv.
Proof. unfold with_value. destruct (str_eqb k (fst kv)); reflexivity. Qed.

Lemma with_value_other (k : pystr) (v : pyval) (l : dict) :
  ~ In k (map fst l) -> map (with_value k v) l = l.
Proof.
  induction l as [|[k0 v0] l IH]; [reflexivity|].
  cbn [map fst In]. intros H.
  change (with_value k v (k0, v0))
    with (if str_eqb k k0 then (k0, v) else (k0, v0)).
  destruct (str_eqb k k0) eqn:E.
  - apply str_eqb_eq in E. subst k0. tauto.
  - rewrite IH by tauto. reflexivity.
Qed.

Lemma dict_set_with_value (P : dict) (k : pystr) (v v' : pyval) :
  NoDup (map fst P) ->
  dict_set P k v' = map (with_value k v') (dict_set P k v).
Proof.
  induction P as [|[k0 v0] P IH]; intros Hnd.
  - cbn [dict_set map].
    change (with_value k v' (k, v))
      with (if str_eqb k k then (k, v') else (k, v)).
    rewrite str_eqb_refl. reflexivity.
  - cbn [map fst] in Hnd. apply NoDup_cons_iff in Hnd.
    destruct Hnd as [Hnot Hnd].
    cbn [dict_set]. destruct (str_eqb k k0) eqn:E.
    + cbn [map].
      change (with_value k v' (k0, v))
        with (if str_eqb k k0 then (k0, v') else (k0, v)).
      rewrite E. apply str_eqb_eq in E. subst k0.
      rewrite with_value_other by exact Hnot. reflexivity.
    + cbn [map].
      change (with_value k v' (k0, v0))
        with (if str_eqb k k0 then (k0, v') else (k0, v0)).
      rewrite E, <- IH by exact Hnd. reflexivity.
Qed.

Lemma dict_set_keys_NoDup (P : dict) (k : pystr) (v : pyval) :
  NoDup (map fst P) -> NoDup (map fst (dict_set P k v)).
Proof.
  induction P as [|[k0 v0] P IH]; intros Hnd.
  - cbn. apply NoDup_cons; [tauto | apply NoDup_nil].
  - cbn [map fst] in Hnd. apply NoDup_cons_iff in Hnd.
    destruct Hnd as [Hnot Hnd].
    cbn [dict_set]. destruct (str_eqb k k0) eqn:E.
    + cbn [map fst]. apply NoDup_cons; assumption.
    + cbn [map fst]. apply NoDup_cons; [|apply IH, Hnd].
      intros Hin. apply in_map_iff in Hin. destruct Hin as [[k1 v1] [E1 Hin]].
      cbn [fst] in E1. subst k1.
      apply Hnot.
      destruct (dict_get P k0) as [v2|] eqn:G.
      * apply dict_get_in in G. apply in_map_iff.
        exists (k0, v2). split; [reflexivity | exact G].
      * exfalso.
        assert (dict_get (dict_set P k v) k0 = None)
          by (rewrite dict_get_set_other;
              [exact G | rewrite str_eqb_sym; exact E]).
        rewrite (dict_get_entry _ _ _ (IH Hnd) Hin) in H. discriminate.
Qed.

Lemma filter_with_value (f : pystr * pyval -> bool) (k : pystr)
      (v v' : pyval) (l : dict) :
  f (k, v) = true -> f (k, v') = true ->
  In (k, v) l -> NoDup (map fst l) ->
  filter f (map (with_value k v') l) = map (with_value k v') (filter f l).
Proof.
  intros Hv Hv' Hin Hnd.
  induction l as [|[k0 v0] l IH]; [reflexivity|].
  cbn [map fst] in Hnd. apply NoDup_cons_iff in Hnd.
  destruct Hnd as [Hnot Hnd].
  cbn [map filter].
  change (with_value k v' (k0, v0))
    with (if str_eqb k k0 then (k0, v') else (k0, v0)).
  destruct (str_eqb k k0) eqn:E.
  - apply str_eqb_eq in E. subst k0.
    assert (v0 = v).
    { destruct Hin as [Hin|Hin]; [congruence|].
      exfalso. apply Hnot. apply in_map_iff.
      exists (k, v). split; [reflexivity | exact Hin]. }
    subst v0. rewrite Hv, Hv'. cbn [map].
    change (with_value k v' (k, v))
      with (if str_eqb k k then (k, v') else (k, v)).
    rewrite str_eqb_refl.
    rewrite !with_value_other; [reflexivity | | exact Hnot].
    intros H. apply Hnot. apply in_map_iff in H.
    destruct H as [x [Hx H]]. apply filter_In in H.
    apply in_map_iff. exists x. tauto.
  - assert (Hin' : In (k, v) l).
    { destruct Hin as [Hin|Hin]; [|exact Hin].
      injection Hin as -> _. rewrite str_eqb_refl in E. discriminate. }
    destruct (f (k0, v0)).
    + cbn [map].
      change (with_value k v' (k0, v0))
        with (if str_eqb k k0 then (k0, v') else (k0, v0)).
      rewrite E, (IH Hin' Hnd). reflexivity.
    + exact (IH Hin' Hnd).
Qed.

(** The canonical strings of a dict for two values of one entry. *)
Lemma canonical_with_value (L : dict) (k : pystr) (v v' : pyval) :
  NoDup (map fst L) -> In (k, v) L ->
  exists pre post,
    GeneratePaymentUrl.canonical L
    = pre ++ (k ++ [61] ++ py_str v) ++ post
    /\ GeneratePaymentUrl.canonical (map (with_value k v') L)
       = pre ++ (k ++ [61] ++ py_str v') ++ post.
Proof.
  intros Hnd Hin.
  unfold GeneratePaymentUrl.canonical. cbv zeta.
  rewrite (sorted_map_values (with_value k v') (with_value_key k v')).
  assert (HS : In (k, v) (sorted item_ltb L)) by (apply in_sorted, Hin).
  assert (HndS : NoDup (map fst (sorted item_ltb L))).
  { apply (Permutation_NoDup (l := map fst L)); [|exact Hnd].
    apply Permutation_map, Permutation_sym, sorted_Permutation. }
  destruct (in_split _ _ HS) as [S1 [S2 ES]].
  rewrite ES in HndS |- *.
  rewrite map_app in HndS. cbn [map fst] in HndS.
  pose proof (NoDup_remove_2 _ _ _ HndS) as Hk.
  rewrite in_app_iff in Hk.
  rewrite !map_app. cbn [map].
  rewrite (with_value_other k v' S1) by tauto.
  rewrite (with_value_other k v' S2) by tauto.
  change (with_value k v' (k, v))
    with (if str_eqb k k then (k, v') else (k, v)).
  rewrite str_eqb_refl. cbn [fst snd].
  rewrite !join_middle.
  eexists. eexists. split; reflexivity.
Qed.

Lemma v2_sign_str_of_filtered (D : dict) :
  NoDup (map fst D) ->
  GeneratePaymentUrlV2.sign_str D
  = Ok (GeneratePaymentUrl.canonical (GeneratePaymentUrlV2.filtered D)).
Proof.
  intros Hnd.
  assert (Hff : GeneratePaymentUrlV2.filtered (GeneratePaymentUrlV2.filtered D)
                = GeneratePaymentUrlV2.filtered D).
  { unfold GeneratePaymentUrlV2.filtered. apply filter_all.
    apply forallb_forall. intros x Hx. apply filter_In in Hx. tauto. }
  rewrite (v2_sign_str_filtered D (GeneratePaymentUrlV2.filtered D))
    by (symmetry; exact Hff).
  apply v2_sign_str_canonical; [|exact Hff].
  apply filter_keys_NoDup, Hnd.
Qed.

(** X13. Every signed value is part of what is hashed.  Storing two
    values with different texts under a key gives two different strings to
    hash: in the v1 signer for every key, in the v2 signer for a key that
    is not reserved and values that are truthy. *)
Theorem signed_value_is_in_canonical_string
        (P : dict) (k : pystr) (v v' : pyval) :
  distinct_keys P = true ->
  py_str v <> py_str v' ->
  GeneratePaymentUrl.canonical (dict_set P k v)
  <> GeneratePaymentUrl.canonical (dict_set P k v')
  /\ (GeneratePaymentUrlV2.reserved k = false ->
      truthy v = true -> truthy v' = true ->
      GeneratePaymentUrlV2.sign_str (dict_set P k v)
      <> GeneratePaymentUrlV2.sign_str (dict_set P k v')).
Proof.
  intros Hd Hne.
  pose proof (distinct_keys_NoDup P Hd) as Hnd.
  pose proof (dict_set_keys_NoDup P k v Hnd) as HndD.
  assert (HinD : In (k, v) (dict_set P k v))
    by (apply dict_get_in, dict_get_set_same).
  assert (Hdiff : forall L, NoDup (map fst L) -> In (k, v) L ->
            GeneratePaymentUrl.canonical L
            <> GeneratePaymentUrl.canonical (map (with_value k v') L)).
  { intros L HL Hin.
    destruct (canonical_with_value L k v v' HL Hin) as [pre [post [-> ->]]].
    intros E. apply app_inv_head in E.
    rewrite <- !app_assoc in E. apply app_inv_head in E.
    apply app_inv_head in E. apply app_inv_tail in E. exact (Hne E). }
  split.
  - rewrite (dict_set_with_value P k v v' Hnd). apply Hdiff; assumption.
  - intros Hr Tv Tv'.
    rewrite (v2_sign_str_of_filtered _ HndD).
    rewrite (v2_sign_str_of_filtered _ (dict_set_keys_NoDup P k v' Hnd)).
    rewrite (dict_set_with_value P k v v' Hnd).
    unfold GeneratePaymentUrlV2.filtered.
    rewrite (filter_with_value _ k v v');
      [ | cbn [fst snd]; rewrite Tv, Hr; reflexivity
        | cbn [fst snd]; rewrite Tv', Hr; reflexivity
        | exact HinD | exact HndD ].
    intros [= E]. revert E. apply Hdiff.
    + apply filter_keys_NoDup, HndD.
    + apply filter_In. split; [exact HinD|].
      cbn [fst snd]. rewrite Tv, Hr. reflexivity.
Qed.

Lemma signed_value_is_in_canonical_string_witness :
  distinct_keys Scenario.P = true
  /\ py_str (VStr (lit "0.01")) <> py_str (VStr (lit "100.00"))
  /\ GeneratePaymentUrlV2.sign_str
       (dict_set Scenario.P (lit "money") (VStr (lit "0.01")))
     <> GeneratePaymentUrlV2.sign_str
          (dict_set Scenario.P (lit "money") (VStr (lit "100.00"))).
Proof.
  assert (H1 : distinct_keys Scenario.P = true) by (vm_compute; reflexivity).
  assert (H2 : py_str (VStr (lit "0.01")) <> py_str (VStr (lit "100.00")))
    by (vm_compute; discriminate).
  split; [exact H1|]. split; [exact H2|].
  apply (proj2 (signed_value_is_in_canonical_string Scenario.P (lit "money")
                  (VStr (lit "0.01")) (VStr (lit "100.00")) H1 H2));
    vm_compute; reflexivity.
Defined.

(* ================================================================== *)
(** * [str.strip] *)

Lemma lstrip_spaces (pre s : pystr) :
  forallb isspace pre = true -> lstrip (pre ++ s) = lstrip s.
Proof.
  induction pre as [|c pre IH]; [reflexivity|].
  cbn [forallb app lstrip]. rewrite andb_true_iff. intros [-> H].
  exact (IH H).
Qed.

Lemma lstrip_blank (s : pystr) : forallb isspace s = true -> lstrip s = [].
Proof.
  intros H. rewrite <- (app_nil_r s). rewrite lstrip_spaces by exact H.
  reflexivity.
Qed.

Lemma lstrip_nil_blank (s : pystr) : lstrip s = [] -> forallb isspace s = true.
Proof.
  induction s as [|c s IH]; [reflexivity|].
  cbn [lstrip forallb]. destruct (isspace c); [exact IH | discriminate].
Qed.

Lemma lstrip_app (s post : pystr) :
  lstrip s <> [] -> lstrip (s ++ post) = lstrip s ++ post.
Proof.
  induction s as [|c s IH]; [intros H; exfalso; apply H; reflexivity|].
  cbn [lstrip app]. destruct (isspace c); [exact IH | reflexivity].
Qed.

Lemma forallb_rev {A} (f : A -> bool) (l : list A) :
  forallb f (rev l) = forallb f l.
Proof.
  induction l as [|x l IH]; [reflexivity|].
  cbn [rev forallb]. rewrite forallb_app, IH. cbn [forallb].
  rewrite andb_true_r. apply andb_comm.
Qed.

Lemma strip_blank (s : pystr) : forallb isspace s = true -> strip s = [].
Proof. intros H. unfold strip. rewrite (lstrip_blank s H). reflexivity. Qed.

(** White space around a text does not count. *)
Lemma strip_pad (pre s post : pystr) :
  forallb isspace pre = true -> forallb isspace post = true ->
  strip (pre ++ s ++ post) = strip s.
Proof.
  intros Hpre Hpost. unfold strip. rewrite (lstrip_spaces pre _ Hpre).
  destruct (lstrip s) as [|c l] eqn:E.
  - apply lstrip_nil_blank in E.
    rewrite (lstrip_blank (s ++ post))
      by (rewrite forallb_app, E, Hpost; reflexivity).
    reflexivity.
  - rewrite lstrip_app by congruence. rewrite E, rev_app_distr.
    rewrite (lstrip_spaces (rev post))
      by (rewrite forallb_rev; exact Hpost).
    reflexivity.
Qed.

Lemma strip_trimmed (s : pystr) : trimmed s = true -> strip s = s.
Proof.
  destruct s as [|c s]; [reflexivity|].
  unfold trimmed. rewrite andb_true_iff, !negb_true_iff. intros [Hc Hl].
  unfold strip. cbn [lstrip]. rewrite Hc.
  rewrite (app_removelast_last c (l := c :: s)) at 1 by discriminate.
  rewrite rev_app_distr. cbn [rev app lstrip]. rewrite Hl.
  change (last (c :: s) c :: rev (removelast (c :: s)))
    with (rev [last (c :: s) c] ++ rev (removelast (c :: s))).
  rewrite <- rev_app_distr, rev_involutive.
  symmetry. apply app_removelast_last. discriminate.
Qed.

Lemma lstrip_incl (s : pystr) (c : Z) : In c (lstrip s) -> In c s.
Proof.
  induction s as [|x s IH]; [tauto|].
  cbn [lstrip]. destruct (isspace x); [right; auto | tauto].
Qed.

Lemma strip_encodable (s : pystr) :
  encodable s = true -> encodable (strip s) = true.
Proof.
  unfold encodable, strip. rewrite !forallb_forall. intros H c Hc.
  apply H. apply in_rev in Hc. apply lstrip_incl in Hc.
  apply in_rev in Hc. apply lstrip_incl in Hc. exact Hc.
Qed.

Lemma or_default_encodable (s dflt : pystr) :
  encodable s = true -> encodable dflt = true ->
  encodable (or_default s dflt) = true.
Proof. destruct s; auto. Qed.

Lemma or_default_truthy (s dflt : pystr) :
  dflt <> [] -> truthy (VStr (or_default s dflt)) = true.
Proof. destruct s; [destruct dflt; [congruence | reflexivity] | reflexivity]. Qed.

(* ================================================================== *)
(** * Steps of a run at the terminal *)

Section ConsoleSteps.
Import Console.

Lemma seq_print {A} (line : pystr) (k : io A) (st : state) :
  encodable line = true ->
  (print line ;;; k) st = k (fst st, snd st ++ [Print line]).
Proof. intros H. unfold io_seq, io_bind, print. rewrite H. reflexivity. Qed.

Lemma seq_print_raises {A} (line : pystr) (k : io A) (st : state) :
  encodable line = false ->
  (print line ;;; k) st = (Raise UnicodeEncodeError, st).
Proof. intros H. unfold io_seq, io_bind, print. rewrite H. reflexivity. Qed.

Lemma print_ok (line : pystr) (st : state) :
  encodable line = true ->
  print line st = (Ok tt, (fst st, snd st ++ [Print line])).
Proof. intros H. unfold print. rewrite H. reflexivity. Qed.

Lemma bind_input {A} (text : pystr) (k : pystr -> io A)
      (l : pystr) (ls : list pystr) (tr : list event) :
  (x <-- input text ;;; k x) (l :: ls, tr) = k l (ls, tr ++ [Prompt text]).
Proof. reflexivity. Qed.

Lemma bind_input_eof {A} (text : pystr) (k : pystr -> io A)
      (tr : list event) :
  (x <-- input text ;;; k x) ([], tr)
  = (Raise OtherException, ([], tr ++ [Prompt text])).
Proof. reflexivity. Qed.

Lemma bind_lift {A B} (r : result A) (a : A) (k : A -> io B) (st : state) :
  r = Ok a -> (x <-- lift r ;;; k x) st = k a st.
Proof. intros ->. reflexivity. Qed.

Lemma browsed_app (a b : list event) : browsed (a ++ b) = browsed a ++ browsed b.
Proof. apply flat_map_app. Qed.

Lemma printed_app (a b : list event) : printed (a ++ b) = printed a ++ printed b.
Proof. apply flat_map_app. Qed.

End ConsoleSteps.

Lemma query_chars_encodable (q : pystr) :
  forallb is_query_char q = true -> encodable q = true.
Proof.
  unfold encodable. rewrite !forallb_forall. intros H c Hc.
  specialize (H c Hc). unfold is_query_char in H.
  apply orb_true_iff in H.
  assert (0 <= c < 128).
  { destruct H as [H|H].
    - apply always_safe_range in H. tauto.
    - cbn [existsb] in H. rewrite !orb_true_iff, !Z.eqb_eq in H. lia. }
  unfold valid_cp, is_surrogate. zbool; try reflexivity; lia.
Qed.

(* ================================================================== *)
(** * generate_payment_url.py: a run of [main] *)

(** The side condition of a [print]: the text can be encoded. *)
Ltac enc :=
  cbn [py_str]; rewrite ?encodable_app;
  repeat match goal with
    | H : encodable ?x = true |- _ => rewrite H
    | H : forall e, encodable (_ e) = true |- _ => rewrite H
    end;
  vm_compute; reflexivity.

(** One statement of a script at the terminal. *)
Ltac console_step :=
  cbv beta zeta; cbn [fst snd];
  first [ rewrite seq_print by enc
        | rewrite bind_input_eof
        | rewrite bind_input
        | erewrite bind_lift by eassumption ].

(** An event of a trace built by appending. *)
Ltac in_trace :=
  repeat first [ apply in_or_app; right; left; reflexivity
               | apply in_or_app; left ].

Lemma v1_params_items (now : Z) (amount product_name : pyval) (sig : pystr) :
  let params :=
    dict_set
      (dict_set (GeneratePaymentUrl.order_params now amount product_name)
         (lit "sign") (VStr sig))
      (lit "sign_type") (VStr (lit "MD5")) in
  dict_item params (lit "pid") = Ok (VStr GeneratePaymentUrl.PID)
  /\ dict_item params (lit "out_trade_no")
     = Ok (VStr (lit "TEST" ++ int_str now))
  /\ dict_item params (lit "name") = Ok product_name
  /\ dict_item params (lit "money") = Ok amount
  /\ dict_item params (lit "sign") = Ok (VStr sig).
Proof.
  cbv zeta. unfold dict_item.
  rewrite !(dict_get_set_other _ (lit "sign_type"))
    by (vm_compute; reflexivity).
  rewrite dict_get_set_same.
  rewrite !(dict_get_set_other _ (lit "sign")) by (vm_compute; reflexivity).
  unfold GeneratePaymentUrl.order_params. cbn [dict_get]. eval_keys.
  repeat split.
Qed.

Section V1Main.
Import Console.
Variable lower : pystr -> pystr.
Variable webbrowser_open : pystr -> result bool.
Variable exc_str : pyexc -> pystr.

Lemma v1_main_steps (now : Z) (a n t : pystr) (rest : list pystr)
      (url : pystr) (params : dict) (pid out_trade_no name money sign : pyval) :
  GeneratePaymentUrl.generate_payment_url now
    (Some (VStr (or_default (strip a) (lit "0.01"))))
    (Some (VStr (or_default (strip n) (lit "测试商品")))) = Ok (url, params) ->
  dict_item params (lit "pid") = Ok pid ->
  dict_item params (lit "out_trade_no") = Ok out_trade_no ->
  dict_item params (lit "name") = Ok name ->
  dict_item params (lit "money") = Ok money ->
  dict_item params (lit "sign") = Ok sign ->
  encodable (py_str pid) = true ->
  encodable (py_str out_trade_no) = true ->
  encodable (py_str name) = true ->
  encodable (py_str money) = true ->
  encodable (py_str sign) = true ->
  encodable url = true ->
  (forall e, encodable (exc_str e) = true) ->
  exists tr,
    GeneratePaymentUrlCli.main lower webbrowser_open exc_str now
      (a :: n :: t :: rest, []) = (Ok tt, (rest, tr))
    /\ In (Print url) tr
    /\ In (Print (lit "  支付金额:   ¥" ++ py_str money)) tr
    /\ In (Print (lit "  签名:       " ++ py_str sign)) tr
    /\ browsed tr
       = (if existsb (str_eqb (lower (strip t))) [ []; lit "y"; lit "yes" ]
          then [url] else []).
Proof.
  intros Hgen Hpid Hotn Hname Hmoney Hsign Epid Eotn Ename Emoney Esign Eurl
    Eexc.
  unfold GeneratePaymentUrlCli.main.
  destruct (existsb (str_eqb (lower (strip t))) [ []; lit "y"; lit "yes" ])
    eqn:Hopen;
    [destruct (webbrowser_open url) as [b|e] eqn:Hweb|];
    eexists; (split; [|split; [|split; [|split]]]).
  1, 6, 11: repeat console_step; cbv beta zeta; rewrite Hopen;
    unfold io_seq, io_bind, try_except, GeneratePaymentUrlCli.browse, io_ret;
    cbn [fst snd]; rewrite ?Hweb;
    repeat (rewrite print_ok by enc; cbn [fst snd]);
    reflexivity.
  all: try (rewrite !browsed_app; cbn [browsed flat_map app]; reflexivity).
  all: in_trace.
Qed.

End V1Main.

Section V1MainRun.
Import Console.
Variable lower : pystr -> pystr.
Variable webbrowser_open : pystr -> result bool.
Variable exc_str : pyexc -> pystr.

(** A run of [main] on three lines of input. *)
Lemma v1_main_run (now : Z) (a n t : pystr) (rest : list pystr) :
  encodable a = true -> encodable n = true ->
  (forall e, encodable (exc_str e) = true) ->
  exists url params sig tr,
    GeneratePaymentUrl.generate_payment_url now
      (Some (VStr (or_default (strip a) (lit "0.01"))))
      (Some (VStr (or_default (strip n) (lit "测试商品")))) = Ok (url, params)
    /\ dict_get params (lit "sign") = Some (VStr sig)
    /\ GeneratePaymentUrlV2.generate_sign params GeneratePaymentUrl.KEY
       = Ok sig
    /\ GeneratePaymentUrlCli.main lower webbrowser_open exc_str now
         (a :: n :: t :: rest, []) = (Ok tt, (rest, tr))
    /\ In (Print url) tr
    /\ In (Print (lit "  支付金额:   ¥" ++ or_default (strip a) (lit "0.01"))) tr
    /\ In (Print (lit "  签名:       " ++ sig)) tr
    /\ browsed tr
       = (if existsb (str_eqb (lower (strip t))) [ []; lit "y"; lit "yes" ]
          then [url] else []).
Proof.
  intros Ea En Eexc.
  set (amount := or_default (strip a) (lit "0.01")).
  set (product_name := or_default (strip n) (lit "测试商品")).
  assert (EA : encodable amount = true)
    by (apply or_default_encodable;
        [apply strip_encodable, Ea | vm_compute; reflexivity]).
  assert (EN : encodable product_name = true)
    by (apply or_default_encodable;
        [apply strip_encodable, En | vm_compute; reflexivity]).
  assert (TA : truthy (VStr amount) = true)
    by (apply or_default_truthy; vm_compute; discriminate).
  assert (TN : truthy (VStr product_name) = true)
    by (apply or_default_truthy; vm_compute; discriminate).
  destruct (v1_builder_returns now (VStr amount) (VStr product_name)
              TA TN EA EN) as [sig [q [Hgen [Hq [Hhex [Hsign Hv2]]]]]].
  cbv zeta in Hgen, Hq, Hsign, Hv2.
  destruct (v1_params_items now (VStr amount) (VStr product_name) sig)
    as [Ipid [Iotn [Iname [Imoney Isign]]]].
  assert (Eurl : encodable (GeneratePaymentUrl.BASE_URL ++ lit "?" ++ q)
                 = true).
  { rewrite !encodable_app.
    rewrite (query_chars_encodable q (urlencode_query_chars _ _ Hq)).
    vm_compute. reflexivity. }
  destruct (v1_main_steps lower webbrowser_open exc_str now a n t rest
              _ _ _ _ _ _ _ Hgen Ipid Iotn Iname Imoney Isign)
    as [tr [Hrun [Hurl [Hmoney [Hsig Hbrowsed]]]]];
    try assumption.
  - vm_compute. reflexivity.
  - cbn [py_str]. rewrite encodable_app, int_str_encodable.
    vm_compute. reflexivity.
  - apply lower_hex_encodable, Hhex.
  - eexists. eexists. exists sig, tr.
    split; [exact Hgen|]. split; [exact Hsign|]. split; [exact Hv2|].
    split; [exact Hrun|]. split; [exact Hurl|].
    split; [exact Hmoney|]. split; [exact Hsig | exact Hbrowsed].
Qed.

(** X14. Given three lines of input, [main] of generate_payment_url.py
    returns normally, whatever [str.lower] and [webbrowser.open] do, also
    when the browser raises.  It reads exactly the three lines, prints the
    URL that [generate_payment_url] returns for the typed amount and name,
    and hands a URL to the browser at most once: that URL, and exactly when
    the third answer, stripped and lower-cased, is empty, [y] or [yes]. *)
Theorem v1_main_completes (now : Z) (a n t : pystr) (rest : list pystr) :
  encodable a = true -> encodable n = true ->
  (forall e, encodable (exc_str e) = true) ->
  exists url params tr,
    GeneratePaymentUrl.generate_payment_url now
      (Some (VStr (or_default (strip a) (lit "0.01"))))
      (Some (VStr (or_default (strip n) (lit "测试商品")))) = Ok (url, params)
    /\ GeneratePaymentUrlCli.main lower webbrowser_open exc_str now
         (a :: n :: t :: rest, []) = (Ok tt, (rest, tr))
    /\ In url (printed tr)
    /\ browsed tr
       = (if existsb (str_eqb (lower (strip t))) [ []; lit "y"; lit "yes" ]
          then [url] else []).
Proof.
  intros Ea En Eexc.
  destruct (v1_main_run now a n t rest Ea En Eexc)
    as [url [params [sig [tr [Hgen [_ [_ [Hrun [Hurl [_ [_ Hb]]]]]]]]]]].
  exists url, params, tr.
  split; [exact Hgen|]. split; [exact Hrun|]. split; [|exact Hb].
  unfold printed. apply in_flat_map. exists (Print url).
  split; [exact Hurl | left; reflexivity].
Qed.

(** X15. What [main] of generate_payment_url.py signs is never empty: a
    blank answer is replaced by the default before the builder is called.
    So the signature that [main] prints, which is the [sign] of the params
    behind the printed URL, is the one the v2 signer computes from these
    params and the key, although the v1 signer has no filter for empty
    values. *)
Theorem v1_main_signature_passes_v2_check
        (now : Z) (a n t : pystr) (rest : list pystr) :
  encodable a = true -> encodable n = true ->
  (forall e, encodable (exc_str e) = true) ->
  exists url params sig tr,
    GeneratePaymentUrlCli.main lower webbrowser_open exc_str now
      (a :: n :: t :: rest, []) = (Ok tt, (rest, tr))
    /\ GeneratePaymentUrl.generate_payment_url now
         (Some (VStr (or_default (strip a) (lit "0.01"))))
         (Some (VStr (or_default (strip n) (lit "测试商品"))))
       = Ok (url, params)
    /\ or_default (strip a) (lit "0.01") <> []
    /\ or_default (strip n) (lit "测试商品") <> []
    /\ In (lit "  签名:       " ++ sig) (printed tr)
    /\ dict_get params (lit "sign") = Some (VStr sig)
    /\ GeneratePaymentUrlV2.generate_sign params GeneratePaymentUrl.KEY
       = Ok sig.
Proof.
  intros Ea En Eexc.
  destruct (v1_main_run now a n t rest Ea En Eexc)
    as [url [params [sig [tr [Hgen [Hs [Hv [Hrun [_ [_ [Hsig _]]]]]]]]]]].
  exists url, params, sig, tr.
  split; [exact Hrun|]. split; [exact Hgen|].
  split; [destruct (strip a); [vm_compute|]; discriminate|].
  split; [destruct (strip n); [vm_compute|]; discriminate|].
  split; [|split; [exact Hs | exact Hv]].
  unfold printed. apply in_flat_map. exists (Print (lit "  签名:       " ++ sig)).
  split; [exact Hsig | left; reflexivity].
Qed.

(** X16. [main] of generate_payment_url.py reads the amount trimmed:
    white space around the typed text does not count, and an answer of
    white space only is the default [0.01].  The amount line it prints
    shows the trimmed text. *)
Theorem v1_main_trims_the_amount
        (now : Z) (pre x post n t : pystr) (rest : list pystr) :
  forallb isspace pre = true -> forallb isspace post = true ->
  trimmed x = true ->
  encodable x = true -> encodable n = true ->
  (forall e, encodable (exc_str e) = true) ->
  exists url params tr,
    GeneratePaymentUrlCli.main lower webbrowser_open exc_str now
      ((pre ++ x ++ post) :: n :: t :: rest, []) = (Ok tt, (rest, tr))
    /\ GeneratePaymentUrl.generate_payment_url now
         (Some (VStr (or_default x (lit "0.01"))))
         (Some (VStr (or_default (strip n) (lit "测试商品"))))
       = Ok (url, params)
    /\ In url (printed tr)
    /\ In (lit "  支付金额:   ¥" ++ or_default x (lit "0.01")) (printed tr).
Proof.
  intros Hpre Hpost Hx Ex En Eexc.
  assert (Ea : encodable (pre ++ x ++ post) = true).
  { rewrite !encodable_app, Ex.
    assert (Hs : forall s, forallb isspace s = true -> encodable s = true).
    { intros s. unfold encodable. rewrite !forallb_forall. intros H c Hc.
      specialize (H c Hc). unfold isspace in H. unfold valid_cp, is_surrogate.
      rewrite !orb_true_iff, !andb_true_iff, !Z.leb_le, !Z.eqb_eq in H.
      zbool; try reflexivity; lia. }
    rewrite (Hs pre Hpre), (Hs post Hpost). reflexivity. }
  destruct (v1_main_run now (pre ++ x ++ post) n t rest Ea En Eexc)
    as [url [params [sig [tr [Hgen [_ [_ [Hrun [Hurl [Hmoney _]]]]]]]]]].
  rewrite (strip_pad pre x post Hpre Hpost), (strip_trimmed x Hx)
    in Hgen, Hmoney.
  exists url, params, tr.
  split; [exact Hrun|]. split; [exact Hgen|].
  split; unfold printed; apply in_flat_map;
    [exists (Print url) | eexists (Print _)];
    (split; [eassumption | left; reflexivity]).
Qed.

(** X17. With no line to read, [main] of generate_payment_url.py stops
    at its first prompt with the end-of-input error; with one line, at the
    second prompt.  The prompt is the last thing on the terminal, and no
    browser is opened. *)
Theorem v1_main_stops_at_end_of_input (now : Z) (a : pystr) :
  (exists tr,
     GeneratePaymentUrlCli.main lower webbrowser_open exc_str now ([], [])
     = (Raise OtherException, ([], tr))
     /\ last tr (Print []) = Prompt (lit "支付金额 [0.01]: ")
     /\ browsed tr = [])
  /\ (exists tr,
        GeneratePaymentUrlCli.main lower webbrowser_open exc_str now ([a], [])
        = (Raise OtherException, ([], tr))
        /\ last tr (Print []) = Prompt (lit "商品名称 [测试商品]: ")
        /\ browsed tr = []).
Proof.
  split; eexists; (split; [|split]).
  1, 4: unfold GeneratePaymentUrlCli.main; repeat console_step; reflexivity.
  all: try (rewrite !browsed_app; cbn [browsed flat_map app]; reflexivity).
  all: apply last_last.
Qed.

End V1MainRun.

(** The answers [ 5 ], an empty line and [Y], with a browser that cannot
    be opened. *)
Lemma v1_main_completes_witness :
  encodable (lit " 5 ") = true
  /\ exists url params tr,
       GeneratePaymentUrl.generate_payment_url 1700000000
         (Some (VStr (lit "5"))) (Some (VStr (lit "测试商品")))
       = Ok (url, params)
       /\ GeneratePaymentUrlCli.main Oracles.ascii_lower Oracles.no_browser
            Oracles.exc_text 1700000000 ([lit " 5 "; []; lit "Y"], [])
          = (Ok tt, ([], tr))
       /\ Console.browsed tr = [url].
Proof.
  assert (H1 : encodable (lit " 5 ") = true) by (vm_compute; reflexivity).
  assert (H2 : encodable [] = true) by reflexivity.
  assert (H3 : forall e, encodable (Oracles.exc_text e) = true)
    by (intros e; vm_compute; reflexivity).
  split; [exact H1|].
  destruct (v1_main_completes Oracles.ascii_lower Oracles.no_browser
              Oracles.exc_text 1700000000 (lit " 5 ") [] (lit "Y") [] H1 H2 H3)
    as [url [params [tr [Hgen [Hrun [_ Hb]]]]]].
  exists url, params, tr.
  split; [exact Hgen|]. split; [exact Hrun | exact Hb].
Defined.

Lemma v1_main_signature_passes_v2_check_witness :
  encodable (lit " 5 ") = true
  /\ exists params sig tr,
       GeneratePaymentUrlCli.main Oracles.ascii_lower Oracles.no_browser
         Oracles.exc_text 1700000000 ([lit " 5 "; []; lit "Y"], [])
       = (Ok tt, ([], tr))
       /\ dict_get params (lit "sign") = Some (VStr sig)
       /\ GeneratePaymentUrlV2.generate_sign params GeneratePaymentUrl.KEY
          = Ok sig.
Proof.
  assert (H1 : encodable (lit " 5 ") = true) by (vm_compute; reflexivity).
  assert (H2 : encodable [] = true) by reflexivity.
  assert (H3 : forall e, encodable (Oracles.exc_text e) = true)
    by (intros e; vm_compute; reflexivity).
  split; [exact H1|].
  destruct (v1_main_signature_passes_v2_check Oracles.ascii_lower
              Oracles.no_browser Oracles.exc_text 1700000000
              (lit " 5 ") [] (lit "Y") [] H1 H2 H3)
    as [url [params [sig [tr [Hrun [_ [_ [_ [_ [Hs Hv]]]]]]]]]].
  exists params, sig, tr.
  split; [exact Hrun|]. split; [exact Hs | exact Hv].
Defined.

Lemma v1_main_trims_the_amount_witness :
  forallb isspace (lit " ") = true
  /\ trimmed (lit "5") = true
  /\ exists tr,
       GeneratePaymentUrlCli.main Oracles.ascii_lower Oracles.no_browser
         Oracles.exc_text 1700000000
         ([lit " " ++ lit "5" ++ lit " "; []; lit "Y"], [])
       = (Ok tt, ([], tr))
       /\ In (lit "  支付金额:   ¥" ++ or_default (lit "5") (lit "0.01"))
            (Console.printed tr).
Proof.
  assert (H0 : forallb isspace (lit " ") = true) by (vm_compute; reflexivity).
  assert (H1 : trimmed (lit "5") = true) by (vm_compute; reflexivity).
  assert (H2 : encodable (lit "5") = true) by (vm_compute; reflexivity).
  assert (H3 : encodable [] = true) by reflexivity.
  assert (H4 : forall e, encodable (Oracles.exc_text e) = true)
    by (intros e; vm_compute; reflexivity).
  split; [exact H0|]. split; [exact H1|].
  destruct (v1_main_trims_the_amount Oracles.ascii_lower Oracles.no_browser
              Oracles.exc_text 1700000000 (lit " ") (lit "5") (lit " ")
              [] (lit "Y") [] H0 H0 H1 H2 H3 H4)
    as [url [params [tr [Hrun [_ [_ Hm]]]]]].
  exists tr. split; [exact Hrun | exact Hm].
Defined.

(* ================================================================== *)
(** * generate_payment_url_v2.py: what is printed, and a run of [main] *)

Section V2Printing.
Import Console.
Variable repr_str : pystr -> pystr.
Hypothesis repr_encodable :
  forall s, encodable s = true -> encodable (repr_str s) = true.

Lemma bind_run {A B} (m : io A) (k : A -> io B) (st st' : state) (a : A) :
  m st = (Ok a, st') -> (x <-- m ;;; k x) st = k a st'.
Proof. intros H. unfold io_bind. rewrite H. reflexivity. Qed.

Lemma seq_run {A B} (m : io A) (k : io B) (st st' : state) (a : A) :
  m st = (Ok a, st') -> (m ;;; k) st = k st'.
Proof. intros H. unfold io_seq, io_bind. rewrite H. reflexivity. Qed.

Lemma py_repr_encodable (v : pyval) :
  encodable (py_str v) = true ->
  encodable (GeneratePaymentUrlV2Cli.py_repr repr_str v) = true.
Proof.
  destruct v; try (intros H; exact H). apply repr_encodable.
Qed.

Lemma dict_repr_encodable (d : dict) :
  Forall entry_ok d ->
  encodable (GeneratePaymentUrlV2Cli.dict_repr repr_str d) = true.
Proof.
  intros Hd. unfold GeneratePaymentUrlV2Cli.dict_repr.
  rewrite !encodable_app.
  rewrite join_encodable; [reflexivity | reflexivity |].
  apply Forall_map. revert Hd. apply Forall_impl. intros kv [Hk Hv].
  rewrite !encodable_app, (repr_encodable _ Hk), (py_repr_encodable _ Hv).
  reflexivity.
Qed.

Lemma list_repr_encodable (l : list pystr) :
  Forall (fun k => encodable k = true) l ->
  encodable (GeneratePaymentUrlV2Cli.list_repr repr_str l) = true.
Proof.
  intros Hl. unfold GeneratePaymentUrlV2Cli.list_repr.
  rewrite !encodable_app.
  rewrite join_encodable; [reflexivity | reflexivity |].
  apply Forall_map. revert Hl. apply Forall_impl. exact repr_encodable.
Qed.

(** The signer, printing: it returns what [generate_sign] returns, and
    prints the canonical string, then the canonical string followed by
    the key. *)
Lemma v2cli_generate_sign_run (params : dict) (key : pystr) :
  Forall entry_ok params -> encodable key = true ->
  exists s sig outs,
    GeneratePaymentUrlV2.sign_str params = Ok s
    /\ GeneratePaymentUrlV2.generate_sign params key = Ok sig
    /\ forallb is_lower_hex sig = true
    /\ (forall st,
          GeneratePaymentUrlV2Cli.generate_sign repr_str params key st
          = (Ok sig, (fst st, snd st ++ outs)))
    /\ printed outs
       = [ 10 :: lit "[签名计算过程]";
           lit "1. 参与签名的参数: "
           ++ GeneratePaymentUrlV2Cli.dict_repr repr_str
                (GeneratePaymentUrlV2.filtered params);
           lit "2. 排序后的键: "
           ++ GeneratePaymentUrlV2Cli.list_repr repr_str
                (sorted str_ltb
                   (map fst (GeneratePaymentUrlV2.filtered params)));
           lit "3. 签名字符串: " ++ s;
           lit "4. 加上密钥: " ++ s ++ key;
           lit "5. 最终签名: " ++ sig ]
    /\ browsed outs = [].
Proof.
  intros Hok Hkey.
  destruct (v2_sign_str_total params Hok) as [s [Hs Es]].
  destruct (v2_generate_sign_total params key Hok Hkey)
    as [sig [Hsig [_ Hhex]]].
  assert (Hmd5 : GeneratePaymentUrlV2.md5 (s ++ key) = Ok sig).
  { unfold GeneratePaymentUrlV2.generate_sign in Hsig.
    rewrite Hs in Hsig. exact Hsig. }
  pose proof (dict_repr_encodable _ (filtered_entries_ok params Hok)) as E1.
  assert (E2 : encodable
                 (GeneratePaymentUrlV2Cli.list_repr repr_str
                    (sorted str_ltb
                       (map fst (GeneratePaymentUrlV2.filtered params))))
               = true).
  { apply list_repr_encodable, sorted_Forall, Forall_map.
    generalize (filtered_entries_ok params Hok). apply Forall_impl.
    intros kv [Hk _]. exact Hk. }
  pose proof (lower_hex_encodable sig Hhex) as E3.
  exists s, sig. eexists.
  split; [exact Hs|]. split; [exact Hsig|]. split; [exact Hhex|].
  split; [|split].
  - intros st. unfold GeneratePaymentUrlV2Cli.generate_sign.
    repeat console_step. unfold io_ret. cbn [fst snd].
    rewrite <- !app_assoc. reflexivity.
  - reflexivity.
  - reflexivity.
Qed.

(** The builder, printing: it returns what [generate_payment_url]
    returns. *)
Lemma v2cli_builder_run
      (now : Z) (base_url : pystr) (pid : pyval) (merchant_key : pystr)
      (kwargs : dict) :
  encodable (py_str pid) = true ->
  encodable merchant_key = true ->
  values_ok kwargs ->
  exists url params s outs,
    GeneratePaymentUrlV2.generate_payment_url now base_url pid merchant_key
      kwargs = Ok (url, params)
    /\ GeneratePaymentUrlV2.sign_str (v2_unsigned now pid kwargs) = Ok s
    /\ (exists q, url = base_url ++ lit "/submit?" ++ q
                  /\ forallb is_query_char q = true)
    /\ Forall entry_ok params
    /\ (forall st,
          GeneratePaymentUrlV2Cli.generate_payment_url repr_str now base_url
            pid merchant_key kwargs st
          = (Ok (url, params), (fst st, snd st ++ outs)))
    /\ In (lit "3. 签名字符串: " ++ s) (printed outs)
    /\ In (lit "4. 加上密钥: " ++ s ++ merchant_key) (printed outs)
    /\ browsed outs = [].
Proof.
  intros Hpid Hkey Hkw.
  pose proof (v2_unsigned_ok now pid kwargs Hpid Hkw) as Hok.
  destruct (v2_builder_returns now base_url pid merchant_key kwargs
              Hpid Hkey Hkw) as [sig [q [Hsig [Hq [Hgen _]]]]].
  destruct (v2cli_generate_sign_run (v2_unsigned now pid kwargs) merchant_key
              Hok Hkey)
    as [s [sig' [outs [Hs [Hsig' [Hhex [Hrun [Hprinted Hbrowsed]]]]]]]].
  assert (sig' = sig) by congruence. subst sig'.
  eexists. eexists. exists s, outs.
  split; [exact Hgen|]. split; [exact Hs|].
  split; [exists q; split;
          [reflexivity | exact (urlencode_query_chars _ _ Hq)]|].
  split.
  { apply dict_set_entries_ok; [exact Hok|].
    split; [vm_compute; reflexivity | apply lower_hex_encodable, Hhex]. }
  split; [|split; [|split; [|exact Hbrowsed]]].
  - intros st. unfold GeneratePaymentUrlV2Cli.generate_payment_url.
    cbv zeta.
    change (match dict_get kwargs (lit "sitename") with
            | Some v =>
                if truthy v
                then dict_set
                       (GeneratePaymentUrlV2.default_params now pid kwargs)
                       (lit "sitename") v
                else GeneratePaymentUrlV2.default_params now pid kwargs
            | None => GeneratePaymentUrlV2.default_params now pid kwargs
            end) with (v2_unsigned now pid kwargs).
    rewrite (bind_run _ _ _ _ _ (Hrun st)).
    rewrite (bind_lift _ _ _ _ Hq). reflexivity.
  - rewrite Hprinted. cbn [In]. tauto.
  - rewrite Hprinted. cbn [In]. tauto.
Qed.

Lemma print_items_run (items : dict) (st : state) :
  Forall entry_ok items ->
  GeneratePaymentUrlV2Cli.print_items items st
  = (Ok tt,
     (fst st,
      snd st
      ++ map (fun kv => Print (lit "  " ++ fst kv ++ lit ": "
                                ++ py_str (snd kv))) items)).
Proof.
  intros H. revert st. induction H as [|[k v] items [Hk Hv] Hitems IH];
    intros st.
  - cbn [GeneratePaymentUrlV2Cli.print_items map]. unfold io_ret.
    rewrite app_nil_r. destruct st; reflexivity.
  - cbn [GeneratePaymentUrlV2Cli.print_items fst snd] in *.
    rewrite seq_print by enc. rewrite IH. cbn [fst snd map].
    rewrite <- app_assoc. reflexivity.
Qed.

End V2Printing.

(** The canonical string of the call that [main] makes. *)
Lemma v2_main_canonical (now : Z) (pid money name out_trade_no : pystr) :
  pid <> [] -> money <> [] -> name <> [] -> out_trade_no <> [] ->
  GeneratePaymentUrlV2.sign_str
    (v2_unsigned now (VStr pid)
       [ (lit "money", VStr money); (lit "name", VStr name);
         (lit "out_trade_no", VStr out_trade_no) ])
  = Ok (lit "money=" ++ money ++ lit "&name=" ++ name
        ++ lit "&notify_url=http://example.com/notify&out_trade_no="
        ++ out_trade_no ++ lit "&pid=" ++ pid
        ++ lit "&return_url=http://example.com/return&type=alipay").
Proof.
  intros Hp Hm Hn Ho.
  destruct pid as [|c1 pid]; [congruence|].
  destruct money as [|c2 money]; [congruence|].
  destruct name as [|c3 name]; [congruence|].
  destruct out_trade_no as [|c4 otn]; [congruence|].
  vm_compute. reflexivity.
Qed.

Lemma in_printed (x : pystr) (tr : list Console.event) :
  In (Console.Print x) tr -> In x (Console.printed tr).
Proof.
  intros H. unfold Console.printed. apply in_flat_map.
  exists (Console.Print x). split; [exact H | left; reflexivity].
Qed.

Lemma browsed_prints {A} (f : A -> pystr) (l : list A) :
  Console.browsed (map (fun x => Console.Print (f x)) l) = [].
Proof. induction l as [|x l IH]; [reflexivity | exact IH]. Qed.

Section V2Main.
Import Console.
Variable repr_str : pystr -> pystr.
Hypothesis repr_encodable :
  forall s, encodable s = true -> encodable (repr_str s) = true.

Lemma v2_main_steps (now now' : Z) (p k m n o : pystr) (rest : list pystr)
      (url : pystr) (params : dict) (outs : list event) :
  (forall st,
     GeneratePaymentUrlV2Cli.generate_payment_url repr_str now'
       (lit "http://localhost:8080")
       (VStr (or_default (strip p) (lit "1001001276912812")))
       (or_default (strip k) (lit "f872e1c662d41cf218b5dfa8328ae455"))
       [ (lit "money", VStr (or_default (strip m) (lit "0.01")));
         (lit "name", VStr (or_default (strip n) (lit "测试商品")));
         (lit "out_trade_no",
           VStr (or_default (strip o) (lit "TEST" ++ int_str now))) ] st
     = (Ok (url, params), (fst st, snd st ++ outs))) ->
  encodable url = true ->
  Forall entry_ok params ->
  exists tr,
    GeneratePaymentUrlV2Cli.main repr_str now now'
      (p :: k :: m :: n :: o :: rest, []) = (Ok tt, (rest, tr))
    /\ In (Print url) tr
    /\ In (Print (lit "curl " ++ [34] ++ url ++ [34])) tr
    /\ (forall ev, In ev outs -> In ev tr)
    /\ (forall kv, In kv params ->
          In (Print (lit "  " ++ fst kv ++ lit ": " ++ py_str (snd kv))) tr)
    /\ browsed tr = browsed outs.
Proof.
  intros Hb Eurl Hok.
  pose proof (sorted_Forall item_ltb entry_ok params Hok) as Hsorted.
  eexists. split; [|split; [|split; [|split; [|split]]]].
  - unfold GeneratePaymentUrlV2Cli.main.
    do 10 console_step. cbv beta zeta.
    rewrite (bind_run _ _ _ _ _ (Hb _)).
    do 6 console_step. cbv beta zeta; cbn [fst snd].
    rewrite (seq_run _ _ _ _ _ (print_items_run _ _ Hsorted)).
    do 7 console_step. cbv beta zeta; cbn [fst snd].
    rewrite print_ok by enc. cbn [fst snd]. reflexivity.
  - in_trace.
  - in_trace.
  - intros ev Hev.
    repeat first [ apply in_or_app; right; exact Hev | apply in_or_app; left ].
  - intros kv Hkv.
    repeat first
      [ apply in_or_app; right;
        apply (in_map (fun kv => Print (lit "  " ++ fst kv ++ lit ": "
                                          ++ py_str (snd kv))));
        apply in_sorted; exact Hkv
      | apply in_or_app; left ].
  - rewrite !browsed_app, browsed_prints. cbn [browsed flat_map app].
    rewrite !app_nil_r. reflexivity.
Qed.

(** A run of [main] on five lines of input. *)
Lemma v2_main_run (now now' : Z) (p k m n o : pystr) (rest : list pystr) :
  encodable p = true -> encodable k = true -> encodable m = true ->
  encodable n = true -> encodable o = true ->
  exists url params s tr,
    GeneratePaymentUrlV2.generate_payment_url now'
      (lit "http://localhost:8080")
      (VStr (or_default (strip p) (lit "1001001276912812")))
      (or_default (strip k) (lit "f872e1c662d41cf218b5dfa8328ae455"))
      [ (lit "money", VStr (or_default (strip m) (lit "0.01")));
        (lit "name", VStr (or_default (strip n) (lit "测试商品")));
        (lit "out_trade_no",
          VStr (or_default (strip o) (lit "TEST" ++ int_str now))) ]
    = Ok (url, params)
    /\ s = lit "money=" ++ or_default (strip m) (lit "0.01")
           ++ lit "&name=" ++ or_default (strip n) (lit "测试商品")
           ++ lit "&notify_url=http://example.com/notify&out_trade_no="
           ++ or_default (strip o) (lit "TEST" ++ int_str now)
           ++ lit "&pid=" ++ or_default (strip p) (lit "1001001276912812")
           ++ lit "&return_url=http://example.com/return&type=alipay"
    /\ GeneratePaymentUrlV2Cli.main repr_str now now'
         (p :: k :: m :: n :: o :: rest, []) = (Ok tt, (rest, tr))
    /\ In url (printed tr)
    /\ In (lit "curl " ++ [34] ++ url ++ [34]) (printed tr)
    /\ (forall kv, In kv params ->
          In (lit "  " ++ fst kv ++ lit ": " ++ py_str (snd kv)) (printed tr))
    /\ In (lit "3. 签名字符串: " ++ s) (printed tr)
    /\ In (lit "4. 加上密钥: " ++ s
           ++ or_default (strip k) (lit "f872e1c662d41cf218b5dfa8328ae455"))
         (printed tr)
    /\ browsed tr = [].
Proof.
  intros Ep Ek Em En Eo.
  set (PID := or_default (strip p) (lit "1001001276912812")).
  set (KEY := or_default (strip k) (lit "f872e1c662d41cf218b5dfa8328ae455")).
  set (money := or_default (strip m) (lit "0.01")).
  set (name := or_default (strip n) (lit "测试商品")).
  set (otn := or_default (strip o) (lit "TEST" ++ int_str now)).
  assert (EP : encodable PID = true)
    by (apply or_default_encodable;
        [apply strip_encodable, Ep | vm_compute; reflexivity]).
  assert (EK : encodable KEY = true)
    by (apply or_default_encodable;
        [apply strip_encodable, Ek | vm_compute; reflexivity]).
  assert (EM : encodable money = true)
    by (apply or_default_encodable;
        [apply strip_encodable, Em | vm_compute; reflexivity]).
  assert (EN : encodable name = true)
    by (apply or_default_encodable;
        [apply strip_encodable, En | vm_compute; reflexivity]).
  assert (EO : encodable otn = true).
  { apply or_default_encodable; [apply strip_encodable, Eo|].
    rewrite encodable_app, int_str_encodable. vm_compute. reflexivity. }
  assert (NP : PID <> [])
    by (unfold PID; destruct (strip p); [vm_compute|]; discriminate).
  assert (NM : money <> [])
    by (unfold money; destruct (strip m); [vm_compute|]; discriminate).
  assert (NN : name <> [])
    by (unfold name; destruct (strip n); [vm_compute|]; discriminate).
  assert (NO : otn <> []).
  { unfold otn. destruct (strip o); [|discriminate].
    cbn [or_default].
    replace (lit "TEST") with [84; 69; 83; 84] by (vm_compute; reflexivity).
    discriminate. }
  assert (Hkw : values_ok [ (lit "money", VStr money); (lit "name", VStr name);
                            (lit "out_trade_no", VStr otn) ])
    by (repeat constructor; assumption).
  destruct (v2cli_builder_run repr_str repr_encodable now'
              (lit "http://localhost:8080") (VStr PID) KEY _ EP EK Hkw)
    as [url [params [s [outs [Hgen [Hs [[q [Hurl Hq]] [Hok [Hrun
         [H3 [H4 Hbrowsed]]]]]]]]]]].
  rewrite (v2_main_canonical now' PID money name otn NP NM NN NO) in Hs.
  injection Hs as Hs.
  assert (Eurl : encodable url = true).
  { rewrite Hurl, !encodable_app, (query_chars_encodable q Hq).
    vm_compute. reflexivity. }
  destruct (v2_main_steps now now' p k m n o rest url params outs
              Hrun Eurl Hok)
    as [tr [Hmain [Hu [Hcurl [Houts [Hitems Hb]]]]]].
  assert (Hsub : forall x, In x (printed outs) -> In x (printed tr)).
  { intros x Hx. unfold printed in Hx. apply in_flat_map in Hx.
    destruct Hx as [ev [Hev Hx]].
    destruct ev; try contradiction. destruct Hx as [<-|[]].
    apply in_printed, Houts, Hev. }
  exists url, params, s, tr.
  split; [exact Hgen|]. split; [symmetry; exact Hs|].
  split; [exact Hmain|].
  split; [apply in_printed, Hu|].
  split; [apply in_printed, Hcurl|].
  split; [intros kv Hkv; apply in_printed, Hitems, Hkv|].
  split; [apply Hsub, H3|].
  split; [apply Hsub, H4|].
  rewrite Hb. exact Hbrowsed.
Qed.

(** X18. Given five lines of input, [main] of generate_payment_url_v2.py
    returns normally and reads exactly these lines.  It prints the URL that
    [generate_payment_url] returns for the typed merchant, key, amount, name
    and order number (each trimmed, the default when blank), the same URL
    in a [curl] command, and one line [key: value] for every entry of the
    returned params. *)
Theorem v2_main_completes
        (now now' : Z) (p k m n o : pystr) (rest : list pystr) :
  encodable p = true -> encodable k = true -> encodable m = true ->
  encodable n = true -> encodable o = true ->
  exists url params tr,
    GeneratePaymentUrlV2.generate_payment_url now'
      (lit "http://localhost:8080")
      (VStr (or_default (strip p) (lit "1001001276912812")))
      (or_default (strip k) (lit "f872e1c662d41cf218b5dfa8328ae455"))
      [ (lit "money", VStr (or_default (strip m) (lit "0.01")));
        (lit "name", VStr (or_default (strip n) (lit "测试商品")));
        (lit "out_trade_no",
          VStr (or_default (strip o) (lit "TEST" ++ int_str now))) ]
    = Ok (url, params)
    /\ GeneratePaymentUrlV2Cli.main repr_str now now'
         (p :: k :: m :: n :: o :: rest, []) = (Ok tt, (rest, tr))
    /\ In url (printed tr)
    /\ In (lit "curl " ++ [34] ++ url ++ [34]) (printed tr)
    /\ (forall kv, In kv params ->
          In (lit "  " ++ fst kv ++ lit ": " ++ py_str (snd kv)) (printed tr)).
Proof.
  intros Ep Ek Em En Eo.
  destruct (v2_main_run now now' p k m n o rest Ep Ek Em En Eo)
    as [url [params [s [tr [Hgen [_ [Hmain [Hu [Hc [Hi _]]]]]]]]]].
  exists url, params, tr.
  split; [exact Hgen|]. split; [exact Hmain|].
  split; [exact Hu|]. split; [exact Hc | exact Hi].
Qed.

(** X19. What [main] of generate_payment_url_v2.py signs has all seven
    fields: a blank answer becomes the default before the builder is
    called, so the filter for empty values drops nothing.  The signer
    prints this canonical string, and then prints it followed by the
    merchant key: the key that was typed is shown on the terminal as it
    is. *)
Theorem v2_main_prints_what_it_signs
        (now now' : Z) (p k m n o : pystr) (rest : list pystr) :
  encodable p = true -> encodable k = true -> encodable m = true ->
  encodable n = true -> encodable o = true ->
  let s := lit "money=" ++ or_default (strip m) (lit "0.01")
           ++ lit "&name=" ++ or_default (strip n) (lit "测试商品")
           ++ lit "&notify_url=http://example.com/notify&out_trade_no="
           ++ or_default (strip o) (lit "TEST" ++ int_str now)
           ++ lit "&pid=" ++ or_default (strip p) (lit "1001001276912812")
           ++ lit "&return_url=http://example.com/return&type=alipay" in
  exists tr,
    GeneratePaymentUrlV2Cli.main repr_str now now'
      (p :: k :: m :: n :: o :: rest, []) = (Ok tt, (rest, tr))
    /\ In (lit "3. 签名字符串: " ++ s) (printed tr)
    /\ In (lit "4. 加上密钥: " ++ s
           ++ or_default (strip k) (lit "f872e1c662d41cf218b5dfa8328ae455"))
         (printed tr).
Proof.
  intros Ep Ek Em En Eo s.
  destruct (v2_main_run now now' p k m n o rest Ep Ek Em En Eo)
    as [url [params [s' [tr [_ [Hs [Hmain [_ [_ [_ [H3 [H4 _]]]]]]]]]]]].
  subst s'. exists tr.
  split; [exact Hmain|]. split; [exact H3 | exact H4].
Qed.

End V2Main.

Lemma quoted_encodable (s : pystr) :
  encodable s = true -> encodable (Oracles.quoted s) = true.
Proof.
  intros H. unfold Oracles.quoted. rewrite !encodable_app, H. reflexivity.
Qed.

(** Five blank answers: the defaults are used. *)
Lemma v2_main_completes_witness :
  encodable [] = true
  /\ exists url params tr,
       GeneratePaymentUrlV2.generate_payment_url 1700000000
         (lit "http://localhost:8080") (VStr (lit "1001001276912812"))
         (lit "f872e1c662d41cf218b5dfa8328ae455")
         [ (lit "money", VStr (lit "0.01"));
           (lit "name", VStr (lit "测试商品"));
           (lit "out_trade_no", VStr (lit "TEST1700000000")) ]
       = Ok (url, params)
       /\ GeneratePaymentUrlV2Cli.main Oracles.quoted 1700000000 1700000000
            ([ []; []; []; []; [] ], []) = (Ok tt, ([], tr))
       /\ In url (Console.printed tr).
Proof.
  assert (H : encodable [] = true) by reflexivity.
  split; [exact H|].
  destruct (v2_main_completes Oracles.quoted quoted_encodable 1700000000
              1700000000 [] [] [] [] [] [] H H H H H)
    as [url [params [tr [Hgen [Hmain [Hu _]]]]]].
  exists url, params, tr.
  split; [exact Hgen|]. split; [exact Hmain | exact Hu].
Defined.

(** A key that is typed is printed. *)
Lemma v2_main_prints_what_it_signs_witness :
  encodable (lit "secret") = true
  /\ exists tr,
       GeneratePaymentUrlV2Cli.main Oracles.quoted 1700000000 1700000000
         ([ []; lit "secret"; lit "5"; []; [] ], []) = (Ok tt, ([], tr))
       /\ In (lit "4. 加上密钥: money=5&name=测试商品&notify_url=http://example.com/notify&out_trade_no=TEST1700000000&pid=1001001276912812&return_url=http://example.com/return&type=alipaysecret")
            (Console.printed tr).
Proof.
  assert (H : encodable [] = true) by reflexivity.
  assert (Hk : encodable (lit "secret") = true) by (vm_compute; reflexivity).
  assert (Hm : encodable (lit "5") = true) by (vm_compute; reflexivity).
  split; [exact Hk|].
  destruct (v2_main_prints_what_it_signs Oracles.quoted quoted_encodable
              1700000000 1700000000 [] (lit "secret") (lit "5") [] [] []
              H Hk Hm H H)
    as [tr [Hmain [_ H4]]].
  exists tr. split; [exact Hmain | exact H4].
Defined.

(* ================================================================== *)
(** * The two builders on the same order *)

Lemma dict_set_absent (d : dict) (k : pystr) (v : pyval) :
  dict_get d k = None -> dict_set d k v = d ++ [(k, v)].
Proof.
  induction d as [|[k0 v0] d IH]; [reflexivity|].
  cbn [dict_get dict_set app]. destruct (str_eqb k k0); [discriminate|].
  intros H. rewrite (IH H). reflexivity.
Qed.

Lemma v2_unsigned_order (now : Z) (pid amount : pystr) (product_name : pyval) :
  v2_unsigned now (VStr pid)
    [ (lit "money", VStr amount); (lit "name", product_name) ]
  = [ (lit "pid", VStr pid);
      (lit "type", VStr (lit "alipay"));
      (lit "out_trade_no", VStr (lit "TEST" ++ int_str now));
      (lit "notify_url", VStr (lit "http://example.com/notify"));
      (lit "return_url", VStr (lit "http://example.com/return"));
      (lit "name", product_name);
      (lit "money", VStr amount) ]
    ++ [ (lit "sign_type", VStr (lit "MD5")) ].
Proof.
  unfold v2_unsigned, GeneratePaymentUrlV2.default_params, dict_get_default.
  cbn [dict_get]. eval_keys. reflexivity.
Qed.

(** X20. For the same order at the same clock reading, with an amount
    and a product name that are not empty, the two builders sign alike:
    [generate_payment_url] of generate_payment_url.py and the one of
    generate_payment_url_v2.py, called with the v1 merchant and key, return
    params with the same entries and the same [sign]; only the order of
    [sign] and [sign_type] differs. *)
Theorem builders_sign_alike (now : Z) (amount : pystr) (product_name : pyval) :
  amount <> [] ->
  truthy product_name = true ->
  encodable amount = true ->
  encodable (py_str product_name) = true ->
  exists u1 p1 u2 p2 sig,
    GeneratePaymentUrl.generate_payment_url now (Some (VStr amount))
      (Some product_name) = Ok (u1, p1)
    /\ GeneratePaymentUrlV2.generate_payment_url now
         (lit "http://localhost:8080") (VStr GeneratePaymentUrl.PID)
         GeneratePaymentUrl.KEY
         [ (lit "money", VStr amount); (lit "name", product_name) ]
       = Ok (u2, p2)
    /\ dict_get p1 (lit "sign") = Some (VStr sig)
    /\ dict_get p2 (lit "sign") = Some (VStr sig)
    /\ Permutation p1 p2.
Proof.
  intros Na Tn Ea En.
  assert (Ta : truthy (VStr amount) = true)
    by (destruct amount; [congruence | reflexivity]).
  set (op := GeneratePaymentUrl.order_params now (VStr amount) product_name).
  destruct (v1_builder_returns now (VStr amount) product_name Ta Tn Ea En)
    as [sig [q [Hgen1 [_ [_ [Hsign1 Hv2]]]]]].
  cbv zeta in Hgen1, Hsign1, Hv2. fold op in Hgen1, Hsign1, Hv2.
  destruct (v1_order_params_get now (VStr amount) product_name)
    as [_ [_ [Hnos Hnot]]].
  fold op in Hnos, Hnot.
  assert (Hkw : values_ok [ (lit "money", VStr amount);
                            (lit "name", product_name) ])
    by (repeat constructor; assumption).
  destruct (v2_builder_returns now (lit "http://localhost:8080")
              (VStr GeneratePaymentUrl.PID) GeneratePaymentUrl.KEY
              [ (lit "money", VStr amount); (lit "name", product_name) ])
    as [sig2 [q2 [Hsig2 [_ [Hgen2 Hnos2]]]]];
    [vm_compute; reflexivity | vm_compute; reflexivity | exact Hkw |].
  rewrite (v2_unsigned_order now GeneratePaymentUrl.PID amount product_name)
    in Hsig2, Hgen2, Hnos2.
  change [ (lit "pid", VStr GeneratePaymentUrl.PID);
           (lit "type", VStr (lit "alipay"));
           (lit "out_trade_no", VStr (lit "TEST" ++ int_str now));
           (lit "notify_url", VStr (lit "http://example.com/notify"));
           (lit "return_url", VStr (lit "http://example.com/return"));
           (lit "name", product_name);
           (lit "money", VStr amount) ] with op in Hsig2, Hgen2, Hnos2.
  assert (Hp1 : dict_set (dict_set op (lit "sign") (VStr sig))
                  (lit "sign_type") (VStr (lit "MD5"))
                = op ++ [ (lit "sign", VStr sig);
                          (lit "sign_type", VStr (lit "MD5")) ]).
  { rewrite (dict_set_absent op (lit "sign") _ Hnos).
    rewrite dict_set_absent; [rewrite <- app_assoc; reflexivity|].
    rewrite <- (dict_set_absent op (lit "sign") (VStr sig) Hnos).
    rewrite dict_get_set_other by (vm_compute; reflexivity). exact Hnot. }
  assert (Hp2 : forall s,
            dict_set (op ++ [ (lit "sign_type", VStr (lit "MD5")) ])
              (lit "sign") (VStr s)
            = op ++ [ (lit "sign_type", VStr (lit "MD5"));
                      (lit "sign", VStr s) ]).
  { intros s. rewrite dict_set_absent by exact Hnos2.
    rewrite <- app_assoc. reflexivity. }
  assert (Esig : sig2 = sig).
  { rewrite Hp1 in Hv2.
    assert (F : GeneratePaymentUrlV2.filtered
                  (op ++ [ (lit "sign", VStr sig);
                           (lit "sign_type", VStr (lit "MD5")) ])
                = GeneratePaymentUrlV2.filtered
                    (op ++ [ (lit "sign_type", VStr (lit "MD5")) ])).
    { unfold GeneratePaymentUrlV2.filtered. rewrite !filter_app.
      f_equal. cbn [filter fst snd].
      replace (GeneratePaymentUrlV2.reserved (lit "sign")) with true
        by (vm_compute; reflexivity).
      replace (GeneratePaymentUrlV2.reserved (lit "sign_type")) with true
        by (vm_compute; reflexivity).
      rewrite !andb_false_r. reflexivity. }
    unfold GeneratePaymentUrlV2.generate_sign in Hv2, Hsig2.
    rewrite (v2_sign_str_filtered _ _ F) in Hv2. congruence. }
  subst sig2. rewrite Hp2 in Hgen2. rewrite Hp1 in Hgen1, Hsign1.
  eexists. eexists. eexists. eexists. exists sig.
  split; [exact Hgen1|]. split; [exact Hgen2|]. split; [exact Hsign1|].
  split.
  - rewrite <- (Hp2 sig). apply dict_get_set_same.
  - apply Permutation_app_head, perm_swap.
Qed.

Lemma builders_sign_alike_witness :
  lit "0.01" <> []
  /\ truthy (VStr (lit "测试商品")) = true
  /\ exists u1 p1 u2 p2 sig,
       GeneratePaymentUrl.generate_payment_url 1700000000
         (Some (VStr (lit "0.01"))) (Some (VStr (lit "测试商品")))
       = Ok (u1, p1)
       /\ GeneratePaymentUrlV2.generate_payment_url 1700000000
            (lit "http://localhost:8080") (VStr GeneratePaymentUrl.PID)
            GeneratePaymentUrl.KEY
            [ (lit "money", VStr (lit "0.01"));
              (lit "name", VStr (lit "测试商品")) ]
          = Ok (u2, p2)
       /\ dict_get p1 (lit "sign") = Some (VStr sig)
       /\ dict_get p2 (lit "sign") = Some (VStr sig)
       /\ Permutation p1 p2.
Proof.
  assert (H1 : lit "0.01" <> []) by (vm_compute; discriminate).
  assert (H2 : truthy (VStr (lit "测试商品")) = true)
    by (vm_compute; reflexivity).
  assert (H3 : encodable (lit "0.01") = true) by (vm_compute; reflexivity).
  assert (H4 : encodable (py_str (VStr (lit "测试商品"))) = true)
    by (vm_compute; reflexivity).
  split; [exact H1|]. split; [exact H2|].
  exact (builders_sign_alike 1700000000 (lit "0.01") (VStr (lit "测试商品"))
           H1 H2 H3 H4).
Defined.

(* ================================================================== *)
(** * How the builders fail *)







(* ================================================================== *)
(** * test_payment.py: a run of the script *)

Lemma test_payment_canonical (now : Z) :
  TestPayment.sign_str (TestPayment.params now)
  = Ok (lit "money=0.01&name=测试商品&notify_url=http://example.com/notify&out_trade_no=TEST"
        ++ int_str now
        ++ lit "&pid=1001001276912812&return_url=http://example.com/return&type=alipay").
Proof. vm_compute. reflexivity. Qed.

Section TestPaymentScript.
Import Console.
Variable repr_str : pystr -> pystr.
Hypothesis repr_encodable :
  forall s, encodable s = true -> encodable (repr_str s) = true.

(** X22. Whatever the clock reads, the script test_payment.py runs to
    its end, reads nothing, and prints exactly ten lines: the signing
    trace, with the selected params, the canonical string of all seven
    fields, the canonical string followed by the key, and the signature;
    then the URL between two rules, and the closing hint.  The URL is the
    one of the module body, and the signature in the trace is the [sign]
    it carries. *)
Theorem test_payment_script_output (now : Z) :
  let s := lit "money=0.01&name=测试商品&notify_url=http://example.com/notify&out_trade_no=TEST"
           ++ int_str now
           ++ lit "&pid=1001001276912812&return_url=http://example.com/return&type=alipay" in
  exists url sig tr,
    TestPayment.full_url now = Ok url
    /\ TestPayment.generate_sign (TestPayment.params now) TestPayment.KEY
       = Ok sig
    /\ TestPaymentCli.script repr_str now ([], []) = (Ok tt, ([], tr))
    /\ tr = map Print
              [ 10 :: lit "签名计算过程:";
                lit "参数: "
                ++ GeneratePaymentUrlV2Cli.dict_repr repr_str
                     (TestPayment.filtered (TestPayment.params now));
                lit "签名串: " ++ s;
                lit "加密钥: " ++ s ++ TestPayment.KEY;
                lit "签  名: " ++ sig ++ [10];
                repeat 61 70%nat;
                lit "支付URL:";
                url;
                repeat 61 70%nat;
                10 :: lit "复制此URL到浏览器测试" ++ [10] ].
Proof.
  intros s.
  assert (Hok : Forall entry_ok (TestPayment.params now)).
  { apply (default_params_ok now (VStr TestPayment.PID) []);
      [vm_compute; reflexivity | constructor]. }
  assert (EK : encodable TestPayment.KEY = true) by (vm_compute; reflexivity).
  pose proof (test_payment_canonical now) as Hs. fold s in Hs.
  assert (Es : encodable s = true).
  { unfold s. rewrite !encodable_app, int_str_encodable.
    vm_compute. reflexivity. }
  destruct (v2_generate_sign_total (TestPayment.params now) TestPayment.KEY
              Hok EK) as [sig [Hsig [_ Hhex]]].
  rewrite <- test_payment_generate_sign_v2 in Hsig.
  assert (Hmd5 : TestPayment.md5 (s ++ TestPayment.KEY) = Ok sig).
  { unfold TestPayment.generate_sign in Hsig. rewrite Hs in Hsig.
    exact Hsig. }
  pose proof (lower_hex_encodable sig Hhex) as Esig.
  assert (Hok' : Forall entry_ok
                   (dict_set (TestPayment.params now) (lit "sign")
                      (VStr sig))).
  { apply dict_set_entries_ok; [exact Hok|].
    split; [vm_compute; reflexivity | exact Esig]. }
  destruct (urlencode_total _ Hok') as [q Hq].
  pose proof (query_chars_encodable q (urlencode_query_chars _ _ Hq)) as Eq.
  assert (E1 : encodable
                 (GeneratePaymentUrlV2Cli.dict_repr repr_str
                    (TestPayment.filtered (TestPayment.params now))) = true).
  { apply (dict_repr_encodable repr_str repr_encodable).
    exact (filtered_entries_ok _ Hok). }
  exists (TestPayment.BASE_URL ++ lit "/submit?" ++ q), sig. eexists.
  split; [|split; [exact Hsig|split]].
  - unfold TestPayment.full_url. rewrite Hsig. cbn [bind]. rewrite Hq.
    reflexivity.
  - unfold TestPaymentCli.script, TestPaymentCli.generate_sign.
    unfold io_bind at 1. unfold io_bind at 1. unfold lift at 1.
    rewrite Hs. cbv beta zeta.
    repeat console_step. unfold io_ret. cbv beta zeta. cbn [fst snd].
    repeat console_step. cbv beta zeta; cbn [fst snd].
    rewrite print_ok by enc. cbn [fst snd app]. reflexivity.
  - reflexivity.
Qed.

End TestPaymentScript.

Lemma test_payment_script_output_witness :
  exists url sig tr,
    TestPayment.full_url 1700000000 = Ok url
    /\ TestPayment.generate_sign (TestPayment.params 1700000000)
         TestPayment.KEY = Ok sig
    /\ TestPaymentCli.script Oracles.quoted 1700000000 ([], [])
       = (Ok tt, ([], tr))
    /\ In (Console.Print url) tr.
Proof.
  destruct (test_payment_script_output Oracles.quoted quoted_encodable
              1700000000) as [url [sig [tr [Hu [Hs [Hrun Htr]]]]]].
  exists url, sig, tr.
  split; [exact Hu|]. split; [exact Hs|]. split; [exact Hrun|].
  rewrite Htr. cbn [map In]. tauto.
Defined.
